(** * RescueX: the hazard-scoring engine of [disaster_predictor.py]

    A shallow embedding of [DisasterPredictor] (with the [WeatherData] and
    [DisasterPrediction] models of [models.py] and the read side of
    [prediction_storage.py]) and the properties the design document states
    about it.

    Modelling conventions.
    - Python floats are exact rationals ([Q]); [int] fields are [Z].
      Comparisons are the boolean tests the code branches on.
    - A pydantic model is a record; attribute access by a name the model
      does not declare raises [AttributeError], [hasattr] is [false] there.
    - A method that can raise returns a [result]; [self] is passed
      explicitly and a mutating method returns the new [self].
    - Text is ASCII.  The values of an input dictionary are numbers,
      strings or [None]; a dictionary that the code only reads is a table
      in source order, one that it builds is a [gmap] or, where the order
      of insertion matters, an association list. *)

From Stdlib Require Import QArith Qminmax Qabs Lqa ZArith String Ascii DecimalString.
From stdpp Require Import gmap strings list.

Open Scope string_scope.
Open Scope list_scope.
Open Scope Q_scope.

(** ** Numbers *)

Definition Qltb (x y : Q) : bool := negb (Qle_bool y x).
Definition Qgtb (x y : Q) : bool := Qltb y x.

Infix "<?" := Qltb (at level 70, no associativity) : Q_scope.
Infix ">?" := Qgtb (at level 70, no associativity) : Q_scope.

(** Python's [int(x)] on a float: truncation toward zero. *)
Definition py_int (x : Q) : Z := Z.quot (Qnum x) (Zpos (Qden x)).

(** [str(n)] for an integer. *)
Definition str_of_Z (n : Z) : string := NilZero.string_of_int (Z.to_int n).

(** ** Strings *)

Definition lower_ascii (c : ascii) : ascii :=
  let n := nat_of_ascii c in
  if (65 <=? n)%nat && (n <=? 90)%nat then ascii_of_nat (n + 32) else c.

Fixpoint lower (s : string) : string :=
  match s with
  | EmptyString => EmptyString
  | String c s' => String (lower_ascii c) (lower s')
  end.

Definition is_space (c : ascii) : bool :=
  let n := nat_of_ascii c in
  (n =? 32)%nat || ((9 <=? n)%nat && (n <=? 13)%nat) || ((28 <=? n)%nat && (n <=? 31)%nat).

Fixpoint lstrip (s : string) : string :=
  match s with
  | String c s' => if is_space c then lstrip s' else s
  | EmptyString => EmptyString
  end.

Fixpoint rstrip (s : string) : string :=
  match s with
  | EmptyString => EmptyString
  | String c s' =>
      match rstrip s' with
      | EmptyString => if is_space c then EmptyString else String c EmptyString
      | r => String c r
      end
  end.

Definition strip (s : string) : string := rstrip (lstrip s).

(** [term in s] on strings: [term] occurs as a substring of [s]. *)
Fixpoint contains (term s : string) : bool :=
  String.prefix term s ||
  match s with
  | EmptyString => false
  | String _ s' => contains term s'
  end.

Fixpoint endswith (s suffix : string) : bool :=
  String.eqb s suffix ||
  match s with
  | EmptyString => false
  | String _ s' => endswith s' suffix
  end.

(** ** Values, exceptions, results *)

Inductive PyVal : Type :=
  | PyFloat (q : Q)
  | PyInt (z : Z)
  | PyStr (s : string)
  | PyNone.

(** [isinstance(value, (int, float))], with the number when it holds. *)
Definition as_number (value : PyVal) : option Q :=
  match value with
  | PyFloat q => Some q
  | PyInt z => Some (inject_Z z)
  | _ => None
  end.

Inductive PyExc : Type :=
  | AttributeError (attr : string)
  | TypeError (attr : string)
  | ValidationError (field : string).

Inductive result (A : Type) : Type :=
  | Ok (a : A)
  | Raise (e : PyExc).
Arguments Ok {A} a.
Arguments Raise {A} e.

#[global] Instance result_ret : MRet result := fun _ a => Ok a.
#[global] Instance result_bind : MBind result := fun _ _ f m =>
  match m with
  | Ok a => f a
  | Raise e => Raise e
  end.

(** ** models.py *)

Record WeatherData : Type := mkWeatherData {
  temperature : Q;
  humidity : Q;
  precipitation : Q;
  wind_speed : Q;
  pressure : Q;
  snow_depth : Q;
  temperature_gradient : Q;
  consecutive_dry_days : Z;
  soil_saturation : Q;
  temperature_change : Q;
  snow_fall : Q;
  air_quality_index : Z;
  seismic_activity : Q;
  coastal_proximity : Q;
  volcanic_activity : Q;
  pressure_change : Q;
  cloud_height : Q;
  dew_point : Q;
  stagnant_water_index : Q;
  urban_runoff_index : Q;
  temperature_profile : string
}.

Record DisasterPrediction : Type := mkDisasterPrediction {
  disaster_type : string;
  probability : Q;
  severity : string;
  description : string
}.

(** [weather_data.dict()]: the declared fields, in declaration order. *)
Definition dict_ (w : WeatherData) : list (string * PyVal) :=
  [ ("temperature", PyFloat (temperature w));
    ("humidity", PyFloat (humidity w));
    ("precipitation", PyFloat (precipitation w));
    ("wind_speed", PyFloat (wind_speed w));
    ("pressure", PyFloat (pressure w));
    ("snow_depth", PyFloat (snow_depth w));
    ("temperature_gradient", PyFloat (temperature_gradient w));
    ("consecutive_dry_days", PyInt (consecutive_dry_days w));
    ("soil_saturation", PyFloat (soil_saturation w));
    ("temperature_change", PyFloat (temperature_change w));
    ("snow_fall", PyFloat (snow_fall w));
    ("air_quality_index", PyInt (air_quality_index w));
    ("seismic_activity", PyFloat (seismic_activity w));
    ("coastal_proximity", PyFloat (coastal_proximity w));
    ("volcanic_activity", PyFloat (volcanic_activity w));
    ("pressure_change", PyFloat (pressure_change w));
    ("cloud_height", PyFloat (cloud_height w));
    ("dew_point", PyFloat (dew_point w));
    ("stagnant_water_index", PyFloat (stagnant_water_index w));
    ("urban_runoff_index", PyFloat (urban_runoff_index w));
    ("temperature_profile", PyStr (temperature_profile w)) ].

(** Lookup in a table written as a Python dict literal. *)
Fixpoint table_get {V : Type} (k : string) (t : list (string * V)) : option V :=
  match t with
  | [] => None
  | (k', v) :: t' => if String.eqb k k' then Some v else table_get k t'
  end.

(** [getattr(weather_data, name)] without a default: [None] stands for
    the [AttributeError] of an undeclared name. *)
Definition getattr (w : WeatherData) (name : string) : option PyVal :=
  table_get name (dict_ w).

Definition hasattr (w : WeatherData) (name : string) : bool :=
  match getattr w name with Some _ => true | None => false end.

(** [weather_data.<name>] used as a number. *)
Definition attr (w : WeatherData) (name : string) : result Q :=
  match getattr w name with
  | Some value =>
      match as_number value with
      | Some q => Ok q
      | None => Raise (TypeError name)
      end
  | None => Raise (AttributeError name)
  end.

(** [hasattr(weather_data, name) and weather_data.<name> ...]: the number
    when the attribute exists (the names read this way are numeric fields
    or are not declared at all). *)
Definition attr_if_present (w : WeatherData) (name : string) : option Q :=
  getattr w name ≫= as_number.

(** [WeatherData()]: every field at its declared default. *)
Definition WeatherData_default : WeatherData :=
  {| temperature := 0;
     humidity := 0;
     precipitation := 0;
     wind_speed := 0;
     pressure := 1013;
     snow_depth := 0;
     temperature_gradient := 0;
     consecutive_dry_days := 0;
     soil_saturation := 0;
     temperature_change := 0;
     snow_fall := 0;
     air_quality_index := 0;
     seismic_activity := 0;
     coastal_proximity := 9999;
     volcanic_activity := 0;
     pressure_change := 0;
     cloud_height := 10000;
     dew_point := 0;
     stagnant_water_index := 0;
     urban_runoff_index := 0;
     temperature_profile := "normal" |}.

(** pydantic's parsing of one keyword argument.  A missing key takes the
    declared default, an [int] is accepted for a [float] field, a float
    with no fractional part for an [int] field; any other value is a
    validation error. *)
Definition float_field (kw : gmap string PyVal) (name : string) (default : Q) : result Q :=
  match kw !! name with
  | None => Ok default
  | Some (PyFloat q) => Ok q
  | Some (PyInt z) => Ok (inject_Z z)
  | Some _ => Raise (ValidationError name)
  end.

Definition int_field (kw : gmap string PyVal) (name : string) (default : Z) : result Z :=
  match kw !! name with
  | None => Ok default
  | Some (PyInt z) => Ok z
  | Some (PyFloat q) =>
      if Qeq_bool q (inject_Z (py_int q)) then Ok (py_int q)
      else Raise (ValidationError name)
  | Some _ => Raise (ValidationError name)
  end.

Definition str_field (kw : gmap string PyVal) (name : string) (default : string) : result string :=
  match kw !! name with
  | None => Ok default
  | Some (PyStr s) => Ok s
  | Some _ => Raise (ValidationError name)
  end.

(** The constructor [WeatherData] applied to keyword arguments [kw]: keys
    that are not fields are ignored (pydantic's default for extra keys), so
    they are not attributes of the object. *)
Definition WeatherData_init (kw : gmap string PyVal) : result WeatherData :=
  temperature ← float_field kw "temperature" 0;
  humidity ← float_field kw "humidity" 0;
  precipitation ← float_field kw "precipitation" 0;
  wind_speed ← float_field kw "wind_speed" 0;
  pressure ← float_field kw "pressure" 1013;
  snow_depth ← float_field kw "snow_depth" 0;
  temperature_gradient ← float_field kw "temperature_gradient" 0;
  consecutive_dry_days ← int_field kw "consecutive_dry_days" 0;
  soil_saturation ← float_field kw "soil_saturation" 0;
  temperature_change ← float_field kw "temperature_change" 0;
  snow_fall ← float_field kw "snow_fall" 0;
  air_quality_index ← int_field kw "air_quality_index" 0;
  seismic_activity ← float_field kw "seismic_activity" 0;
  coastal_proximity ← float_field kw "coastal_proximity" 9999;
  volcanic_activity ← float_field kw "volcanic_activity" 0;
  pressure_change ← float_field kw "pressure_change" 0;
  cloud_height ← float_field kw "cloud_height" 10000;
  dew_point ← float_field kw "dew_point" 0;
  stagnant_water_index ← float_field kw "stagnant_water_index" 0;
  urban_runoff_index ← float_field kw "urban_runoff_index" 0;
  temperature_profile ← str_field kw "temperature_profile" "normal";
  Ok (mkWeatherData temperature humidity precipitation wind_speed pressure
        snow_depth temperature_gradient consecutive_dry_days soil_saturation
        temperature_change snow_fall air_quality_index seismic_activity
        coastal_proximity volcanic_activity pressure_change cloud_height
        dew_point stagnant_water_index urban_runoff_index temperature_profile).

(** ** prediction_storage.py, read side *)

(** A row of the [predictions] table as [get_recent_predictions] returns
    it: the stored findings and the [accuracy] column ([NULL] by default). *)
Record StoredPrediction : Type := mkStoredPrediction {
  predictions : list DisasterPrediction;
  accuracy : option Q
}.

(** The table, most recent row first. *)
Definition PredictionStorage : Type := list StoredPrediction.

Definition get_recent_predictions (db : PredictionStorage) (limit : nat) : list StoredPrediction :=
  take limit db.

(** ** disaster_predictor.py: class attributes *)

Definition ATTRIBUTE_ALIASES : list (string * string) :=
  [ ("tempature", "temperature");
    ("temperatue", "temperature");
    ("temprature", "temperature");
    ("humid", "humidity");
    ("humidty", "humidity");
    ("precip", "precipitation");
    ("rainfall", "precipitation");
    ("wind", "wind_speed");
    ("windspeed", "wind_speed");
    ("pressure", "pressure");
    ("temp", "temperature");
    ("rain", "precipitation");
    ("winds", "wind_speed");
    ("soil_moisture", "soil_saturation");
    ("dry_days", "consecutive_dry_days");
    ("hot_days", "consecutive_hot_days");
    ("air_quality", "air_quality_index");
    ("aqi", "air_quality_index");
    ("earthquake", "seismic_activity");
    ("coastal_distance", "coastal_proximity");
    ("volcano", "volcanic_activity") ].

Definition LOCATION_ALIASES : list (string * list string) :=
  [ ("cherrapunji", ["chirapunji"; "cheerapunji"; "chirrapunji"; "cherapunji"]);
    ("mumbai", ["bombay"; "mumbia"; "mumbye"]);
    ("delhi", ["new delhi"; "dilli"; "dehli"]);
    ("bangalore", ["bengaluru"; "banglore"; "bangalor"]);
    ("chennai", ["madras"; "chenai"; "chinnai"]);
    ("kolkata", ["calcutta"; "kolkatta"; "kolkota"]);
    ("new york", ["newyork"; "ny"; "new york city"; "nyc"]);
    ("los angeles", ["la"; "l.a."; "losangeles"]);
    ("san francisco", ["sf"; "sanfran"; "sanfrancisco"]);
    ("new orleans", ["neworleans"; "nawlins"]);
    ("london", ["londra"; "londen"]);
    ("paris", ["pari"; "paree"]);
    ("tokyo", ["tokio"; "toyko"]);
    ("beijing", ["peking"; "beijing"]);
    ("sydney", ["sidney"]) ].

Definition VALID_RANGES : list (string * (Z * Z)) :=
  [ ("temperature", (-70, 60)%Z);
    ("humidity", (0, 100)%Z);
    ("precipitation", (0, 2000)%Z);
    ("wind_speed", (0, 150)%Z);
    ("pressure", (870, 1085)%Z);
    ("air_quality_index", (0, 1000)%Z);
    ("seismic_activity", (0, 10)%Z) ].

(** The predictor object: its coefficient dictionary and its storage. *)
Record DisasterPredictor : Type := mkDisasterPredictor {
  storage : PredictionStorage;
  learning_coefficients : gmap string Q
}.

(** [__init__] *)
Definition init (db : PredictionStorage) : DisasterPredictor :=
  {| storage := db;
     learning_coefficients :=
       <["flood" := 1]> (<["heat_wave" := 1]> (<["storm" := 1]> (<["wildfire" := 1]>
       (<["tornado" := 1]> (<["earthquake" := 1]> (<["air_quality" := 1]> ∅)))))) |}.

(** ** Input sanitising *)

(** One turn of the loop of [_validate_weather_data] over [VALID_RANGES].
    [getattr_] is the object the values are read from, [validated_data]
    the dictionary being corrected. *)
Definition range_check (getattr_ : string → option PyVal)
    (validated_data : gmap string PyVal) (entry : string * (Z * Z)) : gmap string PyVal :=
  let '(attr, (min_val, max_val)) := entry in
  match getattr_ attr with
  | None => validated_data
  | Some value =>
      match as_number value with
      | None => validated_data
      | Some v =>
          if v <? inject_Z min_val then <[attr := PyInt min_val]> validated_data
          else if v >? inject_Z max_val then <[attr := PyInt max_val]> validated_data
          else validated_data
      end
  end.

Definition validate_dict (getattr_ : string → option PyVal)
    (validated_data : gmap string PyVal) : gmap string PyVal :=
  foldl (range_check getattr_) validated_data VALID_RANGES.

Definition _validate_weather_data (weather_data : WeatherData) : result WeatherData :=
  let validated_data := list_to_map (dict_ weather_data) in
  WeatherData_init (validate_dict (getattr weather_data) validated_data).

(** The argument of [predict_disasters]: a model object or a dictionary
    (its items in insertion order). *)
Inductive RawWeather : Type :=
  | RawModel (w : WeatherData)
  | RawDict (items : list (string * PyVal)).

Definition normalize_keys (items : list (string * PyVal)) : gmap string PyVal :=
  foldl (fun normalized_data '(key, value) =>
           let clean_key := strip (lower key) in
           let normalized_key :=
             match table_get clean_key ATTRIBUTE_ALIASES with
             | Some canonical => canonical
             | None => clean_key
             end in
           <[normalized_key := value]> normalized_data)
        ∅ items.

Definition salvage (normalized_data : gmap string PyVal) : gmap string PyVal :=
  foldl (fun valid_data attr =>
           let normalized_attr := default attr (table_get attr ATTRIBUTE_ALIASES) in
           match normalized_data !! normalized_attr with
           | Some value => <[attr := value]> valid_data
           | None => valid_data
           end)
        ∅ ["temperature"; "humidity"; "precipitation"; "wind_speed"; "pressure"].

Definition _sanitize_input (raw_data : RawWeather) : result WeatherData :=
  match raw_data with
  | RawModel w => _validate_weather_data w
  | RawDict items =>
      let normalized_data := normalize_keys items in
      match WeatherData_init normalized_data ≫= _validate_weather_data with
      | Ok weather_data => Ok weather_data
      | Raise _ =>
          match WeatherData_init (salvage normalized_data) with
          | Ok weather_data => Ok weather_data
          | Raise _ => WeatherData_init ∅
          end
      end
  end.

(** Closed forms used to state what validation computes: the value a range
    leaves in place of [v], the entry of the corrected dictionary under
    [key], and the validated object. *)
Definition clamp_float (min_val max_val : Z) (v : Q) : Q :=
  if v <? inject_Z min_val then inject_Z min_val
  else if v >? inject_Z max_val then inject_Z max_val
  else v.

Definition clamp_int (min_val max_val : Z) (z : Z) : Z :=
  if inject_Z z <? inject_Z min_val then min_val
  else if inject_Z z >? inject_Z max_val then max_val
  else z.

Definition corrected (getattr_ : string → option PyVal) (d : gmap string PyVal)
    (ranges : list (string * (Z * Z))) (key : string) : option PyVal :=
  match table_get key ranges with
  | Some (min_val, max_val) =>
      match getattr_ key ≫= as_number with
      | Some v =>
          if v <? inject_Z min_val then Some (PyInt min_val)
          else if v >? inject_Z max_val then Some (PyInt max_val)
          else d !! key
      | None => d !! key
      end
  | None => d !! key
  end.

Definition clamped (w : WeatherData) : WeatherData :=
  {| temperature := clamp_float (-70) 60 (temperature w);
     humidity := clamp_float 0 100 (humidity w);
     precipitation := clamp_float 0 2000 (precipitation w);
     wind_speed := clamp_float 0 150 (wind_speed w);
     pressure := clamp_float 870 1085 (pressure w);
     snow_depth := snow_depth w;
     temperature_gradient := temperature_gradient w;
     consecutive_dry_days := consecutive_dry_days w;
     soil_saturation := soil_saturation w;
     temperature_change := temperature_change w;
     snow_fall := snow_fall w;
     air_quality_index := clamp_int 0 1000 (air_quality_index w);
     seismic_activity := clamp_float 0 10 (seismic_activity w);
     coastal_proximity := coastal_proximity w;
     volcanic_activity := volcanic_activity w;
     pressure_change := pressure_change w;
     cloud_height := cloud_height w;
     dew_point := dew_point w;
     stagnant_water_index := stagnant_water_index w;
     urban_runoff_index := urban_runoff_index w;
     temperature_profile := temperature_profile w |}.

(** ** Risk functions *)

Definition _get_attribute_safely (weather_data : WeatherData) (attr : string)
    (default_value : PyVal) : PyVal :=
  match getattr weather_data attr with
  | Some value => value
  | None =>
      match
        List.find (fun '(alias, target) => String.eqb target attr && hasattr weather_data alias)
                  ATTRIBUTE_ALIASES
      with
      | Some (alias, _) => default default_value (getattr weather_data alias)
      | None => default_value
      end
  end.

(** A value used in arithmetic or in a comparison with a number. *)
Definition num (name : string) (value : PyVal) : result Q :=
  match as_number value with
  | Some q => Ok q
  | None => Raise (TypeError name)
  end.

(** The sum of the capped contributions of [_calculate_flood_risk], before
    the learning coefficient is applied. *)
Definition flood_base_risk (precipitation soil_saturation river_level_percent
    snow_depth temperature upstream_precipitation : Q) : Q :=
  let base_risk := 0 in
  let base_risk :=
    if precipitation >? 20 then base_risk + Qmin 0.6 ((precipitation - 20) * 0.015)
    else base_risk in
  let base_risk :=
    if soil_saturation >? 60 then base_risk + Qmin 0.3 ((soil_saturation - 60) * 0.0075)
    else base_risk in
  let base_risk :=
    if river_level_percent >? 70 then base_risk + Qmin 0.4 ((river_level_percent - 70) * 0.013)
    else base_risk in
  let base_risk :=
    if (snow_depth >? 10) && (temperature >? 5)
    then base_risk + Qmin 0.3 (0.1 + (temperature - 5) * 0.02)
    else base_risk in
  let base_risk :=
    if upstream_precipitation >? 30
    then base_risk + Qmin 0.3 ((upstream_precipitation - 30) * 0.01)
    else base_risk in
  base_risk.

Definition _calculate_flood_risk (self : DisasterPredictor) (weather_data : WeatherData) : result Q :=
  precipitation ← num "precipitation" (_get_attribute_safely weather_data "precipitation" (PyInt 0));
  soil_saturation ← num "soil_saturation" (_get_attribute_safely weather_data "soil_saturation" (PyInt 0));
  river_level_percent ← num "river_level_percent" (_get_attribute_safely weather_data "river_level_percent" (PyInt 0));
  snow_depth ← num "snow_depth" (_get_attribute_safely weather_data "snow_depth" (PyInt 0));
  temperature ← num "temperature" (_get_attribute_safely weather_data "temperature" (PyInt 0));
  upstream_precipitation ← num "upstream_precipitation" (_get_attribute_safely weather_data "upstream_precipitation" (PyInt 0));
  let base_risk :=
    flood_base_risk precipitation soil_saturation river_level_percent
                    snow_depth temperature upstream_precipitation in
  let base_risk := base_risk * default 1 (learning_coefficients self !! "flood") in
  Ok (Qmin 0.95 base_risk).

(** The sum of the contributions of [_calculate_heat_risk] once the
    temperature is at least 30, before the clamp. *)
Definition heat_base_risk (weather_data : WeatherData) : Q :=
  let base_risk := Qmin 0.7 ((temperature weather_data - 30) * 0.07) in
  let base_risk :=
    if humidity weather_data >? 40
    then base_risk + Qmin 0.3 ((humidity weather_data - 40) * 0.005)
    else base_risk in
  let base_risk :=
    match attr_if_present weather_data "consecutive_hot_days" with
    | Some consecutive_hot_days =>
        if consecutive_hot_days >? 1
        then base_risk + Qmin 0.2 ((consecutive_hot_days - 1) * 0.04)
        else base_risk
    | None => base_risk
    end in
  let base_risk :=
    match attr_if_present weather_data "urban_density" with
    | Some urban_density =>
        if urban_density >? 50
        then base_risk + Qmin 0.15 ((urban_density - 50) * 0.003)
        else base_risk
    | None => base_risk
    end in
  base_risk.

Definition _calculate_heat_risk (self : DisasterPredictor) (weather_data : WeatherData) : Q :=
  if temperature weather_data <? 30 then 0
  else Qmin 0.95 (heat_base_risk weather_data).

Definition storm_base_severity (weather_data : WeatherData) : Q :=
  let severity := 0 in
  let severity :=
    if wind_speed weather_data >? 30
    then severity + Qmin 0.4 ((wind_speed weather_data - 30) * 0.01)
    else severity in
  let severity :=
    if pressure weather_data <? 1005
    then severity + Qmin 0.3 ((1005 - pressure weather_data) * 0.02)
    else severity in
  let severity :=
    match attr_if_present weather_data "pressure_change" with
    | Some pressure_change =>
        if pressure_change <? -3
        then severity + Qmin 0.2 (Qabs (pressure_change + 3) * 0.06)
        else severity
    | None => severity
    end in
  let severity :=
    match attr_if_present weather_data "precipitation_intensity" with
    | Some precipitation_intensity =>
        if precipitation_intensity >? 10
        then severity + Qmin 0.2 ((precipitation_intensity - 10) * 0.02)
        else severity
    | None => severity
    end in
  let severity :=
    match attr_if_present weather_data "cape_value" with
    | Some cape_value =>
        if cape_value >? 1000
        then severity + Qmin 0.2 ((cape_value - 1000) * 0.0002)
        else severity
    | None => severity
    end in
  severity.

Definition _calculate_storm_severity (self : DisasterPredictor) (weather_data : WeatherData) : Q :=
  Qmin 0.95 (storm_base_severity weather_data).

(** The branch of [_calculate_tornado_risk] taken when the three advanced
    attributes exist; reading one of them goes through [attr]. *)
Definition tornado_base_risk (weather_data : WeatherData) : result Q :=
  let risk := 0 in
  wind_shear ← attr weather_data "wind_shear";
  let risk :=
    if wind_shear >? 20 then risk + Qmin 0.3 ((wind_shear - 20) * 0.015) else risk in
  cape_value ← attr weather_data "cape_value";
  let risk :=
    if cape_value >? 1500 then risk + Qmin 0.3 ((cape_value - 1500) * 0.0002) else risk in
  let risk :=
    if temperature_gradient weather_data >? 8
    then risk + Qmin 0.2 ((temperature_gradient weather_data - 8) * 0.025)
    else risk in
  let risk :=
    match attr_if_present weather_data "helicity" with
    | Some helicity =>
        if helicity >? 150 then risk + Qmin 0.2 ((helicity - 150) * 0.001) else risk
    | None => risk
    end in
  let risk :=
    match attr_if_present weather_data "lifted_index" with
    | Some lifted_index =>
        if lifted_index <? -4 then risk + Qmin 0.2 (Qabs (lifted_index + 4) * 0.05) else risk
    | None => risk
    end in
  Ok risk.

Definition _calculate_tornado_risk (self : DisasterPredictor) (weather_data : WeatherData) : result Q :=
  if negb (forallb (hasattr weather_data) ["wind_shear"; "cape_value"; "temperature_gradient"])
  then
    if (wind_speed weather_data >? 40)
       && hasattr weather_data "temperature_gradient"
       && (temperature_gradient weather_data >? 10)
    then Ok (0.4 + Qmin 0.3 ((wind_speed weather_data - 40) * 0.01))
    else Ok 0
  else
    risk ← tornado_base_risk weather_data;
    Ok (Qmin 0.95 risk).

Definition wildfire_base_risk (weather_data : WeatherData) : Q :=
  let risk := 0 in
  let risk :=
    if temperature weather_data >? 25
    then risk + Qmin 0.3 ((temperature weather_data - 25) * 0.02)
    else risk in
  let risk :=
    if humidity weather_data <? 40
    then risk + Qmin 0.3 ((40 - humidity weather_data) * 0.0075)
    else risk in
  let risk :=
    if wind_speed weather_data >? 15
    then risk + Qmin 0.2 ((wind_speed weather_data - 15) * 0.01)
    else risk in
  let risk :=
    match attr_if_present weather_data "consecutive_dry_days" with
    | Some consecutive_dry_days =>
        if consecutive_dry_days >? 7
        then risk + Qmin 0.2 ((consecutive_dry_days - 7) * 0.02)
        else risk
    | None => risk
    end in
  let risk :=
    match attr_if_present weather_data "vegetation_dryness" with
    | Some vegetation_dryness =>
        if vegetation_dryness >? 60
        then risk + Qmin 0.2 ((vegetation_dryness - 60) * 0.005)
        else risk
    | None => risk
    end in
  let risk :=
    match attr_if_present weather_data "dry_lightning_probability" with
    | Some dry_lightning_probability =>
        if dry_lightning_probability >? 0.3
        then risk + Qmin 0.2 dry_lightning_probability
        else risk
    | None => risk
    end in
  risk.

Definition _calculate_wildfire_risk (self : DisasterPredictor) (weather_data : WeatherData) : Q :=
  if (humidity weather_data >? 60) || (precipitation weather_data >? 5) then 0
  else Qmin 0.95 (wildfire_base_risk weather_data).

(** ** predict_disasters *)

(** Truth value of an object in a condition. *)
Definition truthy (value : PyVal) : bool :=
  match value with
  | PyFloat q => negb (Qeq_bool q 0)
  | PyInt z => negb (z =? 0)%Z
  | PyStr s => negb (String.eqb s "")
  | PyNone => false
  end.

Section Predict.

(** The rendering [f"{x:.1f}"] of a float, used in two descriptions only;
    the properties below hold whatever it prints. *)
Variable format_1f : Q → string.

(** Each block of [predict_disasters] is given as the findings it appends
    to [predictions]. *)

Definition flood_findings (flood_risk : Q) : list DisasterPrediction :=
  if flood_risk >? 0.8 then
    [ {| disaster_type := "Severe Flood";
         probability := flood_risk;
         severity := "Severe";
         description := "Multiple high-risk conditions indicate serious flooding potential" |} ]
  else if flood_risk >? 0.6 then
    [ {| disaster_type := "Moderate Flood";
         probability := flood_risk;
         severity := "Moderate";
         description := "Combined conditions suggest moderate flooding risk" |} ]
  else if flood_risk >? 0.4 then
    [ {| disaster_type := "Minor Flood";
         probability := flood_risk;
         severity := "Low";
         description := "Some flood risk factors present but limited severity expected" |} ]
  else [].

Definition flash_flood_findings (weather_data : WeatherData) : result (list DisasterPrediction) :=
  triggered ←
    (if precipitation weather_data >? 30
     then precipitation_intensity ← attr weather_data "precipitation_intensity";
          Ok (precipitation_intensity >? 15)
     else Ok false);
  if triggered : bool then
    let flash_flood_probability := Qmin 0.95 (0.6 + (precipitation weather_data - 30) * 0.02) in
    Ok [ {| disaster_type := "Flash Flood";
            probability := flash_flood_probability;
            severity := "Severe";
            description := "High intensity rainfall may cause rapid flooding in vulnerable areas" |} ]
  else Ok [].

Definition urban_flood_findings (weather_data : WeatherData) : list DisasterPrediction :=
  if precipitation weather_data >? 20 then
    let urban_flood_risk := 0.3 + Qmin 1 (urban_runoff_index weather_data / 100) * 0.6 in
    if urban_flood_risk >? 0.65 then
      [ {| disaster_type := "Urban Flooding";
           probability := urban_flood_risk;
           severity := "High";
           description := "Rain with high urban runoff potential indicates significant flood risk in city areas" |} ]
    else []
  else [].

Definition heat_findings (heat_risk : Q) : list DisasterPrediction :=
  if heat_risk >? 0.85 then
    [ {| disaster_type := "Extreme Heat Wave";
         probability := heat_risk;
         severity := "Extreme";
         description := "Critical combination of high temperature, humidity and duration poses severe health risks" |} ]
  else if heat_risk >? 0.7 then
    [ {| disaster_type := "Severe Heat Wave";
         probability := heat_risk;
         severity := "Severe";
         description := "Extended high temperature with humidity creates significant health danger" |} ]
  else if heat_risk >? 0.5 then
    [ {| disaster_type := "Heat Wave";
         probability := heat_risk;
         severity := "Moderate";
         description := "Elevated temperatures may cause heat-related health issues" |} ]
  else [].

Definition storm_findings (storm_severity : Q) : list DisasterPrediction :=
  if storm_severity >? 0.8 then
    [ {| disaster_type := "Severe Storm System";
         probability := 0.85;
         severity := "Severe";
         description := "Multiple severe storm indicators present including pressure drop, wind and instability" |} ]
  else if storm_severity >? 0.6 then
    [ {| disaster_type := "Moderate Storm";
         probability := 0.75;
         severity := "Moderate";
         description := "Storm conditions developing with potential for significant impact" |} ]
  else [].

Definition hurricane_findings (weather_data : WeatherData) : result (list DisasterPrediction) :=
  triggered ←
    (if (wind_speed weather_data >? 75) && (pressure weather_data <? 980)
     then sea_surface_temp ← attr weather_data "sea_surface_temp";
          Ok (sea_surface_temp >? 26)
     else Ok false);
  if triggered : bool then
    let cat_level := Z.min 5 (1 + py_int ((119 - pressure weather_data) / 10)) in
    Ok [ {| disaster_type := "Category " +:+ str_of_Z cat_level +:+ " Hurricane/Cyclone";
            probability := 0.9;
            severity := "Extreme";
            description := "Category " +:+ str_of_Z cat_level
                           +:+ " tropical system with damaging winds, storm surge and flooding potential" |} ]
  else Ok [].

Definition tornado_findings (tornado_risk : Q) : list DisasterPrediction :=
  if tornado_risk >? 0.7 then
    [ {| disaster_type := "Tornado Warning";
         probability := tornado_risk;
         severity := "Severe";
         description := "Atmospheric conditions highly favorable for tornado formation" |} ]
  else if tornado_risk >? 0.5 then
    [ {| disaster_type := "Tornado Watch";
         probability := tornado_risk;
         severity := "High";
         description := "Conditions support possible tornado development in the coming hours" |} ]
  else [].

Definition winter_severity_of (weather_data : WeatherData) : Q :=
  let winter_severity := 0.5 in
  let winter_severity :=
    if temperature weather_data <? -5 then winter_severity + 0.2 else winter_severity in
  let winter_severity :=
    if wind_speed weather_data >? 30 then winter_severity + 0.2 else winter_severity in
  let winter_severity :=
    if precipitation weather_data >? 20 then winter_severity + 0.1 else winter_severity in
  winter_severity.

Definition winter_findings (weather_data : WeatherData) : list DisasterPrediction :=
  if (temperature weather_data <? 2) && (precipitation weather_data >? 10) then
    let winter_severity := winter_severity_of weather_data in
    let storm_type :=
      if (winter_severity >? 0.8) && (wind_speed weather_data >? 35)
      then "Blizzard" else "Winter Storm" in
    [ {| disaster_type := storm_type;
         probability := winter_severity;
         severity := if winter_severity >? 0.8 then "Severe" else "Moderate";
         description := "Significant winter precipitation with freezing temperatures creating hazardous conditions" |} ]
  else [].

(** The conditions of the earthquake block and of the tsunami block
    nested in it. *)
Definition earthquake_triggered (weather_data : WeatherData) : bool :=
  hasattr weather_data "seismic_activity" && (seismic_activity weather_data >? 5).

Definition tsunami_triggered (weather_data : WeatherData) : bool :=
  (seismic_activity weather_data >? 6.5)
  && hasattr weather_data "coastal_proximity"
  && (coastal_proximity weather_data <? 100).

Definition tsunami_findings (weather_data : WeatherData) : list DisasterPrediction :=
  if tsunami_triggered weather_data then
    let tsunami_probability := 0.4 + Qmin 0.5 ((seismic_activity weather_data - 6.5) * 0.2) in
    let tsunami_severity :=
      if seismic_activity weather_data <? 7.5 then "Moderate" else "Severe" in
    let tsunami_probability :=
      match getattr weather_data "underwater_quake" with
      | Some underwater_quake =>
          if truthy underwater_quake then tsunami_probability + 0.3 else tsunami_probability
      | None => tsunami_probability
      end in
    [ {| disaster_type := "Tsunami";
         probability := tsunami_probability;
         severity := tsunami_severity;
         description := "Seismic activity near coast creates tsunami risk, potential wave height: "
                        +:+ format_1f ((seismic_activity weather_data - 5) * 0.5) +:+ "m" |} ]
  else [].

Definition earthquake_findings (weather_data : WeatherData) : list DisasterPrediction :=
  if earthquake_triggered weather_data then
    let quake_severity :=
      if seismic_activity weather_data <? 6 then "Minor"
      else if seismic_activity weather_data <? 7 then "Moderate"
      else if seismic_activity weather_data <? 8 then "Major"
      else "Extreme" in
    let earthquake_prob := Qmin 0.95 (0.5 + (seismic_activity weather_data - 5) * 0.1) in
    {| disaster_type := quake_severity +:+ " Earthquake";
       probability := earthquake_prob;
       severity := quake_severity;
       description := "Seismic activity of magnitude "
                      +:+ format_1f (seismic_activity weather_data) +:+ " detected" |}
    :: tsunami_findings weather_data
  else [].

Definition wildfire_findings (wildfire_risk : Q) : list DisasterPrediction :=
  if wildfire_risk >? 0.8 then
    [ {| disaster_type := "Extreme Fire Danger";
         probability := wildfire_risk;
         severity := "Extreme";
         description := "Critical fire weather conditions present extreme wildfire danger" |} ]
  else if wildfire_risk >? 0.6 then
    [ {| disaster_type := "High Fire Danger";
         probability := wildfire_risk;
         severity := "High";
         description := "Weather conditions favorable for rapid fire spread" |} ]
  else if wildfire_risk >? 0.4 then
    [ {| disaster_type := "Moderate Fire Danger";
         probability := wildfire_risk;
         severity := "Moderate";
         description := "Some fire risk conditions present, caution advised" |} ]
  else [].

Definition air_quality_findings (weather_data : WeatherData) : list DisasterPrediction :=
  if hasattr weather_data "air_quality_index" && (0 <? air_quality_index weather_data)%Z then
    if (300 <? air_quality_index weather_data)%Z then
      [ {| disaster_type := "Hazardous Air Quality Emergency";
           probability := 0.95;
           severity := "Extreme";
           description := "Extremely dangerous air quality levels pose immediate health threats to all" |} ]
    else if (200 <? air_quality_index weather_data)%Z then
      [ {| disaster_type := "Very Unhealthy Air Quality";
           probability := 0.9;
           severity := "Severe";
           description := "Very poor air quality may cause serious health effects for everyone" |} ]
    else if (150 <? air_quality_index weather_data)%Z then
      [ {| disaster_type := "Unhealthy Air Quality";
           probability := 0.8;
           severity := "High";
           description := "Unhealthy air quality affects sensitive groups and may affect general population" |} ]
    else []
  else [].

(** The finding of the default case. *)
Definition no_significant_hazards : DisasterPrediction :=
  {| disaster_type := "No Significant Hazards";
     probability := 0.8;
     severity := "Low";
     description := "Current conditions do not indicate any significant disaster risks" |}.

(** The body of [predict_disasters] between the sanitising of the input
    and the default case: [predictions] after the last hazard block. *)
Definition hazard_findings (self : DisasterPredictor) (weather_data : WeatherData)
    : result (list DisasterPrediction) :=
  let predictions := [] in
  flood_risk ← _calculate_flood_risk self weather_data;
  let predictions := predictions ++ flood_findings flood_risk in
  flash_flood ← flash_flood_findings weather_data;
  let predictions := predictions ++ flash_flood in
  let predictions := predictions ++ urban_flood_findings weather_data in
  let heat_risk := _calculate_heat_risk self weather_data in
  let predictions := predictions ++ heat_findings heat_risk in
  let storm_severity := _calculate_storm_severity self weather_data in
  let predictions := predictions ++ storm_findings storm_severity in
  hurricane ← hurricane_findings weather_data;
  let predictions := predictions ++ hurricane in
  tornado_risk ← _calculate_tornado_risk self weather_data;
  let predictions := predictions ++ tornado_findings tornado_risk in
  let predictions := predictions ++ winter_findings weather_data in
  let predictions := predictions ++ earthquake_findings weather_data in
  let wildfire_risk := _calculate_wildfire_risk self weather_data in
  let predictions := predictions ++ wildfire_findings wildfire_risk in
  let predictions := predictions ++ air_quality_findings weather_data in
  Ok predictions.

Definition predict_disasters (self : DisasterPredictor) (raw_weather_data : RawWeather)
    : result (list DisasterPrediction) :=
  weather_data ← _sanitize_input raw_weather_data;
  predictions ← hazard_findings self weather_data;
  match predictions with
  | [] => Ok [no_significant_hazards]
  | _ => Ok predictions
  end.

(** What the run computes when no block raises: the two risks that come
    back as results, and the findings of all blocks in order. *)
Definition flood_risk_of (self : DisasterPredictor) (w : WeatherData) : Q :=
  Qmin 0.95 (flood_base_risk (precipitation w) (soil_saturation w) 0 (snow_depth w)
                             (temperature w) 0
             * default 1 (learning_coefficients self !! "flood")).

Definition tornado_risk_of (w : WeatherData) : Q :=
  if (wind_speed w >? 40) && (temperature_gradient w >? 10)
  then 0.4 + Qmin 0.3 ((wind_speed w - 40) * 0.01) else 0.

Definition findings_of (self : DisasterPredictor) (w : WeatherData)
    : list DisasterPrediction :=
  flood_findings (flood_risk_of self w)
  ++ urban_flood_findings w
  ++ heat_findings (_calculate_heat_risk self w)
  ++ storm_findings (_calculate_storm_severity self w)
  ++ tornado_findings (tornado_risk_of w)
  ++ winter_findings w
  ++ earthquake_findings w
  ++ wildfire_findings (_calculate_wildfire_risk self w)
  ++ air_quality_findings w.

End Predict.

(** ** learn_from_history *)

Definition _map_to_category (disaster_type : string) : string :=
  let disaster_type := lower disaster_type in
  let any_in (terms : list string) := existsb (fun term => contains term disaster_type) terms in
  if any_in ["flood"; "rain"; "water"] then "flood"
  else if any_in ["heat"; "hot"] then "heat_wave"
  else if any_in ["storm"; "hurricane"; "cyclone"; "typhoon"] then "storm"
  else if any_in ["fire"; "wildfire"] then "wildfire"
  else if any_in ["tornado"] then "tornado"
  else if any_in ["earthquake"; "seismic"] then "earthquake"
  else if any_in ["air"; "pollution"] then "air_quality"
  else "other".

(** [accuracy_by_type] is a dictionary of lists, kept in insertion order.
    [record_accuracy category a d] is [d] after
    [if category not in d: d[category] = []] and [d[category].append(a)]. *)
Fixpoint record_accuracy (category : string) (a : Q) (d : list (string * list Q))
    : list (string * list Q) :=
  match d with
  | [] => [(category, [a])]
  | (k, accuracies) :: d' =>
      if String.eqb k category then (k, accuracies ++ [a]) :: d'
      else (k, accuracies) :: record_accuracy category a d'
  end.

Definition collect_accuracies (recent_predictions : list StoredPrediction)
    : list (string * list Q) :=
  foldl (fun accuracy_by_type record =>
           match accuracy record with
           | None => accuracy_by_type
           | Some a =>
               foldl (fun accuracy_by_type prediction =>
                        let disaster_type := lower (disaster_type prediction) in
                        let category := _map_to_category disaster_type in
                        record_accuracy category a accuracy_by_type)
                     accuracy_by_type (predictions record)
           end)
        [] recent_predictions.

(** [sum(accuracies)] *)
Definition py_sum (accuracies : list Q) : Q := foldl Qplus 0 accuracies.

Definition adjustment_of (accuracies : list Q) : Q :=
  let avg_accuracy := py_sum accuracies / inject_Z (Z.of_nat (length accuracies)) in
  (avg_accuracy - 0.5) * 0.1.

Definition update_coefficients (coefficients : gmap string Q)
    (accuracy_by_type : list (string * list Q)) : gmap string Q :=
  foldl (fun coefficients '(category, accuracies) =>
           if (0 <? length accuracies)%nat then
             let adjustment := adjustment_of accuracies in
             match coefficients !! category with
             | Some c => <[category := Qmax 0.5 (Qmin 1.5 (c + adjustment))]> coefficients
             | None => coefficients
             end
           else coefficients)
        coefficients accuracy_by_type.

Definition learn_from_history (self : DisasterPredictor) : DisasterPredictor :=
  let recent_predictions := get_recent_predictions (storage self) 100 in
  if (length recent_predictions <? 5)%nat then self
  else
    let accuracy_by_type := collect_accuracies recent_predictions in
    {| storage := storage self;
       learning_coefficients := update_coefficients (learning_coefficients self) accuracy_by_type |}.

(** The feedback a run collects for one family, the value a run gives a
    coefficient [c] of a family with that feedback, and the number of
    feedback-bearing records of a history. *)
Definition feedback_of (self : DisasterPredictor) (family : string) : option (list Q) :=
  table_get family (collect_accuracies (get_recent_predictions (storage self) 100)).

Definition adjusted (c : Q) (accuracies : list Q) : Q :=
  Qmax 0.5 (Qmin 1.5 (c + adjustment_of accuracies)).

Definition feedback_bearing (history : list StoredPrediction) : list StoredPrediction :=
  List.filter (fun record => match accuracy record with Some _ => true | None => false end)
              history.

(** The invariant of the dictionary built by the collecting loop: keys are
    distinct and no list is empty. *)
Definition well_formed (d : list (string * list Q)) : Prop :=
  NoDup d.*1 ∧ Forall (λ entry, entry.2 ≠ []) d.

(** A stored flood prediction, with or without accuracy feedback. *)
Definition flood_record (feedback : option Q) : StoredPrediction :=
  {| predictions :=
       [ {| disaster_type := "Severe Flood";
            probability := 0.85;
            severity := "Severe";
            description := "Multiple high-risk conditions indicate serious flooding potential" |} ];
     accuracy := feedback |}.

(** A stored heat-wave prediction. *)
Definition heat_record (feedback : option Q) : StoredPrediction :=
  {| predictions :=
       [ {| disaster_type := "Heat Wave";
            probability := 0.6;
            severity := "Moderate";
            description := "Elevated temperatures may cause heat-related health issues" |} ];
     accuracy := feedback |}.

(** [WeatherData(temperature=35)]. *)
Definition hot_day : WeatherData :=
  {| temperature := 35;
     humidity := 0;
     precipitation := 0;
     wind_speed := 0;
     pressure := 1013;
     snow_depth := 0;
     temperature_gradient := 0;
     consecutive_dry_days := 0;
     soil_saturation := 0;
     temperature_change := 0;
     snow_fall := 0;
     air_quality_index := 0;
     seismic_activity := 0;
     coastal_proximity := 9999;
     volcanic_activity := 0;
     pressure_change := 0;
     cloud_height := 10000;
     dew_point := 0;
     stagnant_water_index := 0;
     urban_runoff_index := 0;
     temperature_profile := "normal" |}.

(** ** correct_location_name *)

Section Location.

(** [similarity x word] is the score [difflib] gives candidate [x] against
    [word], i.e. [SequenceMatcher(None, x, word).ratio()].  (The two quick
    ratios [get_close_matches] tests first are upper bounds of it.) *)
Variable similarity : string → string → Q.

Definition tuple_lt (p q : Q * string) : bool :=
  (fst p <? fst q) || (Qeq_bool (fst p) (fst q) && String.ltb (snd p) (snd q)).

(** [difflib.get_close_matches(word, possibilities, n=1, cutoff)]: the
    candidates scoring at least [cutoff], of which the largest
    (score, candidate) pair is kept. *)
Definition get_close_matches (word : string) (possibilities : list string) (cutoff : Q)
    : list string :=
  let result :=
    List.filter (fun '(score, _) => Qle_bool cutoff score)
                (List.map (fun x => (similarity x word, x)) possibilities) in
  match result with
  | [] => []
  | first :: rest =>
      [snd (foldl (fun best p => if tuple_lt best p then p else best) first rest)]
  end.

Definition names_entry (name : string) (entry : string * list string) : bool :=
  let '(correct_name, aliases) := entry in
  String.eqb name correct_name || existsb (String.eqb name) aliases.

Definition all_locations : list string :=
  List.map fst LOCATION_ALIASES ++ List.concat (List.map snd LOCATION_ALIASES).

Definition correct_location_name (location_input : string) : string :=
  if String.eqb location_input "" then location_input
  else
    let location_lower := strip (lower location_input) in
    match List.find (names_entry location_lower) LOCATION_ALIASES with
    | Some (correct_name, _) => correct_name
    | None =>
        match get_close_matches location_lower all_locations 0.7 with
        | matched_alias :: _ =>
            match List.find (names_entry matched_alias) LOCATION_ALIASES with
            | Some (correct_name, _) => correct_name
            | None => location_input
            end
        | [] => location_input
        end
    end.

End Location.

(** [difflib.SequenceMatcher.ratio] on two strings, as the library documents
    and implements it for a second sequence under 200 elements (where its
    popularity heuristic is off): [2 * M / T] with [T] the two lengths added
    and [M] the size of the matching blocks, found by taking the longest
    common block (the earliest in the first sequence, then in the second)
    and recursing on both sides of it. *)

Fixpoint common_prefix_len (a b : list ascii) : nat :=
  match a, b with
  | x :: a', y :: b' => if Ascii.eqb x y then S (common_prefix_len a' b') else O
  | _, _ => O
  end.

Definition find_longest_match (a b : list ascii) : nat * nat * nat :=
  foldl (fun best i =>
           foldl (fun best j =>
                    let k := common_prefix_len (drop i a) (drop j b) in
                    if (snd best <? k)%nat then (i, j, k) else best)
                 best (seq 0 (length b)))
        (O, O, O) (seq 0 (length a)).

Fixpoint matching_size (fuel : nat) (a b : list ascii) : nat :=
  match fuel with
  | O => O
  | S fuel' =>
      let '(i, j, k) := find_longest_match a b in
      if (k =? 0)%nat then O
      else (k + matching_size fuel' (take i a) (take j b)
              + matching_size fuel' (drop (i + k) a) (drop (j + k) b))%nat
  end.

Definition ratio (x word : string) : Q :=
  let a := list_ascii_of_string x in
  let b := list_ascii_of_string word in
  let total := (length a + length b)%nat in
  if (total =? 0)%nat then 1
  else 2 * inject_Z (Z.of_nat (matching_size (S (length a)) a b)) / inject_Z (Z.of_nat total).

(** ** Names used to state the further properties *)


(** The key [_sanitize_input] stores a value under: the key cleaned up and
    sent through the alias table. *)
Definition canonical_name (key : string) : string :=
  let clean_key := strip (lower key) in
  match table_get clean_key ATTRIBUTE_ALIASES with
  | Some canonical => canonical
  | None => clean_key
  end.

(** The families [learn_from_history] keeps a coefficient for, and the
    labels of [predict_disasters] that [_map_to_category] puts in none. *)
Definition learned_families : list string :=
  ["flood"; "heat_wave"; "storm"; "wildfire"; "tornado"; "earthquake"; "air_quality"].

Definition uncredited_labels : list string :=
  ["Blizzard"; "Tsunami"; "No Significant Hazards"].

(** The keys of [LOCATION_ALIASES]. *)
Definition canonical_locations : list string := List.map fst LOCATION_ALIASES.

(** [d[k] = v] on a dictionary kept in insertion order. *)
Fixpoint dict_set {V : Type} (k : string) (v : V) (d : list (string * V)) : list (string * V) :=
  match d with
  | [] => [(k, v)]
  | (k', v') :: d' =>
      if String.eqb k' k then (k', v) :: d' else (k', v') :: dict_set k v d'
  end.

(** [s in l] for a list of strings. *)
Definition str_in (s : string) (l : list string) : bool := existsb (String.eqb s) l.

(** ** models.py: PreventionMeasure *)

Module Measure.

Record PreventionMeasure : Type := mkPreventionMeasure {
  title : string;
  description : string;
  urgency : string
}.

End Measure.

(** ** prevention_service.py *)

Module PreventionService.

Import Measure.

Definition _get_flood_preventions (severity : string) : list PreventionMeasure :=
  let preventions :=
    [ {| title := "Avoid flood-prone areas";
         description := "Stay away from low-lying areas and river banks";
         urgency := "High" |};
      {| title := "Prepare emergency kit";
         description := "Include water, food, medications, and important documents";
         urgency := "Medium" |};
      {| title := "Move valuables to higher levels";
         description := "Relocate important items and electrical equipment to upper floors";
         urgency := "Medium" |};
      {| title := "Clear drains and gutters";
         description := "Ensure proper drainage around your property to reduce flooding";
         urgency := "Medium" |};
      {| title := "Install flood barriers";
         description := "Use sandbags or specialized flood barriers around entry points";
         urgency := "Medium" |};
      {| title := "Turn off utilities";
         description := "Disconnect electricity and gas if flooding is imminent";
         urgency := "High" |};
      {| title := "Plan evacuation routes";
         description := "Familiarize yourself with safe evacuation paths and meeting points";
         urgency := "Medium" |} ] in
  let preventions :=
    if str_in severity ["Severe"; "Extreme"] then
      let preventions :=
        preventions ++ [ {| title := "Consider evacuation";
             description := "Follow local authority evacuation instructions if issued";
             urgency := "High" |} ] in
      let preventions :=
        preventions ++ [ {| title := "Move to higher ground";
             description := "Relocate to higher elevation if in a flood-prone area";
             urgency := "High" |} ] in
      preventions
    else preventions in
  preventions.

Definition _get_flash_flood_preventions (severity : string) : list PreventionMeasure :=
  let preventions :=
    [ {| title := "Evacuate immediately";
         description := "Move to higher ground without delay if in a flash flood area";
         urgency := "Critical" |};
      {| title := "Avoid flood waters";
         description := "Never walk, swim, or drive through flood waters - Turn Around, Don't Drown!";
         urgency := "Critical" |};
      {| title := "Disconnect utilities";
         description := "Turn off gas, electricity, and water if safe to do so";
         urgency := "High" |} ] in
  preventions.

Definition _get_heat_wave_preventions (severity : string) : list PreventionMeasure :=
  let preventions :=
    [ {| title := "Stay hydrated";
         description := "Drink plenty of water even if not thirsty";
         urgency := "High" |};
      {| title := "Stay in cool areas";
         description := "Use air conditioning or visit public cooling centers";
         urgency := "Medium" |};
      {| title := "Wear lightweight clothing";
         description := "Choose light-colored, loose-fitting clothes that breathe";
         urgency := "Medium" |};
      {| title := "Avoid strenuous activity";
         description := "Postpone outdoor activities during peak heat hours (10am-4pm)";
         urgency := "Medium" |};
      {| title := "Use fans and cold compresses";
         description := "Enhance cooling with fans and damp cloths on pulse points";
         urgency := "Medium" |};
      {| title := "Close blinds during day";
         description := "Block direct sunlight to keep indoor spaces cooler";
         urgency := "Medium" |};
      {| title := "Know heat illness signs";
         description := "Learn to recognize symptoms of heat exhaustion and heat stroke";
         urgency := "High" |} ] in
  let preventions :=
    if str_in severity ["High"; "Extreme"] then
      let preventions :=
        preventions ++ [ {| title := "Check on vulnerable people";
             description := "Monitor elderly, young children, and those with health conditions";
             urgency := "High" |} ] in
      let preventions :=
        preventions ++ [ {| title := "Never leave pets or people in cars";
             description := "Vehicle temperatures can reach deadly levels within minutes";
             urgency := "Critical" |} ] in
      preventions
    else preventions in
  preventions.

Definition _get_storm_preventions (severity : string) : list PreventionMeasure :=
  let preventions :=
    [ {| title := "Stay indoors";
         description := "Remain inside and away from windows";
         urgency := "High" |};
      {| title := "Secure loose objects";
         description := "Bring in or tie down outdoor furniture and items";
         urgency := "Medium" |};
      {| title := "Charge essential devices";
         description := "Ensure phones and emergency communication devices are charged";
         urgency := "High" |};
      {| title := "Fill bathtubs and containers";
         description := "Store water for sanitation and drinking if supply is disrupted";
         urgency := "Medium" |};
      {| title := "Keep emergency supplies ready";
         description := "Prepare flashlights, batteries, first aid kit, and non-perishable food";
         urgency := "High" |};
      {| title := "Stay updated with alerts";
         description := "Keep a battery-powered radio to receive emergency information";
         urgency := "High" |};
      {| title := "Identify safe shelter areas";
         description := "Choose interior rooms on lowest floors away from windows";
         urgency := "Medium" |} ] in
  let preventions :=
    if String.eqb severity "Severe" then
      let preventions :=
        preventions ++ [ {| title := "Prepare for power outages";
             description := "Have flashlights, batteries, and emergency supplies ready";
             urgency := "High" |} ] in
      let preventions :=
        preventions ++ [ {| title := "Avoid flooded areas";
             description := "Never drive or walk through floodwaters - turn around, don't drown";
             urgency := "Critical" |} ] in
      preventions
    else preventions in
  preventions.

Definition _get_hurricane_preventions (severity : string) : list PreventionMeasure :=
  let preventions :=
    [ {| title := "Follow evacuation orders";
         description := "If authorities order evacuation, leave immediately";
         urgency := "Critical" |};
      {| title := "Secure your home";
         description := "Board up windows, secure outdoor objects, and move valuables to upper floors";
         urgency := "High" |};
      {| title := "Prepare emergency kit";
         description := "Include water, non-perishable food, medications, important documents in waterproof containers";
         urgency := "High" |};
      {| title := "Know your evacuation route";
         description := "Plan where to go and how to get there if you need to evacuate";
         urgency := "High" |} ] in
  preventions.

Definition _get_wildfire_preventions (severity : string) : list PreventionMeasure :=
  let preventions :=
    [ {| title := "Create defensible space";
         description := "Clear vegetation around your home";
         urgency := "High" |};
      {| title := "Stay informed";
         description := "Monitor local news and emergency alerts";
         urgency := "High" |};
      {| title := "Prepare evacuation kit";
         description := "Include essential items, medications, documents, and water";
         urgency := "High" |};
      {| title := "Create evacuation plan";
         description := "Identify multiple evacuation routes and a family meeting place";
         urgency := "High" |};
      {| title := "Close all windows and doors";
         description := "Prevent embers from entering your home";
         urgency := "High" |};
      {| title := "Remove flammable materials";
         description := "Move patio furniture, firewood, and other combustibles away from structures";
         urgency := "Medium" |};
      {| title := "Fill containers with water";
         description := "Have water available for firefighting and personal use";
         urgency := "Medium" |};
      {| title := "Ensure proper home vents";
         description := "Install ember-resistant vents to prevent sparks from entering";
         urgency := "Medium" |} ] in
  let preventions :=
    if String.eqb severity "High" then
      let preventions :=
        preventions ++ [ {| title := "Consider early evacuation";
             description := "Leave before evacuation becomes mandatory for better safety";
             urgency := "High" |} ] in
      let preventions :=
        preventions ++ [ {| title := "Wear protective clothing";
             description := "Use long sleeves, pants, masks, and goggles if smoke is present";
             urgency := "High" |} ] in
      preventions
    else preventions in
  preventions.

Definition _get_tornado_preventions (severity : string) : list PreventionMeasure :=
  let preventions :=
    [ {| title := "Seek shelter immediately";
         description := "Go to a basement, storm cellar, or interior room without windows on the lowest floor";
         urgency := "Critical" |};
      {| title := "Cover yourself";
         description := "Use blankets or furniture to protect yourself from flying debris";
         urgency := "Critical" |};
      {| title := "Avoid windows";
         description := "Stay away from windows and exterior doors";
         urgency := "High" |};
      {| title := "Have emergency supplies";
         description := "Keep a battery-powered weather radio, first aid kit, and emergency supplies ready";
         urgency := "High" |} ] in
  preventions.

Definition _get_winter_storm_preventions (severity : string) : list PreventionMeasure :=
  let preventions :=
    [ {| title := "Stay indoors";
         description := "Avoid unnecessary travel during winter storms";
         urgency := "High" |};
      {| title := "Prepare emergency supplies";
         description := "Stock up on food, water, medications, and heating fuel";
         urgency := "High" |};
      {| title := "Prevent frozen pipes";
         description := "Let faucets drip during extreme cold and insulate pipes";
         urgency := "Medium" |};
      {| title := "Dress in layers";
         description := "Wear multiple layers of loose-fitting clothing when going outside";
         urgency := "High" |};
      {| title := "Keep alternative heat source";
         description := "Have safe alternative heating methods available";
         urgency := "Medium" |};
      {| title := "Clear snow safely";
         description := "Use proper lifting technique when shoveling snow to prevent injury";
         urgency := "Medium" |} ] in
  let preventions :=
    if str_in severity ["Severe"; "Extreme"] then
      let preventions :=
        preventions ++ [ {| title := "Watch for signs of hypothermia";
             description := "Monitor for shivering, exhaustion, confusion, memory loss, slurred speech";
             urgency := "Critical" |} ] in
      let preventions :=
        preventions ++ [ {| title := "Bring pets indoors";
             description := "Provide warm shelter for pets and livestock";
             urgency := "High" |} ] in
      preventions
    else preventions in
  preventions.

Definition _get_earthquake_preventions (severity : string) : list PreventionMeasure :=
  let preventions :=
    [ {| title := "Drop, Cover, and Hold On";
         description := "Drop to the ground, take cover under sturdy furniture, and hold on until shaking stops";
         urgency := "Critical" |};
      {| title := "Stay away from windows";
         description := "Move away from windows, outside walls and anything that could fall";
         urgency := "High" |};
      {| title := "If outdoors, find a clear spot";
         description := "Move to a clear area away from buildings, trees, streetlights, and power lines";
         urgency := "High" |};
      {| title := "After shaking stops";
         description := "Check yourself and others for injuries, be prepared for aftershocks";
         urgency := "High" |};
      {| title := "Shut off utilities if damaged";
         description := "Turn off gas, water, and electricity if you suspect damage";
         urgency := "High" |};
      {| title := "Check building stability";
         description := "Look for cracks in walls and foundations before re-entering buildings";
         urgency := "High" |} ] in
  let preventions :=
    if str_in severity ["Severe"; "Extreme"] then
      let preventions :=
        preventions ++ [ {| title := "Be aware of tsunami risk";
             description := "If near the coast, move to higher ground after shaking stops";
             urgency := "Critical" |} ] in
      let preventions :=
        preventions ++ [ {| title := "Avoid bridges and overpasses";
             description := "Stay away from damaged bridges, overpasses and structures";
             urgency := "Critical" |} ] in
      preventions
    else preventions in
  preventions.

Definition _get_air_quality_preventions (severity : string) : list PreventionMeasure :=
  let preventions :=
    [ {| title := "Stay indoors";
         description := "Keep windows and doors closed, use air conditioning on recirculate mode";
         urgency := (if str_in severity ["Low"; "Moderate"] then "Medium" else "High") |};
      {| title := "Limit outdoor activities";
         description := "Avoid strenuous outdoor activities, especially for sensitive groups";
         urgency := (if str_in severity ["Low"; "Moderate"] then "Medium" else "High") |};
      {| title := "Use air purifiers";
         description := "If available, use HEPA air purifiers indoors";
         urgency := "Medium" |};
      {| title := "Stay hydrated";
         description := "Drink plenty of water to help your body filter toxins";
         urgency := "Medium" |};
      {| title := "Keep medications accessible";
         description := "If you have asthma or respiratory conditions, keep medications handy";
         urgency := "High" |} ] in
  let preventions :=
    if str_in severity ["Severe"; "Extreme"] then
      let preventions :=
        preventions ++ [ {| title := "Wear masks outdoors";
             description := "Use N95 or P100 respirators if you must go outside";
             urgency := "High" |} ] in
      let preventions :=
        preventions ++ [ {| title := "Consider temporary relocation";
             description := "If possible, relocate to an area with better air quality until conditions improve";
             urgency := "High" |} ] in
      let preventions :=
        preventions ++ [ {| title := "Create a clean room";
             description := "Designate one room with filtered air as a clean space in your home";
             urgency := "High" |} ] in
      preventions
    else preventions in
  preventions.

Definition get_general_preventions : list PreventionMeasure :=
  [ {| title := "Create emergency plan";
       description := "Have a family emergency plan with meeting points and communication strategy";
       urgency := "Medium" |};
    {| title := "Prepare emergency kit";
       description := "Maintain supplies for at least 72 hours including water, food, medications, and documents";
       urgency := "Medium" |};
    {| title := "Stay informed";
       description := "Keep a battery-powered radio and subscribe to emergency alerts";
       urgency := "Medium" |};
    {| title := "Know evacuation routes";
       description := "Familiarize yourself with local evacuation routes and shelter locations";
       urgency := "Medium" |} ].

Definition disaster_keywords : list (string * list string) :=
  [ ("Flood", ["flood"; "flooding"]);
    ("Flash Flood", ["flash flood"; "flash"]);
    ("Heat Wave", ["heat"; "heatwave"; "hot"]);
    ("Storm", ["storm"; "thunderstorm"]);
    ("Hurricane/Cyclone", ["hurricane"; "cyclone"; "typhoon"]);
    ("Wildfire", ["fire"; "wildfire"; "bush fire"]);
    ("Tornado", ["tornado"; "twister"]);
    ("Winter Storm", ["winter"; "blizzard"; "snow"; "ice"]);
    ("Earthquake", ["earthquake"; "seismic"]);
    ("Air Quality", ["air"; "pollution"; "smog"; "quality"]) ].

(** The inner loop over [disaster_keywords]: the first category one of
    whose keywords occurs in the lowercased label. *)
Definition find_category (disaster_type : string) : option string :=
  match
    List.find (fun '(category, keywords) =>
                 existsb (fun keyword => contains keyword (lower disaster_type)) keywords)
              disaster_keywords
  with
  | Some (category, _) => Some category
  | None => None
  end.

(** The chain of assignments into [prevention_measures]. *)
Definition store_preventions (matched_type severity : string)
    (prevention_measures : list (string * list PreventionMeasure))
    : list (string * list PreventionMeasure) :=
  if String.eqb matched_type "Flood" then
    dict_set "Flood" (_get_flood_preventions severity) prevention_measures
  else if String.eqb matched_type "Flash Flood" then
    dict_set "Flash Flood" (_get_flash_flood_preventions severity) prevention_measures
  else if String.eqb matched_type "Heat Wave" then
    dict_set "Heat Wave" (_get_heat_wave_preventions severity) prevention_measures
  else if String.eqb matched_type "Storm" then
    dict_set "Storm" (_get_storm_preventions severity) prevention_measures
  else if String.eqb matched_type "Hurricane/Cyclone" then
    dict_set "Hurricane/Cyclone" (_get_hurricane_preventions severity) prevention_measures
  else if String.eqb matched_type "Wildfire" then
    dict_set "Wildfire" (_get_wildfire_preventions severity) prevention_measures
  else if String.eqb matched_type "Tornado" then
    dict_set "Tornado" (_get_tornado_preventions severity) prevention_measures
  else if String.eqb matched_type "Winter Storm" then
    dict_set "Winter Storm" (_get_winter_storm_preventions severity) prevention_measures
  else if String.eqb matched_type "Earthquake" then
    dict_set "Earthquake" (_get_earthquake_preventions severity) prevention_measures
  else if String.eqb matched_type "Air Quality" then
    dict_set "Air Quality" (_get_air_quality_preventions severity) prevention_measures
  else prevention_measures.

(** One turn of the loop over [predictions]; the state is
    [prevention_measures] and [processed_disasters]. *)
Definition process (state : list (string * list PreventionMeasure) * gset string)
    (prediction : DisasterPrediction) : list (string * list PreventionMeasure) * gset string :=
  let '(prevention_measures, processed_disasters) := state in
  let disaster_type := disaster_type prediction in
  let severity := severity prediction in
  if String.eqb disaster_type "No Significant Hazards" then state
  else
    match find_category disaster_type with
    | None => state
    | Some matched_type =>
        if bool_decide (matched_type ∈ processed_disasters) then state
        else (store_preventions matched_type severity prevention_measures,
              {[matched_type]} ∪ processed_disasters)
    end.

Definition get_prevention_measures (predictions : list DisasterPrediction)
    : list (string * list PreventionMeasure) :=
  if (length predictions =? 1)%nat
     && match predictions with
        | first :: _ => String.eqb (disaster_type first) "No Significant Hazards"
        | [] => false
        end
  then []
  else fst (foldl process ([], ∅) predictions).

(** The measures the chain stores for a category. *)
Definition preventions_for (category severity : string) : list PreventionMeasure :=
  default [] (table_get category (store_preventions category severity [])).

(** The finding that decides the entry of [category]: not the sentinel,
    and of that category. *)
Definition decides (category : string) (prediction : DisasterPrediction) : bool :=
  negb (String.eqb (disaster_type prediction) "No Significant Hazards")
  && bool_decide (find_category (disaster_type prediction) = Some category).

(** The state of the loop between two turns: [processed_disasters] holds
    exactly the keys of [prevention_measures]. *)
Definition in_step (state : list (string * list PreventionMeasure) * gset string) : Prop :=
  ∀ c, c ∈ state.2 ↔ is_Some (table_get c state.1).

(** The urgency levels of the catalogue. *)
Definition urgencies : list string := ["Critical"; "High"; "Medium"].

End PreventionService.

(** ** weather_service.py *)

Module WeatherService.

(** What [get_weather_data] reads from the provider's answer: the fields
    of its [current] object (the three it computes with are numbers, the
    others are handed on as they come; [uv] and [vis_km] may be absent) and
    the country of its [location] object, when there is one. *)
Record Answer : Type := mkAnswer {
  temp_c : Q;
  humidity : PyVal;
  precip_mm : Q;
  wind_kph : Q;
  pressure_mb : PyVal;
  us_epa_index : option PyVal;
  uv : option PyVal;
  vis_km : option PyVal;
  country : option PyVal
}.

Section GetWeatherData.

(** Attribute assignment on the model object, reached only for a name the
    object has. *)
Variable setattr : WeatherData → string → PyVal → WeatherData.

(** The keyword arguments of the constructor call. *)
Definition keyword_arguments (answer : Answer) : list (string * PyVal) :=
  [ ("temperature", PyFloat (temp_c answer));
    ("humidity", humidity answer);
    ("precipitation", PyFloat (precip_mm answer));
    ("wind_speed", PyFloat (wind_kph answer / 3.6));
    ("pressure", pressure_mb answer);
    ("precipitation_intensity", PyFloat (precip_mm answer / 3));
    ("air_quality_index", default (PyInt 0) (us_epa_index answer));
    ("consecutive_dry_days", PyInt 0);
    ("soil_saturation", PyInt 50);
    ("temperature_gradient", PyInt 5);
    ("urban_runoff_index", PyInt 50);
    ("consecutive_hot_days", PyInt (if temp_c answer >? 30 then 1 else 0));
    ("river_level_percent", PyInt 50);
    ("urban_density", PyInt 50) ].

Definition extra_data (answer : Answer) : list (string * PyVal) :=
  let extra_data := [] in
  let extra_data :=
    match uv answer with
    | Some value => extra_data ++ [("uv_index", value)]
    | None => extra_data
    end in
  let extra_data :=
    match vis_km answer with
    | Some value => extra_data ++ [("visibility", value)]
    | None => extra_data
    end in
  let extra_data :=
    match country answer with
    | Some value => extra_data ++ [("country", value)]
    | None => extra_data
    end in
  extra_data.

(** [get_weather_data] from the parsed answer on. *)
Definition get_weather_data (answer : Answer) : result WeatherData :=
  weather_data ← WeatherData_init (list_to_map (keyword_arguments answer));
  Ok (foldl (fun weather_data '(key, value) =>
               if hasattr weather_data key then setattr weather_data key value
               else weather_data)
            weather_data (extra_data answer)).

End GetWeatherData.

Import Measure.

Definition _get_measures_for_disaster (disaster_type severity : string)
    : list PreventionMeasure :=
  let measures := [] in
  let measures :=
    if existsb (fun term => contains term (lower disaster_type)) ["flood"; "flash flood"] then
      let measures :=
        if str_in severity ["Severe"; "Extreme"] then
          let measures :=
            measures ++ [ {| title := "Evacuate Low-Lying Areas";
                            description := "Move to higher ground immediately if you're in flood-prone areas";
                            urgency := "Immediate" |} ] in
          let measures :=
            measures ++ [ {| title := "Avoid Flood Waters";
                            description := "Never walk or drive through flood waters. 6 inches of water can knock you down, 12 inches can float a vehicle";
                            urgency := "Critical" |} ] in
          measures
        else measures in
      let measures :=
        measures ++ [ {| title := "Prepare Emergency Kit";
                        description := "Include water, non-perishable food, medications, flashlight, radio, and essential documents";
                        urgency := (if str_in severity ["Severe"; "Extreme"] then "High" else "Medium") |} ] in
      measures
    else if existsb (fun term => contains term (lower disaster_type)) ["heat"; "hot"] then
      let measures :=
        if str_in severity ["Severe"; "Extreme"] then
          let measures :=
            measures ++ [ {| title := "Stay Indoors";
                            description := "Remain in air-conditioned buildings during peak heat (10am-4pm)";
                            urgency := "High" |} ] in
          let measures :=
            measures ++ [ {| title := "Check on Vulnerable People";
                            description := "Regularly check on elderly neighbors, young children, and those with health conditions";
                            urgency := "High" |} ] in
          measures
        else measures in
      let measures :=
        measures ++ [ {| title := "Stay Hydrated";
                        description := "Drink plenty of water even if you don't feel thirsty";
                        urgency := "High" |} ] in
      measures
    else if existsb (fun term => contains term (lower disaster_type)) ["storm"; "hurricane"; "typhoon"; "cyclone"] then
      let measures :=
        if str_in severity ["Severe"; "Extreme"] then
          let measures :=
            measures ++ [ {| title := "Secure Your Home";
                            description := "Board up windows, secure outdoor objects, and prepare for power outages";
                            urgency := "Immediate" |} ] in
          let measures :=
            if (contains "hurricane" (lower disaster_type)) || (contains "cyclone" (lower disaster_type)) then
              let measures :=
                measures ++ [ {| title := "Evacuation Plan";
                                description := "Follow local evacuation orders. Know your evacuation route and shelter locations";
                                urgency := "Critical" |} ] in
              measures
            else measures in
          measures
        else measures in
      let measures :=
        measures ++ [ {| title := "Emergency Supplies";
                        description := "Prepare water, food, medications, flashlight, and battery-powered radio for at least 3 days";
                        urgency := "High" |} ] in
      measures
    else if contains "tornado" (lower disaster_type) then
      let measures :=
        measures ++ [ {| title := "Seek Shelter Immediately";
                        description := "Go to a basement, storm cellar, or interior room without windows on the lowest floor";
                        urgency := "Critical" |} ] in
      let measures :=
        measures ++ [ {| title := "Stay Informed";
                        description := "Keep a battery-powered weather radio to receive updates";
                        urgency := "High" |} ] in
      measures
    else if existsb (fun term => contains term (lower disaster_type)) ["fire"; "wildfire"] then
      let measures :=
        if str_in severity ["Severe"; "Extreme"] then
          let measures :=
            measures ++ [ {| title := "Evacuation";
                            description := "Be ready to evacuate at a moment's notice. Pack essential items in advance";
                            urgency := "Critical" |} ] in
          measures
        else measures in
      let measures :=
        measures ++ [ {| title := "Create Defensible Space";
                        description := "Clear flammable vegetation and materials at least 30 feet from your home";
                        urgency := "High" |} ] in
      let measures :=
        measures ++ [ {| title := "Indoor Air Quality";
                        description := "Keep windows and doors closed. Use air purifiers if available";
                        urgency := "Medium" |} ] in
      measures
    else if contains "earthquake" (lower disaster_type) then
      let measures :=
        measures ++ [ {| title := "Drop, Cover, and Hold On";
                        description := "During shaking, drop to the ground, take cover under sturdy furniture, and hold on";
                        urgency := "Critical" |} ] in
      let measures :=
        measures ++ [ {| title := "After Shaking Stops";
                        description := "Check for injuries and damage. Be prepared for aftershocks";
                        urgency := "High" |} ] in
      measures
    else if contains "tsunami" (lower disaster_type) then
      let measures :=
        measures ++ [ {| title := "Move to Higher Ground";
                        description := "If you feel strong shaking or receive a tsunami warning, immediately move inland or to higher ground";
                        urgency := "Critical" |} ] in
      let measures :=
        measures ++ [ {| title := "Stay Away from Coast";
                        description := "Do not return to coastal areas until officials declare it safe";
                        urgency := "Critical" |} ] in
      measures
    else if existsb (fun term => contains term (lower disaster_type)) ["air"; "pollution"; "quality"] then
      let measures :=
        measures ++ [ {| title := "Stay Indoors";
                        description := "Keep windows and doors closed. Use air conditioning on recirculate mode";
                        urgency := (if str_in severity ["Severe"; "Extreme"] then "High" else "Medium") |} ] in
      let measures :=
        measures ++ [ {| title := "Use N95 Masks";
                        description := "If you must go outside, wear a properly fitted N95 mask";
                        urgency := (if str_in severity ["Severe"; "Extreme"] then "High" else "Medium") |} ] in
      measures
    else if existsb (fun term => contains term (lower disaster_type)) ["winter"; "snow"; "blizzard"; "ice"] then
      let measures :=
        measures ++ [ {| title := "Stay Indoors";
                        description := "Avoid traveling unless absolutely necessary";
                        urgency := (if str_in severity ["Severe"; "Extreme"] then "High" else "Medium") |} ] in
      let measures :=
        measures ++ [ {| title := "Prevent Freezing Pipes";
                        description := "Let faucets drip slightly to prevent pipes from freezing";
                        urgency := "Medium" |} ] in
      let measures :=
        measures ++ [ {| title := "Emergency Heat";
                        description := "Have alternative heating methods ready. Never use generators or grills indoors";
                        urgency := "High" |} ] in
      measures
    else measures in
  let measures :=
    if match measures with [] => true | _ => false end then
      let measures :=
        measures ++ [ {| title := "Stay Informed";
                        description := "Monitor local news and weather updates for the latest information";
                        urgency := "Medium" |} ] in
      let measures :=
        measures ++ [ {| title := "Emergency Kit";
                        description := "Prepare basic supplies including water, food, medications, and first aid kit";
                        urgency := "Medium" |} ] in
      measures
    else measures in
  measures.

(** One turn of the loop of [get_prevention_measures]. *)
Definition add_measures (prevention_measures : list (string * list PreventionMeasure))
    (prediction : DisasterPrediction) : list (string * list PreventionMeasure) :=
  let disaster_type := disaster_type prediction in
  let severity := severity prediction in
  if String.eqb disaster_type "None" then prevention_measures
  else
    let measures := _get_measures_for_disaster disaster_type severity in
    match measures with
    | [] => prevention_measures
    | _ => dict_set disaster_type measures prevention_measures
    end.

Definition get_prevention_measures (predictions : list DisasterPrediction)
    : list (string * list PreventionMeasure) :=
  foldl add_measures [] predictions.

End WeatherService.

(** The labels a prediction made from fetched weather can carry. *)
Definition fetched_labels : list string :=
  [ "Extreme Heat Wave"; "Severe Heat Wave"; "Heat Wave";
    "Severe Storm System"; "Moderate Storm";
    "Winter Storm"; "Blizzard";
    "Extreme Fire Danger"; "High Fire Danger"; "Moderate Fire Danger";
    "Hazardous Air Quality Emergency"; "Very Unhealthy Air Quality"; "Unhealthy Air Quality";
    "No Significant Hazards" ].

(** A finding whose probability respects the ceiling of the risk
    functions. *)
Definition within_ceiling (p : DisasterPrediction) : Prop :=
  0 <= probability p ∧ probability p <= 0.95.

(** ** Proof automation *)

(** Reduces [p ∈ block → P p], for a block written as nested conditionals
    over literal findings, to [P] of each literal finding. *)
Ltac by_block :=
  repeat match goal with
         | |- context [if ?b then _ else _] => destruct b eqn:?
         end;
  let Hin := fresh "Hin" in
  intros Hin;
  repeat match goal with
         | H : _ ∈ [] |- _ => apply elem_of_nil in H; contradiction
         | H : _ ∈ _ :: _ |- _ => apply elem_of_cons in H as [->|H]
         end.

(** Case analysis on an attribute name looked up in a literal table. *)
Ltac by_name attr :=
  repeat match goal with
         | H : context [String.eqb attr ?s] |- _ =>
             destruct (String.eqb_spec attr s); [subst attr|]
         | |- context [String.eqb attr ?s] =>
             destruct (String.eqb_spec attr s); [subst attr|]
         end.

(** * Properties *)

(** ** Comparisons *)

Lemma Qltb_lt (x y : Q) : (x <? y) = true ↔ x < y.
Proof.
  unfold Qltb. rewrite negb_true_iff, <- not_true_iff_false, Qle_bool_iff.
  split; [apply Qnot_le_lt | apply Qlt_not_le].
Qed.

Lemma Qgtb_gt (x y : Q) : (x >? y) = true ↔ y < x.
Proof. apply Qltb_lt. Qed.

Lemma Qltb_ge (x y : Q) : (x <? y) = false ↔ y <= x.
Proof.
  unfold Qltb. rewrite negb_false_iff. apply Qle_bool_iff.
Qed.

Lemma Qgtb_le (x y : Q) : (x >? y) = false ↔ x <= y.
Proof. apply Qltb_ge. Qed.

(** ** The two risk functions that return a result never raise *)

Lemma flood_risk_ok (self : DisasterPredictor) (w : WeatherData) :
  _calculate_flood_risk self w =
  Ok (Qmin 0.95 (flood_base_risk (precipitation w) (soil_saturation w) 0 (snow_depth w)
                                 (temperature w) 0
                  * default 1 (learning_coefficients self !! "flood"))).
Proof. reflexivity. Qed.

Lemma tornado_risk_ok (self : DisasterPredictor) (w : WeatherData) :
  _calculate_tornado_risk self w =
  Ok (if (wind_speed w >? 40) && (temperature_gradient w >? 10)
      then 0.4 + Qmin 0.3 ((wind_speed w - 40) * 0.01) else 0).
Proof.
  unfold _calculate_tornado_risk.
  change (forallb (hasattr w) ["wind_shear"; "cape_value"; "temperature_gradient"]) with false.
  change (hasattr w "temperature_gradient") with true.
  rewrite andb_true_r. simpl negb.
  destruct (_ && _); reflexivity.
Qed.

(** ** Validation never fails and clamps field by field *)

Lemma table_get_None {V} (k : string) (t : list (string * V)) :
  k ∉ t.*1 → table_get k t = None.
Proof.
  induction t as [|[k' v] t IH]; [reflexivity|].
  cbn. intros Hk. apply not_elem_of_cons in Hk as [Hne Hk].
  destruct (String.eqb_spec k k'); [contradiction | auto].
Qed.

Lemma list_to_map_table_get {V} (t : list (string * V)) (k : string) :
  (list_to_map t : gmap string V) !! k = table_get k t.
Proof.
  induction t as [|[k' v] t IH]; [apply lookup_empty|].
  cbn. destruct (String.eqb_spec k k') as [->|Hne].
  - apply lookup_insert_eq.
  - rewrite lookup_insert_ne by congruence. exact IH.
Qed.

Lemma range_check_lookup g d a lo hi key :
  range_check g d (a, (lo, hi)) !! key =
  if String.eqb key a then corrected g d [(a, (lo, hi))] key else d !! key.
Proof.
  unfold range_check, corrected. cbn.
  destruct (String.eqb_spec key a) as [->|Hne].
  - destruct (g a) as [value|]; cbn; [|reflexivity].
    destruct (as_number value) as [v|]; cbn; [|reflexivity].
    destruct (v <? inject_Z lo); [apply lookup_insert_eq|].
    destruct (v >? inject_Z hi); [apply lookup_insert_eq|reflexivity].
  - destruct (g a) as [value|]; [|reflexivity].
    destruct (as_number value) as [v|]; [|reflexivity].
    destruct (v <? inject_Z lo); [apply lookup_insert_ne; congruence|].
    destruct (v >? inject_Z hi); [apply lookup_insert_ne; congruence|reflexivity].
Qed.

Lemma foldl_range_check_lookup g ranges :
  NoDup ranges.*1 →
  ∀ d key, foldl (range_check g) d ranges !! key = corrected g d ranges key.
Proof.
  induction ranges as [|[a [lo hi]] ranges IH]; intros Hnd d key; [reflexivity|].
  apply NoDup_cons in Hnd as [Ha Hnd].
  cbn [foldl]. rewrite IH by assumption.
  unfold corrected at 1 2. cbn [table_get].
  rewrite range_check_lookup.
  destruct (String.eqb_spec key a) as [->|Hne].
  - rewrite (table_get_None a ranges Ha). unfold corrected. cbn.
    rewrite String.eqb_refl. reflexivity.
  - reflexivity.
Qed.

Lemma NoDup_VALID_RANGES : NoDup VALID_RANGES.*1.
Proof. apply (bool_decide_unpack (NoDup VALID_RANGES.*1)). vm_compute. exact I. Qed.

Lemma validated_lookup (w : WeatherData) (key : string) :
  validate_dict (getattr w) (list_to_map (dict_ w)) !! key =
  corrected (getattr w) (list_to_map (dict_ w)) VALID_RANGES key.
Proof. apply foldl_range_check_lookup, NoDup_VALID_RANGES. Qed.

Lemma float_field_ranged w name lo hi v dflt :
  table_get name VALID_RANGES = Some (lo, hi) →
  getattr w name = Some (PyFloat v) →
  float_field (validate_dict (getattr w) (list_to_map (dict_ w))) name dflt
  = Ok (clamp_float lo hi v).
Proof.
  intros Hr Hg. unfold float_field, clamp_float.
  rewrite validated_lookup. unfold corrected.
  rewrite Hr, Hg, list_to_map_table_get. fold (getattr w name). rewrite Hg. cbn.
  destruct (v <? inject_Z lo); [reflexivity|].
  destruct (v >? inject_Z hi); reflexivity.
Qed.

Lemma int_field_ranged w name lo hi z dflt :
  table_get name VALID_RANGES = Some (lo, hi) →
  getattr w name = Some (PyInt z) →
  int_field (validate_dict (getattr w) (list_to_map (dict_ w))) name dflt
  = Ok (clamp_int lo hi z).
Proof.
  intros Hr Hg. unfold int_field, clamp_int.
  rewrite validated_lookup. unfold corrected.
  rewrite Hr, Hg, list_to_map_table_get. fold (getattr w name). rewrite Hg. cbn.
  destruct (inject_Z z <? inject_Z lo); [reflexivity|].
  destruct (inject_Z z >? inject_Z hi); reflexivity.
Qed.

Lemma field_unranged w name :
  table_get name VALID_RANGES = None →
  validate_dict (getattr w) (list_to_map (dict_ w)) !! name = getattr w name.
Proof.
  intros Hr. rewrite validated_lookup. unfold corrected.
  rewrite Hr. apply list_to_map_table_get.
Qed.

Lemma float_field_unranged w name v dflt :
  table_get name VALID_RANGES = None →
  getattr w name = Some (PyFloat v) →
  float_field (validate_dict (getattr w) (list_to_map (dict_ w))) name dflt = Ok v.
Proof. intros Hr Hg. unfold float_field. rewrite field_unranged, Hg by assumption. reflexivity. Qed.

Lemma int_field_unranged w name z dflt :
  table_get name VALID_RANGES = None →
  getattr w name = Some (PyInt z) →
  int_field (validate_dict (getattr w) (list_to_map (dict_ w))) name dflt = Ok z.
Proof. intros Hr Hg. unfold int_field. rewrite field_unranged, Hg by assumption. reflexivity. Qed.

Lemma str_field_unranged w name s dflt :
  table_get name VALID_RANGES = None →
  getattr w name = Some (PyStr s) →
  str_field (validate_dict (getattr w) (list_to_map (dict_ w))) name dflt = Ok s.
Proof. intros Hr Hg. unfold str_field. rewrite field_unranged, Hg by assumption. reflexivity. Qed.

Lemma _validate_weather_data_clamped (w : WeatherData) :
  _validate_weather_data w = Ok (clamped w).
Proof.
  unfold _validate_weather_data, WeatherData_init.
  repeat first
    [ erewrite float_field_ranged by reflexivity
    | erewrite float_field_unranged by reflexivity
    | erewrite int_field_ranged by reflexivity
    | erewrite int_field_unranged by reflexivity
    | erewrite str_field_unranged by reflexivity ].
  reflexivity.
Qed.

(** ** Range validation *)

Lemma clamp_float_unchanged (lo hi : Z) (v : Q) :
  inject_Z lo <= v ∧ v <= inject_Z hi → clamp_float lo hi v = v.
Proof.
  intros [Hge Hle]. unfold clamp_float.
  apply Qltb_ge in Hge. apply Qgtb_le in Hle. rewrite Hge, Hle. reflexivity.
Qed.

Lemma clamp_float_spec (lo hi : Z) (v : Q) :
  (lo <= hi)%Z →
  (v < inject_Z lo → clamp_float lo hi v = inject_Z lo)
  ∧ (inject_Z hi < v → clamp_float lo hi v = inject_Z hi)
  ∧ (inject_Z lo <= v ∧ v <= inject_Z hi → clamp_float lo hi v = v).
Proof.
  intros Hlh. unfold clamp_float. repeat split.
  - intros Hlt. apply Qltb_lt in Hlt. rewrite Hlt. reflexivity.
  - intros Hgt.
    assert (Hge : inject_Z lo <= v).
    { apply Qlt_le_weak. eapply Qle_lt_trans; [|exact Hgt].
      rewrite <- Zle_Qle. exact Hlh. }
    apply Qltb_ge in Hge. apply Qgtb_gt in Hgt. rewrite Hge, Hgt. reflexivity.
  - apply clamp_float_unchanged.
Qed.

Lemma clamp_int_float (lo hi z : Z) :
  inject_Z (clamp_int lo hi z) = clamp_float lo hi (inject_Z z).
Proof.
  unfold clamp_int, clamp_float.
  destruct (inject_Z z <? inject_Z lo); [reflexivity|].
  destruct (inject_Z z >? inject_Z hi); reflexivity.
Qed.

Lemma clamp_int_unchanged (lo hi z : Z) :
  inject_Z lo <= inject_Z z ∧ inject_Z z <= inject_Z hi → clamp_int lo hi z = z.
Proof.
  intros [Hge Hle]. unfold clamp_int.
  apply Qltb_ge in Hge. apply Qgtb_le in Hle. rewrite Hge, Hle. reflexivity.
Qed.

Lemma VALID_RANGES_ordered attr lo hi :
  table_get attr VALID_RANGES = Some (lo, hi) → (lo <= hi)%Z.
Proof.
  unfold VALID_RANGES. cbn [table_get]. intros H.
  by_name attr; try discriminate H; injection H as <- <-; lia.
Qed.

Lemma clamped_ranged w attr lo hi v :
  table_get attr VALID_RANGES = Some (lo, hi) →
  attr_if_present w attr = Some v →
  attr_if_present (clamped w) attr = Some (clamp_float lo hi v).
Proof.
  unfold VALID_RANGES. cbn [table_get]. intros H Hv.
  by_name attr; try discriminate H; injection H as <- <-;
    injection Hv as <-; cbn; rewrite ?clamp_int_float; reflexivity.
Qed.

Lemma clamped_ranged_unchanged w attr lo hi v :
  table_get attr VALID_RANGES = Some (lo, hi) →
  attr_if_present w attr = Some v →
  inject_Z lo <= v ∧ v <= inject_Z hi →
  getattr (clamped w) attr = getattr w attr.
Proof.
  unfold VALID_RANGES. cbn [table_get]. intros H Hv Hin.
  by_name attr; try discriminate H; injection H as <- <-;
    injection Hv as <-; cbn;
    first [ rewrite clamp_int_unchanged by exact Hin
          | rewrite clamp_float_unchanged by exact Hin ];
    reflexivity.
Qed.

Lemma clamped_unranged w attr :
  table_get attr VALID_RANGES = None → getattr (clamped w) attr = getattr w attr.
Proof.
  unfold VALID_RANGES. cbn [table_get]. intros H.
  unfold getattr, dict_. cbn [table_get].
  by_name attr; try discriminate H; reflexivity.
Qed.

(** C8.  Range validation always succeeds and clamps attribute by
    attribute: a numeric value [v] of an attribute with declared range
    [lo, hi] becomes [lo] when [v < lo], [hi] when [v > hi], and is kept
    when [lo <= v <= hi]; an attribute with no declared range is kept; and
    the loop skips a value that is not a number. *)
Theorem range_validation_clamps (w : WeatherData) :
  ∃ w', _validate_weather_data w = Ok w'
    ∧ (∀ attr lo hi v,
         table_get attr VALID_RANGES = Some (lo, hi) →
         attr_if_present w attr = Some v →
         (v < inject_Z lo → attr_if_present w' attr = Some (inject_Z lo))
         ∧ (inject_Z hi < v → attr_if_present w' attr = Some (inject_Z hi))
         ∧ (inject_Z lo <= v ∧ v <= inject_Z hi → getattr w' attr = getattr w attr))
    ∧ (∀ attr, table_get attr VALID_RANGES = None → getattr w' attr = getattr w attr)
    ∧ (∀ getattr_ validated_data attr range value,
         getattr_ attr = Some value → as_number value = None →
         range_check getattr_ validated_data (attr, range) = validated_data).
Proof.
  exists (clamped w). split; [apply _validate_weather_data_clamped|].
  split; [|split].
  - intros attr lo hi v Hr Hv.
    pose proof (clamp_float_spec lo hi v (VALID_RANGES_ordered attr lo hi Hr)) as (Hlo & Hhi & _).
    rewrite (clamped_ranged w attr lo hi v Hr Hv).
    split; [intros H; rewrite (Hlo H); reflexivity|].
    split; [intros H; rewrite (Hhi H); reflexivity|].
    apply (clamped_ranged_unchanged w attr lo hi v Hr Hv).
  - apply clamped_unranged.
  - intros g d attr [lo hi] value Hg Hn. unfold range_check. rewrite Hg, Hn. reflexivity.
Qed.

Lemma range_validation_clamps_witness :
  ∃ w', _validate_weather_data hot_day = Ok w'
        ∧ getattr w' "temperature" = Some (PyFloat 35).
Proof.
  destruct (range_validation_clamps hot_day) as (w' & Hok & Hranged & _).
  exists w'. split; [exact Hok|].
  apply (Hranged "temperature" (-70)%Z 60%Z 35); [reflexivity | reflexivity |].
  split; apply Qle_bool_iff; reflexivity.
Defined.

(** ** The blocks of predict_disasters *)

Lemma flash_flood_findings_eq (w : WeatherData) :
  flash_flood_findings w =
  if precipitation w >? 30 then Raise (AttributeError "precipitation_intensity") else Ok [].
Proof. unfold flash_flood_findings. destruct (precipitation w >? 30); reflexivity. Qed.

Lemma hurricane_findings_eq (w : WeatherData) :
  hurricane_findings w =
  if (wind_speed w >? 75) && (pressure w <? 980)
  then Raise (AttributeError "sea_surface_temp") else Ok [].
Proof. unfold hurricane_findings. destruct (_ && _); reflexivity. Qed.

Lemma hazard_findings_eq fmt self w :
  hazard_findings fmt self w =
  if precipitation w >? 30 then Raise (AttributeError "precipitation_intensity")
  else if (wind_speed w >? 75) && (pressure w <? 980)
       then Raise (AttributeError "sea_surface_temp")
       else Ok (findings_of fmt self w).
Proof.
  unfold hazard_findings.
  rewrite flood_risk_ok, flash_flood_findings_eq, hurricane_findings_eq, tornado_risk_ok.
  unfold mbind, result_bind.
  destruct (precipitation w >? 30); [reflexivity|].
  destruct ((wind_speed w >? 75) && (pressure w <? 980)); [reflexivity|].
  unfold findings_of, flood_risk_of, tornado_risk_of.
  rewrite !app_nil_r, <- !app_assoc. reflexivity.
Qed.

(** ** Sanitising always yields an observation *)

Lemma WeatherData_init_empty : WeatherData_init ∅ = Ok WeatherData_default.
Proof. reflexivity. Qed.

Lemma _sanitize_input_total (raw : RawWeather) : ∃ w, _sanitize_input raw = Ok w.
Proof.
  destruct raw as [w|items]; unfold _sanitize_input.
  - rewrite _validate_weather_data_clamped. eauto.
  - destruct (WeatherData_init (normalize_keys items)) as [w|e]; unfold mbind, result_bind.
    + rewrite _validate_weather_data_clamped. eauto.
    + destruct (WeatherData_init (salvage _)); [eauto|].
      rewrite WeatherData_init_empty. eauto.
Qed.

(** When [predict_disasters] returns and when it raises, for every input. *)
Lemma predict_disasters_outcome fmt self raw :
  ∃ w, _sanitize_input raw = Ok w ∧
       predict_disasters fmt self raw =
       if precipitation w >? 30 then Raise (AttributeError "precipitation_intensity")
       else if (wind_speed w >? 75) && (pressure w <? 980)
            then Raise (AttributeError "sea_surface_temp")
            else match findings_of fmt self w with
                 | [] => Ok [no_significant_hazards]
                 | p :: ps => Ok (p :: ps)
                 end.
Proof.
  destruct (_sanitize_input_total raw) as [w Hw]. exists w. split; [exact Hw|].
  unfold predict_disasters. rewrite Hw. unfold mbind at 1, result_bind at 1.
  rewrite hazard_findings_eq.
  destruct (precipitation w >? 30); [reflexivity|].
  destruct ((wind_speed w >? 75) && (pressure w <? 980)); [reflexivity|].
  unfold mbind, result_bind. destruct (findings_of fmt self w); reflexivity.
Qed.

(** ** The scenarios of the design document *)

(** C2.  On the dictionary [{precipitation: 35, precipitation_intensity: 18}]
    the call does not return a "Flash Flood" finding: the key
    [precipitation_intensity] is not a field of [WeatherData], so it is
    dropped when the object is built, and the flash-flood test, which reads
    it without a [hasattr] guard, raises [AttributeError]. *)
Theorem flash_flood_scenario_raises (fmt : Q → string) (self : DisasterPredictor) :
  predict_disasters fmt self
    (RawDict [("precipitation", PyInt 35); ("precipitation_intensity", PyInt 18)])
  = Raise (AttributeError "precipitation_intensity").
Proof.
  destruct (predict_disasters_outcome fmt self
              (RawDict [("precipitation", PyInt 35); ("precipitation_intensity", PyInt 18)]))
    as (w & Hw & ->).
  vm_compute in Hw. injection Hw as <-. reflexivity.
Qed.

(** C3.  On [wind_speed = 80, pressure = 975, sea_surface_temp = 27] the
    call does not return a hurricane finding: [sea_surface_temp] is not a
    field of [WeatherData] either, and the hurricane test reads it as soon
    as the wind and pressure conditions hold. *)
Theorem hurricane_scenario_raises (fmt : Q → string) (self : DisasterPredictor) :
  predict_disasters fmt self
    (RawDict [("wind_speed", PyInt 80); ("pressure", PyInt 975); ("sea_surface_temp", PyInt 27)])
  = Raise (AttributeError "sea_surface_temp").
Proof.
  destruct (predict_disasters_outcome fmt self
              (RawDict [("wind_speed", PyInt 80); ("pressure", PyInt 975);
                        ("sea_surface_temp", PyInt 27)]))
    as (w & Hw & ->).
  vm_compute in Hw. injection Hw as <-. reflexivity.
Qed.

(** X8.  No returned list holds a "Flash Flood" or a "Hurricane/Cyclone"
    finding: whenever the test of either block gets past its first
    conditions the call raises. *)
Lemma flash_flood_and_hurricane_never_reported fmt self raw l p :
  predict_disasters fmt self raw = Ok l → p ∈ l →
  disaster_type p ≠ "Flash Flood"
  ∧ contains "Hurricane/Cyclone" (disaster_type p) = false.
Proof.
  intros Hl Hp.
  destruct (predict_disasters_outcome fmt self raw) as (w & _ & Hout).
  rewrite Hout in Hl. clear Hout.
  destruct (precipitation w >? 30); [discriminate Hl|].
  destruct ((wind_speed w >? 75) && (pressure w <? 980)); [discriminate Hl|].
  destruct (findings_of fmt self w) as [|p0 ps] eqn:Hf; injection Hl as <-.
  - apply list_elem_of_singleton in Hp as ->. split; [discriminate | reflexivity].
  - rewrite <- Hf in Hp. clear Hf. revert Hp.
    unfold findings_of. rewrite !elem_of_app.
    intros [H|[H|[H|[H|[H|[H|[H|[H|H]]]]]]]]; revert H.
    + unfold flood_findings. by_block; (split; [discriminate | reflexivity]).
    + unfold urban_flood_findings. by_block; (split; [discriminate | reflexivity]).
    + unfold heat_findings. by_block; (split; [discriminate | reflexivity]).
    + unfold storm_findings. by_block; (split; [discriminate | reflexivity]).
    + unfold tornado_findings. by_block; (split; [discriminate | reflexivity]).
    + unfold winter_findings. by_block; (split; [discriminate | reflexivity]).
    + unfold earthquake_findings, tsunami_findings.
      change (getattr w "underwater_quake") with (@None PyVal).
      by_block; (split; [discriminate | reflexivity]).
    + unfold wildfire_findings. by_block; (split; [discriminate | reflexivity]).
    + unfold air_quality_findings. by_block; (split; [discriminate | reflexivity]).
Qed.

(** ** The probability ceiling *)

Lemma banded_within_ceiling (r t : Q) :
  0 <= t → (r >? t) = true → r <= 0.95 → 0 <= r ∧ r <= 0.95.
Proof. intros Ht Hr Hle. apply Qgtb_gt in Hr. split; lra. Qed.

Lemma flood_risk_of_le self w : flood_risk_of self w <= 0.95.
Proof. apply Q.le_min_l. Qed.

Lemma heat_risk_le self w : _calculate_heat_risk self w <= 0.95.
Proof.
  unfold _calculate_heat_risk. destruct (temperature w <? 30); [lra | apply Q.le_min_l].
Qed.

Lemma wildfire_risk_le self w : _calculate_wildfire_risk self w <= 0.95.
Proof.
  unfold _calculate_wildfire_risk. destruct (_ || _); [lra | apply Q.le_min_l].
Qed.

Lemma tornado_risk_of_le w : tornado_risk_of w <= 0.95.
Proof.
  unfold tornado_risk_of. destruct (_ && _); [|lra].
  pose proof (Q.le_min_l 0.3 ((wind_speed w - 40) * 0.01)). lra.
Qed.

Lemma flood_findings_within r p :
  r <= 0.95 → p ∈ flood_findings r → within_ceiling p.
Proof.
  intros Hr. unfold flood_findings. by_block; unfold within_ceiling; cbn [probability];
    eapply banded_within_ceiling; eauto; lra.
Qed.

Lemma heat_findings_within r p :
  r <= 0.95 → p ∈ heat_findings r → within_ceiling p.
Proof.
  intros Hr. unfold heat_findings. by_block; unfold within_ceiling; cbn [probability];
    eapply banded_within_ceiling; eauto; lra.
Qed.

Lemma tornado_findings_within r p :
  r <= 0.95 → p ∈ tornado_findings r → within_ceiling p.
Proof.
  intros Hr. unfold tornado_findings. by_block; unfold within_ceiling; cbn [probability];
    eapply banded_within_ceiling; eauto; lra.
Qed.

Lemma wildfire_findings_within r p :
  r <= 0.95 → p ∈ wildfire_findings r → within_ceiling p.
Proof.
  intros Hr. unfold wildfire_findings. by_block; unfold within_ceiling; cbn [probability];
    eapply banded_within_ceiling; eauto; lra.
Qed.

Lemma storm_findings_within r p : p ∈ storm_findings r → within_ceiling p.
Proof.
  unfold storm_findings. by_block; unfold within_ceiling; cbn [probability]; lra.
Qed.

Lemma air_quality_findings_within w p : p ∈ air_quality_findings w → within_ceiling p.
Proof.
  unfold air_quality_findings. by_block; unfold within_ceiling; cbn [probability]; lra.
Qed.

Lemma urban_flood_findings_within w p : p ∈ urban_flood_findings w → within_ceiling p.
Proof.
  unfold urban_flood_findings. by_block. unfold within_ceiling. cbn [probability].
  pose proof (Q.le_min_l 1 (urban_runoff_index w / 100)) as Hmin.
  match goal with H : (_ >? 0.65) = true |- _ => apply Qgtb_gt in H end.
  split; lra.
Qed.

Lemma tsunami_findings_within fmt w p :
  p ∈ tsunami_findings fmt w → 0.4 <= probability p ∧ probability p <= 0.9.
Proof.
  unfold tsunami_findings.
  change (getattr w "underwater_quake") with (@None PyVal).
  destruct (tsunami_triggered w) eqn:Ht; [|intros H; apply elem_of_nil in H; contradiction].
  intros H. apply list_elem_of_singleton in H as ->. cbn [probability].
  unfold tsunami_triggered in Ht. apply andb_true_iff in Ht as [Ht _].
  apply andb_true_iff in Ht as [Ht _]. apply Qgtb_gt in Ht.
  pose proof (Q.le_min_l 0.5 ((seismic_activity w - 6.5) * 0.2)) as Hmin.
  assert (Hpos : 0 <= Qmin 0.5 ((seismic_activity w - 6.5) * 0.2)).
  { apply Q.min_glb; lra. }
  split; lra.
Qed.

Lemma earthquake_findings_within fmt w p :
  p ∈ earthquake_findings fmt w → within_ceiling p.
Proof.
  unfold earthquake_findings.
  destruct (earthquake_triggered w) eqn:Ht; [|intros H; apply elem_of_nil in H; contradiction].
  intros H. apply elem_of_cons in H as [->|H].
  - unfold within_ceiling. cbn [probability].
    unfold earthquake_triggered in Ht. apply andb_true_iff in Ht as [_ Ht].
    apply Qgtb_gt in Ht.
    split; [apply Q.min_glb; lra | apply Q.le_min_l].
  - apply tsunami_findings_within in H. unfold within_ceiling. split; lra.
Qed.

Lemma winter_findings_within w p :
  p ∈ winter_findings w →
  (disaster_type p = "Winter Storm" ∨ disaster_type p = "Blizzard")
  ∧ 0.5 <= probability p ∧ probability p <= 1.
Proof.
  unfold winter_findings.
  destruct (_ && _); [|intros H; apply elem_of_nil in H; contradiction].
  intros H. apply list_elem_of_singleton in H as ->. cbn [disaster_type probability].
  split; [destruct (_ && _); auto|].
  unfold winter_severity_of.
  destruct (temperature w <? -5), (wind_speed w >? 30), (precipitation w >? 20); split; lra.
Qed.

Lemma findings_of_within fmt self w p :
  p ∈ findings_of fmt self w →
  within_ceiling p
  ∨ ((disaster_type p = "Winter Storm" ∨ disaster_type p = "Blizzard")
     ∧ 0.5 <= probability p ∧ probability p <= 1).
Proof.
  unfold findings_of. rewrite !elem_of_app.
  intros [H|[H|[H|[H|[H|[H|[H|[H|H]]]]]]]].
  - left. exact (flood_findings_within _ p (flood_risk_of_le self w) H).
  - left. exact (urban_flood_findings_within w p H).
  - left. exact (heat_findings_within _ p (heat_risk_le self w) H).
  - left. exact (storm_findings_within _ p H).
  - left. exact (tornado_findings_within _ p (tornado_risk_of_le w) H).
  - right. exact (winter_findings_within w p H).
  - left. exact (earthquake_findings_within fmt w p H).
  - left. exact (wildfire_findings_within _ p (wildfire_risk_le self w) H).
  - left. exact (air_quality_findings_within w p H).
Qed.

(** X9.  Every probability in a returned list lies in [0, 1], and in
    [0, 0.95] unless the finding is the winter-storm one. *)
Lemma probabilities_within_ceiling_except_winter fmt self raw l p :
  predict_disasters fmt self raw = Ok l → p ∈ l →
  0 <= probability p ∧ probability p <= 1
  ∧ (disaster_type p ≠ "Winter Storm" → disaster_type p ≠ "Blizzard" →
     probability p <= 0.95).
Proof.
  intros Hl Hp.
  destruct (predict_disasters_outcome fmt self raw) as (w & _ & Hout).
  rewrite Hout in Hl. clear Hout.
  destruct (precipitation w >? 30); [discriminate Hl|].
  destruct ((wind_speed w >? 75) && (pressure w <? 980)); [discriminate Hl|].
  destruct (findings_of fmt self w) as [|p0 ps] eqn:Hf; injection Hl as <-.
  - apply list_elem_of_singleton in Hp as ->. cbn. repeat split; intros; lra.
  - rewrite <- Hf in Hp.
    destruct (findings_of_within fmt self w p Hp) as [[H0 H95]|([Hw|Hb] & H0 & H1)].
    + repeat split; intros; lra.
    + repeat split; try lra. intros Hne. contradiction.
    + repeat split; try lra. intros _ Hne. contradiction.
Qed.

(** C1.  A probability above the ceiling: at -10 degrees with 25 mm of
    precipitation and a wind of 40 the winter-storm block adds
    0.5 + 0.2 + 0.2 + 0.1 and reports a "Blizzard" of probability 1, with
    no clamp to 0.95. *)
Theorem blizzard_probability_above_ceiling (fmt : Q → string) (db : PredictionStorage) :
  ∃ p, predict_disasters fmt (init db)
         (RawDict [("temperature", PyInt (-10)); ("precipitation", PyInt 25);
                   ("wind_speed", PyInt 40)]) = Ok [p]
       ∧ disaster_type p = "Blizzard"
       ∧ probability p == 1
       ∧ ¬ probability p <= 0.95.
Proof.
  eexists. split; [vm_compute; reflexivity|].
  split; [reflexivity|]. split; [reflexivity|].
  apply Qlt_not_le. reflexivity.
Qed.

(** ** The default case *)

(** C7.  A list returned by [predict_disasters] is never empty, and when
    the hazard blocks leave [predictions] empty it is exactly the one
    "No Significant Hazards" finding, of probability 0.8 and severity
    "Low". *)
Theorem predict_disasters_never_empty (fmt : Q → string) (self : DisasterPredictor)
    (raw : RawWeather) (l : list DisasterPrediction) :
  predict_disasters fmt self raw = Ok l →
  l ≠ []
  ∧ (∀ w, _sanitize_input raw = Ok w → hazard_findings fmt self w = Ok [] →
          l = [no_significant_hazards])
  ∧ disaster_type no_significant_hazards = "No Significant Hazards"
  ∧ probability no_significant_hazards = 0.8
  ∧ severity no_significant_hazards = "Low".
Proof.
  unfold predict_disasters. intros Hl.
  destruct (_sanitize_input raw) as [w|e]; [|discriminate Hl].
  unfold mbind at 1, result_bind at 1 in Hl.
  destruct (hazard_findings fmt self w) as [ps|e] eqn:Hps; [|discriminate Hl].
  unfold mbind, result_bind in Hl.
  split; [|split; [|repeat split]].
  - intros ->. destruct ps; discriminate Hl.
  - intros w' Hw' Hnone. injection Hw' as <-.
    rewrite Hps in Hnone. injection Hnone as ->.
    injection Hl as <-. reflexivity.
Qed.

Lemma predict_disasters_never_empty_witness :
  ∃ l, predict_disasters (λ _, "") (init []) (RawDict []) = Ok l ∧ l ≠ [].
Proof.
  exists [no_significant_hazards]. split; [vm_compute; reflexivity|].
  apply (predict_disasters_never_empty (λ _, "") (init []) (RawDict [])).
  vm_compute. reflexivity.
Defined.

(** ** The earthquake and tsunami cascade *)

Lemma tsunami_trigger_implies_earthquake_trigger (w : WeatherData) :
  tsunami_triggered w = true → earthquake_triggered w = true.
Proof.
  unfold tsunami_triggered, earthquake_triggered.
  change (hasattr w "seismic_activity") with true.
  rewrite !andb_true_iff, !Qgtb_gt.
  intros [[Hs _] _]. split; [reflexivity|].
  eapply Qlt_trans; [|exact Hs]. reflexivity.
Qed.

Lemma tsunami_only_from_cascade fmt self w p :
  p ∈ findings_of fmt self w → disaster_type p = "Tsunami" →
  p ∈ earthquake_findings fmt w.
Proof.
  unfold findings_of. rewrite !elem_of_app. intros Hin Ht.
  destruct Hin as [H|[H|[H|[H|[H|[H|[H|[H|H]]]]]]]];
    try exact H; exfalso; revert H Ht.
  - unfold flood_findings. by_block; discriminate.
  - unfold urban_flood_findings. by_block; discriminate.
  - unfold heat_findings. by_block; discriminate.
  - unfold storm_findings. by_block; discriminate.
  - unfold tornado_findings. by_block; discriminate.
  - unfold winter_findings. by_block; discriminate.
  - unfold wildfire_findings. by_block; discriminate.
  - unfold air_quality_findings. by_block; discriminate.
Qed.

Lemma earthquake_findings_head fmt w p :
  p ∈ earthquake_findings fmt w →
  ∃ q, q ∈ earthquake_findings fmt w ∧ endswith (disaster_type q) "Earthquake" = true.
Proof.
  unfold earthquake_findings.
  destruct (earthquake_triggered w); [|intros H; apply elem_of_nil in H; contradiction].
  intros _. eexists. split; [apply list_elem_of_here|].
  cbn [disaster_type].
  destruct (seismic_activity w <? 6); [reflexivity|].
  destruct (seismic_activity w <? 7); [reflexivity|].
  destruct (seismic_activity w <? 8); reflexivity.
Qed.

Lemma earthquake_findings_in fmt self w q :
  q ∈ earthquake_findings fmt w → q ∈ findings_of fmt self w.
Proof. unfold findings_of. rewrite !elem_of_app. tauto. Qed.

(** C10.  A "Tsunami" finding is always accompanied by an earthquake
    finding: the tsunami condition implies the earthquake condition, and
    in a returned list a finding labelled "Tsunami" can only come from the
    block nested under the earthquake finding, whose label ends in
    "Earthquake". *)
Theorem tsunami_implies_earthquake (fmt : Q → string) (self : DisasterPredictor)
    (raw : RawWeather) (l : list DisasterPrediction) :
  predict_disasters fmt self raw = Ok l →
  (∃ p, p ∈ l ∧ disaster_type p = "Tsunami") →
  (∃ q, q ∈ l ∧ endswith (disaster_type q) "Earthquake" = true)
  ∧ (∀ w, tsunami_triggered w = true → earthquake_triggered w = true).
Proof.
  intros Hl (p & Hp & Ht).
  split; [|exact tsunami_trigger_implies_earthquake_trigger].
  destruct (predict_disasters_outcome fmt self raw) as (w & _ & Hout).
  rewrite Hout in Hl. clear Hout.
  destruct (precipitation w >? 30); [discriminate Hl|].
  destruct ((wind_speed w >? 75) && (pressure w <? 980)); [discriminate Hl|].
  destruct (findings_of fmt self w) as [|p0 ps] eqn:Hf; injection Hl as <-.
  - apply list_elem_of_singleton in Hp as ->. discriminate Ht.
  - rewrite <- Hf in Hp |- *.
    destruct (earthquake_findings_head fmt w p (tsunami_only_from_cascade fmt self w p Hp Ht))
      as (q & Hq & Hend).
    exists q. split; [exact (earthquake_findings_in fmt self w q Hq) | exact Hend].
Qed.

Lemma tsunami_implies_earthquake_witness :
  ∃ l, predict_disasters (λ _, "") (init [])
         (RawDict [("seismic_activity", PyFloat 7.2); ("coastal_proximity", PyInt 10)]) = Ok l
       ∧ (∃ p, p ∈ l ∧ disaster_type p = "Tsunami")
       ∧ (∃ q, q ∈ l ∧ endswith (disaster_type q) "Earthquake" = true).
Proof.
  eexists. split; [vm_compute; reflexivity|].
  assert (Ht : ∃ p, p ∈ [ mkDisasterPrediction "Major Earthquake" 0.720 "Major"
                             "Seismic activity of magnitude  detected";
                          mkDisasterPrediction "Tsunami" 0.5400 "Moderate"
                             "Seismic activity near coast creates tsunami risk, potential wave height: m" ]
                   ∧ disaster_type p = "Tsunami").
  { eexists. split; [apply list_elem_of_further, list_elem_of_here | reflexivity]. }
  split; [exact Ht|].
  apply (tsunami_implies_earthquake (λ _, "") (init [])
           (RawDict [("seismic_activity", PyFloat 7.2); ("coastal_proximity", PyInt 10)]));
    [vm_compute; reflexivity | exact Ht].
Defined.

(** ** Learning from history *)

Lemma record_accuracy_keys category a d :
  (record_accuracy category a d).*1 =
  if bool_decide (category ∈ d.*1) then d.*1 else d.*1 ++ [category].
Proof.
  induction d as [|[k accs] d IH]; [reflexivity|].
  cbn. destruct (String.eqb_spec k category) as [->|Hne].
  - rewrite bool_decide_eq_true_2 by apply list_elem_of_here. reflexivity.
  - cbn. rewrite IH. destruct (bool_decide (category ∈ d.*1)) eqn:Hin.
    + apply bool_decide_eq_true in Hin.
      rewrite bool_decide_eq_true_2 by (apply list_elem_of_further; exact Hin). reflexivity.
    + apply bool_decide_eq_false in Hin.
      rewrite bool_decide_eq_false_2; [reflexivity|].
      intros Hin'. apply elem_of_cons in Hin' as [->|Hin']; [congruence | contradiction].
Qed.

Lemma record_accuracy_NoDup category a d :
  NoDup d.*1 → NoDup (record_accuracy category a d).*1.
Proof.
  intros Hnd. rewrite record_accuracy_keys.
  destruct (bool_decide (category ∈ d.*1)) eqn:Hin; [exact Hnd|].
  apply bool_decide_eq_false in Hin.
  apply NoDup_app. split; [exact Hnd|]. split; [|apply NoDup_singleton].
  intros x Hx Hx'. apply list_elem_of_singleton in Hx' as ->. contradiction.
Qed.

Lemma record_accuracy_nonempty category a d :
  Forall (λ entry, entry.2 ≠ []) d →
  Forall (λ entry, entry.2 ≠ []) (record_accuracy category a d).
Proof.
  induction 1 as [|[k accs] d Hk Hd IH]; cbn.
  - repeat constructor. discriminate.
  - destruct (String.eqb k category); constructor; try assumption.
    cbn. intros Heq. apply app_eq_nil in Heq as [_ Heq]. discriminate Heq.
Qed.

Lemma collect_accuracies_well_formed history : well_formed (collect_accuracies history).
Proof.
  unfold collect_accuracies.
  assert (Hgen : ∀ d, well_formed d →
            well_formed
              (foldl (fun accuracy_by_type record =>
                        match accuracy record with
                        | None => accuracy_by_type
                        | Some a =>
                            foldl (fun accuracy_by_type prediction =>
                                     let disaster_type := lower (disaster_type prediction) in
                                     let category := _map_to_category disaster_type in
                                     record_accuracy category a accuracy_by_type)
                                  accuracy_by_type (predictions record)
                        end) d history)).
  { induction history as [|record history IH]; intros d Hd; [exact Hd|].
    cbn [foldl]. apply IH.
    destruct (accuracy record) as [a|]; [|exact Hd].
    generalize (predictions record). intros ps. revert d Hd.
    induction ps as [|prediction ps IHps]; intros d Hd; [exact Hd|].
    cbn [foldl]. apply IHps. destruct Hd as [Hnd Hne].
    split; [apply record_accuracy_NoDup | apply record_accuracy_nonempty]; assumption. }
  apply Hgen. split; [apply NoDup_nil_2 | constructor].
Qed.

Lemma update_coefficients_lookup d :
  well_formed d →
  ∀ (coefficients : gmap string Q) family,
    update_coefficients coefficients d !! family =
    match table_get family d with
    | Some accuracies => (λ c, adjusted c accuracies) <$> coefficients !! family
    | None => coefficients !! family
    end.
Proof.
  unfold update_coefficients.
  induction d as [|[k accs] d IH]; intros [Hnd Hne] coefficients family; [reflexivity|].
  apply NoDup_cons in Hnd as [Hk Hnd]. apply Forall_cons in Hne as [Haccs Hne].
  cbn [foldl]. rewrite IH by (split; assumption). clear IH.
  cbn [table_get].
  assert (Hlen : (0 <? length accs)%nat = true).
  { destruct accs; [contradiction Haccs; reflexivity | reflexivity]. }
  rewrite Hlen.
  destruct (String.eqb_spec family k) as [->|Hfk].
  - rewrite (table_get_None k d Hk).
    destruct (coefficients !! k) as [c|] eqn:Hc; [|rewrite Hc; reflexivity].
    rewrite lookup_insert_eq. reflexivity.
  - assert (Hsame : (match coefficients !! k with
                     | Some c => <[k := Qmax 0.5 (Qmin 1.5 (c + adjustment_of accs))]> coefficients
                     | None => coefficients
                     end) !! family = coefficients !! family).
    { destruct (coefficients !! k); [apply lookup_insert_ne; congruence | reflexivity]. }
    rewrite Hsame. reflexivity.
Qed.

Lemma learn_from_history_storage self : storage (learn_from_history self) = storage self.
Proof.
  unfold learn_from_history.
  destruct (length (get_recent_predictions (storage self) 100) <? 5)%nat; reflexivity.
Qed.

Lemma learn_from_history_lookup self family :
  (5 ≤ length (get_recent_predictions (storage self) 100))%nat →
  learning_coefficients (learn_from_history self) !! family =
  match feedback_of self family with
  | Some accuracies => (λ c, adjusted c accuracies) <$> learning_coefficients self !! family
  | None => learning_coefficients self !! family
  end.
Proof.
  intros Hlen. unfold learn_from_history, feedback_of.
  destruct (Nat.ltb_spec (length (get_recent_predictions (storage self) 100)) 5) as [Hlt|_];
    [lia|].
  cbn [learning_coefficients].
  apply update_coefficients_lookup, collect_accuracies_well_formed.
Qed.

(** C4, as the code has it.  A run over a history of at least five records
    replaces the coefficient [c] of a family with feedback by
    [max(0.5, min(1.5, c + (mean - 0.5) * 0.1))] and keeps the others; the
    new value is computed from the current one, so a second run over the
    same history applies the adjustment once more. *)
Theorem learn_from_history_integrates (self : DisasterPredictor) (family : string) (c : Q) :
  (5 ≤ length (get_recent_predictions (storage self) 100))%nat →
  learning_coefficients self !! family = Some c →
  learning_coefficients (learn_from_history self) !! family
  = Some (match feedback_of self family with
          | Some accuracies => adjusted c accuracies
          | None => c
          end)
  ∧ learning_coefficients (learn_from_history (learn_from_history self)) !! family
    = Some (match feedback_of self family with
            | Some accuracies => adjusted (adjusted c accuracies) accuracies
            | None => c
            end).
Proof.
  intros Hlen Hc.
  assert (Hone : learning_coefficients (learn_from_history self) !! family
                 = Some (match feedback_of self family with
                         | Some accuracies => adjusted c accuracies
                         | None => c
                         end)).
  { rewrite learn_from_history_lookup, Hc by exact Hlen.
    destruct (feedback_of self family); reflexivity. }
  split; [exact Hone|].
  rewrite learn_from_history_lookup
    by (rewrite learn_from_history_storage; exact Hlen).
  unfold feedback_of at 1. rewrite learn_from_history_storage. fold (feedback_of self family).
  rewrite Hone. destruct (feedback_of self family); reflexivity.
Qed.

Lemma learn_from_history_integrates_witness :
  let self := init (replicate 6 (flood_record (Some 0.9))) in
  learning_coefficients (learn_from_history self) !! "flood"
  = Some (adjusted 1 (replicate 6 0.9))
  ∧ learning_coefficients (learn_from_history (learn_from_history self)) !! "flood"
    = Some (adjusted (adjusted 1 (replicate 6 0.9)) (replicate 6 0.9)).
Proof.
  exact (learn_from_history_integrates
           (init (replicate 6 (flood_record (Some 0.9)))) "flood" 1
           ltac:(vm_compute; lia) eq_refl).
Defined.

(** C4, as stated, fails: from the initial coefficients and six flood
    records of accuracy 0.9, one run leaves the flood coefficient at 1.04
    and a second run over the same history moves it to 1.08. *)
Lemma learn_twice_differs_from_once :
  let self := init (replicate 6 (flood_record (Some 0.9))) in
  default 1 (learning_coefficients (learn_from_history self) !! "flood") == 1.04
  ∧ default 1 (learning_coefficients (learn_from_history (learn_from_history self)) !! "flood")
    == 1.08
  ∧ learning_coefficients (learn_from_history (learn_from_history self))
    ≠ learning_coefficients (learn_from_history self).
Proof.
  cbv zeta. split; [vm_compute; reflexivity|]. split; [vm_compute; reflexivity|].
  intros Heq. apply (f_equal (λ m : gmap string Q, m !! "flood")) in Heq.
  vm_compute in Heq. discriminate Heq.
Qed.

(** C5, as the code has it.  The update is skipped when the history holds
    fewer than five records, whether or not they carry feedback. *)
Theorem learn_from_history_short_history (self : DisasterPredictor) :
  (length (get_recent_predictions (storage self) 100) < 5)%nat →
  learn_from_history self = self.
Proof.
  intros Hlen. unfold learn_from_history.
  destruct (Nat.ltb_spec (length (get_recent_predictions (storage self) 100)) 5); [reflexivity|lia].
Qed.

Lemma learn_from_history_short_history_witness :
  learn_from_history (init (replicate 4 (flood_record (Some 0.9))))
  = init (replicate 4 (flood_record (Some 0.9))).
Proof.
  apply (learn_from_history_short_history (init (replicate 4 (flood_record (Some 0.9))))).
  vm_compute. lia.
Defined.

(** C5, as stated, fails: a history of five records of which only one
    carries feedback has fewer than five feedback-bearing records, yet the
    run moves the flood coefficient from 1 to 1.04. *)
Lemma one_feedback_record_among_five_learns :
  let history := flood_record (Some 0.9) :: replicate 4 (flood_record None) in
  let self := init history in
  length (feedback_bearing (get_recent_predictions (storage self) 100)) = 1%nat
  ∧ default 1 (learning_coefficients self !! "flood") == 1
  ∧ default 1 (learning_coefficients (learn_from_history self) !! "flood") == 1.04
  ∧ learning_coefficients (learn_from_history self) ≠ learning_coefficients self.
Proof.
  cbv zeta. split; [reflexivity|]. split; [reflexivity|].
  split; [vm_compute; reflexivity|].
  intros Heq. apply (f_equal (λ m : gmap string Q, m !! "flood")) in Heq.
  vm_compute in Heq. discriminate Heq.
Qed.

(** ** Which risk functions read their coefficient *)

(** The flood risk is its summed raw risk times the flood coefficient,
    clamped; the four other risk functions do not depend on [self]. *)
Lemma only_flood_reads_its_coefficient (self self' : DisasterPredictor) (w : WeatherData) :
  _calculate_flood_risk self w
  = Ok (Qmin 0.95 (flood_base_risk (precipitation w) (soil_saturation w) 0 (snow_depth w)
                                   (temperature w) 0
                   * default 1 (learning_coefficients self !! "flood")))
  ∧ _calculate_heat_risk self w = _calculate_heat_risk self' w
  ∧ _calculate_storm_severity self w = _calculate_storm_severity self' w
  ∧ _calculate_tornado_risk self w = _calculate_tornado_risk self' w
  ∧ _calculate_wildfire_risk self w = _calculate_wildfire_risk self' w.
Proof. repeat split. Qed.

(** C6.  The heat-wave coefficient is not applied: after a run that raised
    it to 1.04, the heat risk of a 35-degree day is still its raw risk
    0.35, where the flood path would have multiplied. *)
Theorem heat_risk_ignores_its_coefficient :
  let self := learn_from_history (init (replicate 6 (heat_record (Some 0.9)))) in
  default 1 (learning_coefficients self !! "heat_wave") == 1.04
  ∧ heat_base_risk hot_day == 0.35
  ∧ _calculate_heat_risk self hot_day == 0.35
  ∧ ¬ _calculate_heat_risk self hot_day == Qmin 0.95 (heat_base_risk hot_day * 1.04).
Proof.
  cbv zeta. split; [vm_compute; reflexivity|]. split; [vm_compute; reflexivity|].
  split; [vm_compute; reflexivity|].
  intros H. vm_compute in H. discriminate H.
Qed.

(** ** Location names *)

Lemma names_entry_all_locations (table : list (string * list string)) name entry :
  entry ∈ table → names_entry name entry = true →
  name ∈ List.map fst table ++ List.concat (List.map snd table).
Proof.
  intros Hentry Hname. destruct entry as [correct_name aliases].
  apply orb_true_iff in Hname as [Heq|Hal]; apply elem_of_app.
  - apply String.eqb_eq in Heq as ->. left.
    apply list_elem_of_In, in_map_iff. exists (correct_name, aliases).
    split; [reflexivity | apply list_elem_of_In, Hentry].
  - right. apply existsb_exists in Hal as (alias & Hin & Heq).
    apply String.eqb_eq in Heq as <-.
    apply list_elem_of_In, in_concat. exists aliases. split; [|exact Hin].
    apply in_map_iff. exists (correct_name, aliases).
    split; [reflexivity | apply list_elem_of_In, Hentry].
Qed.

Lemma no_direct_match name :
  name ∉ all_locations → List.find (names_entry name) LOCATION_ALIASES = None.
Proof.
  intros Hname. destruct (List.find _ _) as [entry|] eqn:Hfind; [|reflexivity].
  apply find_some in Hfind as [Hin Hentry]. exfalso. apply Hname.
  exact (names_entry_all_locations LOCATION_ALIASES name entry
           (proj2 (list_elem_of_In _ _) Hin) Hentry).
Qed.

Lemma no_close_match similarity word possibilities cutoff :
  (∀ x, x ∈ possibilities → similarity x word < cutoff) →
  get_close_matches similarity word possibilities cutoff = [].
Proof.
  intros Hlow. unfold get_close_matches.
  replace (List.filter _ _) with (@nil (Q * string)); [reflexivity|].
  symmetry. induction possibilities as [|x xs IH]; [reflexivity|].
  cbn. pose proof (Hlow x (list_elem_of_here _ _)) as Hx.
  apply Qltb_lt in Hx. unfold Qltb in Hx. apply negb_true_iff in Hx. rewrite Hx.
  apply IH. intros y Hy. apply Hlow, list_elem_of_further, Hy.
Qed.

Lemma ratio_below_cutoff_zzzqqq123 :
  forallb (λ x, ratio x "zzzqqq123" <? 0.7) all_locations = true.
Proof. vm_compute. reflexivity. Qed.

(** C9.  "bombay" resolves to "mumbai" and "pari" to "paris" (both are
    listed aliases), "zzzqqq123" comes back unchanged, and so does every
    input that, lowercased and stripped, is no canonical name or alias and
    has no candidate of similarity 0.7 or more. *)
Theorem correct_location_name_resolves :
  correct_location_name ratio "bombay" = "mumbai"
  ∧ correct_location_name ratio "pari" = "paris"
  ∧ correct_location_name ratio "zzzqqq123" = "zzzqqq123"
  ∧ ∀ (similarity : string → string → Q) (location_input : string),
      strip (lower location_input) ∉ all_locations →
      (∀ x, x ∈ all_locations → similarity x (strip (lower location_input)) < 0.7) →
      correct_location_name similarity location_input = location_input.
Proof.
  split; [vm_compute; reflexivity|]. split; [vm_compute; reflexivity|].
  split; [vm_compute; reflexivity|].
  intros similarity location_input Hexact Hfuzzy. unfold correct_location_name.
  destruct (String.eqb location_input ""); [reflexivity|].
  rewrite (no_direct_match _ Hexact), (no_close_match _ _ _ _ Hfuzzy). reflexivity.
Qed.

Lemma correct_location_name_resolves_witness :
  correct_location_name ratio "zzzqqq123" = "zzzqqq123".
Proof.
  apply (proj2 (proj2 (proj2 correct_location_name_resolves))).
  - apply (bool_decide_unpack ("zzzqqq123" ∉ all_locations)). vm_compute. exact I.
  - intros x Hx. apply Qltb_lt.
    exact (proj1 (forallb_forall _ _) ratio_below_cutoff_zzzqqq123 x
             (proj1 (list_elem_of_In _ _) Hx)).
Defined.

(** * Further properties *)

(** ** Validation as an invariant *)

Lemma clamp_float_within (lo hi : Z) (v : Q) :
  (lo <= hi)%Z → inject_Z lo <= clamp_float lo hi v ∧ clamp_float lo hi v <= inject_Z hi.
Proof.
  intros Hlh. rewrite Zle_Qle in Hlh. unfold clamp_float.
  destruct (v <? inject_Z lo) eqn:Hlo; [split; [apply Qle_refl | exact Hlh]|].
  destruct (v >? inject_Z hi) eqn:Hhi; [split; [exact Hlh | apply Qle_refl]|].
  apply Qltb_ge in Hlo. apply Qgtb_le in Hhi. split; assumption.
Qed.



Lemma clamp_float_idempotent (lo hi : Z) (v : Q) :
  (lo <= hi)%Z → clamp_float lo hi (clamp_float lo hi v) = clamp_float lo hi v.
Proof. intros Hlh. apply clamp_float_unchanged, clamp_float_within, Hlh. Qed.

Lemma clamp_int_idempotent (lo hi z : Z) :
  (lo <= hi)%Z → clamp_int lo hi (clamp_int lo hi z) = clamp_int lo hi z.
Proof.
  intros Hlh. apply clamp_int_unchanged. rewrite clamp_int_float.
  apply clamp_float_within, Hlh.
Qed.

(** X3.  Validation is idempotent: an object that [_validate_weather_data]
    returned is returned unchanged when it is validated again. *)
Theorem validation_idempotent (w w' : WeatherData) :
  _validate_weather_data w = Ok w' → _validate_weather_data w' = Ok w'.
Proof.
  rewrite !_validate_weather_data_clamped. intros [= <-]. f_equal.
  unfold clamped at 1. cbn [temperature humidity precipitation wind_speed pressure
    snow_depth temperature_gradient consecutive_dry_days soil_saturation temperature_change
    snow_fall air_quality_index seismic_activity coastal_proximity volcanic_activity
    pressure_change cloud_height dew_point stagnant_water_index urban_runoff_index
    temperature_profile clamped].
  rewrite !clamp_float_idempotent, clamp_int_idempotent by lia. reflexivity.
Qed.

Lemma validation_idempotent_witness :
  _validate_weather_data (clamped hot_day) = Ok (clamped hot_day).
Proof. apply (validation_idempotent hot_day (clamped hot_day)). reflexivity. Defined.

(** ** The fallback of the sanitiser *)








(** ** Attribute names *)

Lemma normalize_keys_snoc items key value :
  normalize_keys (items ++ [(key, value)])
  = <[canonical_name key := value]> (normalize_keys items).
Proof. unfold normalize_keys. rewrite foldl_app. reflexivity. Qed.

Lemma alias_targets_canonical k c :
  table_get k ATTRIBUTE_ALIASES = Some c →
  default c (table_get c ATTRIBUTE_ALIASES) = c.
Proof.
  unfold ATTRIBUTE_ALIASES at 1. cbn [table_get]. intros H.
  by_name k; try discriminate H; injection H as <-; reflexivity.
Qed.

Lemma canonical_name_fixed key :
  default (canonical_name key) (table_get (canonical_name key) ATTRIBUTE_ALIASES)
  = canonical_name key.
Proof.
  unfold canonical_name.
  destruct (table_get (strip (lower key)) ATTRIBUTE_ALIASES) as [c|] eqn:Hk.
  - exact (alias_targets_canonical _ _ Hk).
  - rewrite Hk. reflexivity.
Qed.

(** X5.  The keys of the normalised dictionary are the canonical names of
    the keys given (lowercased, stripped, sent through the alias table);
    none of them is itself an alias of another name; and of two keys with
    one canonical name the later one gives the value. *)
Theorem normalized_keys_are_canonical (items : list (string * PyVal)) :
  (∀ k, is_Some (normalize_keys items !! k) →
        (∃ key value, (key, value) ∈ items ∧ k = canonical_name key)
        ∧ default k (table_get k ATTRIBUTE_ALIASES) = k)
  ∧ (∀ key value, normalize_keys (items ++ [(key, value)]) !! canonical_name key = Some value).
Proof.
  split; [|intros key value; rewrite normalize_keys_snoc; apply lookup_insert_eq].
  induction items as [|[key value] items IH] using rev_ind; intros k Hk.
  - unfold normalize_keys in Hk. cbn in Hk. rewrite lookup_empty in Hk.
    destruct Hk as [? Hk]. discriminate Hk.
  - rewrite normalize_keys_snoc in Hk.
    destruct (decide (canonical_name key = k)) as [<-|Hne].
    + split; [|apply canonical_name_fixed].
      exists key, value. split; [|reflexivity].
      apply elem_of_app. right. apply list_elem_of_here.
    + rewrite lookup_insert_ne in Hk by exact Hne.
      destruct (IH k Hk) as [(key' & value' & Hin & Heq) Hfix].
      split; [|exact Hfix]. exists key', value'. split; [|exact Heq].
      apply elem_of_app. left. exact Hin.
Qed.

(** ** Safe attribute access *)

(** X6.  [_get_attribute_safely] is the attribute when the object has it
    and the default otherwise: its loop over the alias table never finds
    anything, since no alias of a missing attribute is an attribute of the
    model. *)
Theorem get_attribute_safely_no_alias (w : WeatherData) (attr : string) (dflt : PyVal) :
  _get_attribute_safely w attr dflt = default dflt (getattr w attr).
Proof.
  unfold _get_attribute_safely.
  destruct (getattr w attr) as [value|] eqn:Hattr; [reflexivity|].
  destruct (List.find _ ATTRIBUTE_ALIASES) as [[alias target]|] eqn:Hfind; [|reflexivity].
  exfalso. apply find_some in Hfind as [Hin Hp].
  apply andb_true_iff in Hp as [Ht Hh]. apply String.eqb_eq in Ht as <-.
  unfold ATTRIBUTE_ALIASES in Hin. cbn [In] in Hin.
  repeat (destruct Hin as [Hin|Hin];
          [injection Hin as <- <-; first [discriminate Hh | discriminate Hattr]|]).
  contradiction.
Qed.

(** ** What a returned list can hold *)

Lemma returned_findings fmt self raw l :
  predict_disasters fmt self raw = Ok l →
  ∃ w, _sanitize_input raw = Ok w
       ∧ (l = [no_significant_hazards] ∨ l = findings_of fmt self w).
Proof.
  intros Hl.
  destruct (predict_disasters_outcome fmt self raw) as (w & Hw & Hout).
  exists w. split; [exact Hw|].
  rewrite Hout in Hl. clear Hout.
  destruct (precipitation w >? 30); [discriminate Hl|].
  destruct ((wind_speed w >? 75) && (pressure w <? 980)); [discriminate Hl|].
  destruct (findings_of fmt self w) as [|p0 ps] eqn:Hf; injection Hl as <-; auto.
Qed.

(** X10.  With a humidity above 60 or more than 5 mm of precipitation on
    the sanitised observation, no finding of a returned list is a fire
    danger. *)
Theorem wet_conditions_report_no_fire (fmt : Q → string) (self : DisasterPredictor)
    (raw : RawWeather) (w : WeatherData) (l : list DisasterPrediction) (p : DisasterPrediction) :
  _sanitize_input raw = Ok w →
  (60 < humidity w ∨ 5 < precipitation w) →
  predict_disasters fmt self raw = Ok l → p ∈ l →
  contains "Fire" (disaster_type p) = false.
Proof.
  intros Hw Hwet Hl Hp.
  destruct (returned_findings fmt self raw l Hl) as (w' & Hw' & Hcases).
  rewrite Hw in Hw'. injection Hw' as <-.
  destruct Hcases as [-> | ->].
  - apply list_elem_of_singleton in Hp as ->. reflexivity.
  - revert Hp. unfold findings_of. rewrite !elem_of_app.
    assert (Hrisk : _calculate_wildfire_risk self w = 0).
    { unfold _calculate_wildfire_risk.
      destruct Hwet as [Hh|Hr]; apply Qgtb_gt in Hh || apply Qgtb_gt in Hr.
      - rewrite Hh. reflexivity.
      - rewrite Hr, orb_true_r. reflexivity. }
    rewrite Hrisk.
    intros [H|[H|[H|[H|[H|[H|[H|[H|H]]]]]]]]; revert H.
    + unfold flood_findings. by_block; reflexivity.
    + unfold urban_flood_findings. by_block; reflexivity.
    + unfold heat_findings. by_block; reflexivity.
    + unfold storm_findings. by_block; reflexivity.
    + unfold tornado_findings. by_block; reflexivity.
    + unfold winter_findings. by_block; reflexivity.
    + unfold earthquake_findings, tsunami_findings.
      change (getattr w "underwater_quake") with (@None PyVal).
      by_block; reflexivity.
    + change (wildfire_findings 0) with (@nil DisasterPrediction).
      intros H. apply elem_of_nil in H. contradiction.
    + unfold air_quality_findings. by_block; reflexivity.
Qed.

Lemma wet_conditions_report_no_fire_witness :
  ∃ l, predict_disasters (λ _, "") (init [])
         (RawDict [("temperature", PyInt 45); ("humidity", PyInt 70); ("wind_speed", PyInt 20)])
       = Ok l
       ∧ ∀ p, p ∈ l → contains "Fire" (disaster_type p) = false.
Proof.
  eexists. split; [vm_compute; reflexivity|].
  intros p.
  eapply (wet_conditions_report_no_fire (λ _, "") (init [])
           (RawDict [("temperature", PyInt 45); ("humidity", PyInt 70); ("wind_speed", PyInt 20)]));
    [vm_compute; reflexivity | left; reflexivity | vm_compute; reflexivity].
Defined.

(** X11.  Every label [predict_disasters] returns is credited by
    [_map_to_category] to one of the seven families that have a
    coefficient, except "Blizzard", "Tsunami" and the sentinel, which fall
    in "other" and so never feed the learning. *)
Theorem returned_labels_and_families (fmt : Q → string) (self : DisasterPredictor)
    (raw : RawWeather) (l : list DisasterPrediction) (p : DisasterPrediction) :
  predict_disasters fmt self raw = Ok l → p ∈ l →
  (disaster_type p ∈ uncredited_labels ∧ _map_to_category (disaster_type p) = "other")
  ∨ ((disaster_type p ∉ uncredited_labels) ∧ _map_to_category (disaster_type p) ∈ learned_families).
Proof.
  intros Hl Hp.
  destruct (returned_findings fmt self raw l Hl) as (w & _ & [-> | ->]).
  - apply list_elem_of_singleton in Hp as ->. left. split; [|reflexivity].
    apply (bool_decide_unpack _). vm_compute. exact I.
  - revert Hp. unfold findings_of. rewrite !elem_of_app.
    intros [H|[H|[H|[H|[H|[H|[H|[H|H]]]]]]]]; revert H.
    + unfold flood_findings. by_block; right;
        (split; apply (bool_decide_unpack _); vm_compute; exact I).
    + unfold urban_flood_findings. by_block; right;
        (split; apply (bool_decide_unpack _); vm_compute; exact I).
    + unfold heat_findings. by_block; right;
        (split; apply (bool_decide_unpack _); vm_compute; exact I).
    + unfold storm_findings. by_block; right;
        (split; apply (bool_decide_unpack _); vm_compute; exact I).
    + unfold tornado_findings. by_block; right;
        (split; apply (bool_decide_unpack _); vm_compute; exact I).
    + unfold winter_findings. by_block;
        first [ left; split; [apply (bool_decide_unpack _); vm_compute; exact I | reflexivity]
              | right; split; apply (bool_decide_unpack _); vm_compute; exact I ].
    + unfold earthquake_findings, tsunami_findings.
      change (getattr w "underwater_quake") with (@None PyVal).
      by_block;
        first [ left; split; [apply (bool_decide_unpack _); vm_compute; exact I | reflexivity]
              | right; split; apply (bool_decide_unpack _); vm_compute; exact I ].
    + unfold wildfire_findings. by_block; right;
        (split; apply (bool_decide_unpack _); vm_compute; exact I).
    + unfold air_quality_findings. by_block; right;
        (split; apply (bool_decide_unpack _); vm_compute; exact I).
Qed.

Lemma returned_labels_and_families_witness :
  ∃ p, predict_disasters (λ _, "") (init [])
         (RawDict [("seismic_activity", PyFloat 7.2); ("coastal_proximity", PyInt 10)])
       = Ok [p; mkDisasterPrediction "Tsunami" 0.5400 "Moderate"
                  "Seismic activity near coast creates tsunami risk, potential wave height: m"]
       ∧ _map_to_category (disaster_type p) ∈ learned_families.
Proof.
  eexists. split; [vm_compute; reflexivity|].
  destruct (returned_labels_and_families (λ _, "") (init [])
              (RawDict [("seismic_activity", PyFloat 7.2); ("coastal_proximity", PyInt 10)])
              _ (mkDisasterPrediction "Major Earthquake" 0.720 "Major"
                   "Seismic activity of magnitude  detected")
              ltac:(vm_compute; reflexivity) ltac:(apply list_elem_of_here))
    as [[Hin _]|[_ Hfam]]; [|exact Hfam].
  exfalso. revert Hin. apply (bool_decide_unpack _). vm_compute. exact I.
Defined.

(** ** Learning: bounds and what feeds it *)

Lemma adjusted_bounded (c : Q) (accuracies : list Q) :
  0.5 <= adjusted c accuracies ∧ adjusted c accuracies <= 1.5.
Proof.
  unfold adjusted. split; [apply Q.le_max_l|].
  apply Q.max_lub; [lra | apply Q.le_min_l].
Qed.

Lemma learn_from_history_lookup_any self family :
  learning_coefficients (learn_from_history self) !! family
  = if (length (get_recent_predictions (storage self) 100) <? 5)%nat
    then learning_coefficients self !! family
    else match feedback_of self family with
         | Some accuracies => (λ c, adjusted c accuracies) <$> learning_coefficients self !! family
         | None => learning_coefficients self !! family
         end.
Proof.
  destruct (Nat.ltb_spec (length (get_recent_predictions (storage self) 100)) 5) as [Hlt|Hge].
  - unfold learn_from_history. apply Nat.ltb_lt in Hlt. rewrite Hlt. reflexivity.
  - apply learn_from_history_lookup. exact Hge.
Qed.

Lemma init_lookup (db : PredictionStorage) (family : string) :
  learning_coefficients (init db) !! family
  = if bool_decide (family ∈ learned_families) then Some 1 else None.
Proof.
  unfold init. cbn [learning_coefficients].
  destruct (bool_decide (family ∈ learned_families)) eqn:Hin.
  - apply bool_decide_eq_true in Hin. unfold learned_families in Hin.
    repeat (apply elem_of_cons in Hin as [->|Hin]);
      [..|apply elem_of_nil in Hin; contradiction]; reflexivity.
  - apply bool_decide_eq_false in Hin.
    repeat (rewrite lookup_insert_ne;
            [|intros <-; apply Hin; apply (bool_decide_unpack _); vm_compute; exact I]).
    apply lookup_empty.
Qed.

Lemma iterated_learning_lookup (db : PredictionStorage) (n : nat) (family : string) :
  match learning_coefficients (Nat.iter n learn_from_history (init db)) !! family with
  | Some c => family ∈ learned_families ∧ 0.5 <= c ∧ c <= 1.5
  | None => family ∉ learned_families
  end.
Proof.
  induction n as [|n IH].
  - change (Nat.iter 0 learn_from_history (init db)) with (init db). rewrite init_lookup.
    destruct (bool_decide (family ∈ learned_families)) eqn:Hin.
    + apply bool_decide_eq_true in Hin. split; [exact Hin | split; lra].
    + apply bool_decide_eq_false in Hin. exact Hin.
  - change (Nat.iter (S n) learn_from_history (init db))
      with (learn_from_history (Nat.iter n learn_from_history (init db))).
    rewrite learn_from_history_lookup_any.
    set (self := Nat.iter n learn_from_history (init db)) in *.
    destruct (length (get_recent_predictions (storage self) 100) <? 5)%nat; [exact IH|].
    destruct (feedback_of self family) as [accuracies|]; [|exact IH].
    destruct (learning_coefficients self !! family) as [c|]; [|exact IH].
    cbn. destruct IH as [Hin _]. split; [exact Hin | apply adjusted_bounded].
Qed.

Lemma collect_accuracies_feedback_bearing (history : list StoredPrediction) :
  collect_accuracies history = collect_accuracies (feedback_bearing history).
Proof.
  unfold collect_accuracies. generalize (@nil (string * list Q)).
  induction history as [|record history IH]; intros d; [reflexivity|].
  cbn [foldl feedback_bearing List.filter].
  destruct (accuracy record) as [a|] eqn:Ha.
  - cbn [foldl]. rewrite Ha. apply IH.
  - apply IH.
Qed.

(** X13.  A history without a usable feedback record leaves the predictor
    as it was, however long the history is. *)
Theorem unrated_records_teach_nothing (self : DisasterPredictor) :
  feedback_bearing (get_recent_predictions (storage self) 100) = [] →
  learn_from_history self = self.
Proof.
  intros Hnone. unfold learn_from_history.
  destruct (length (get_recent_predictions (storage self) 100) <? 5)%nat; [reflexivity|].
  rewrite collect_accuracies_feedback_bearing, Hnone.
  destruct self; reflexivity.
Qed.

Lemma unrated_records_teach_nothing_witness :
  learn_from_history (init (replicate 8 (flood_record None)))
  = init (replicate 8 (flood_record None)).
Proof.
  apply (unrated_records_teach_nothing (init (replicate 8 (flood_record None)))).
  reflexivity.
Defined.




(** ** Location names: what the resolver can answer *)

Lemma find_entry_canonical name entry :
  List.find (names_entry name) LOCATION_ALIASES = Some entry →
  entry.1 ∈ canonical_locations.
Proof.
  intros Hfind. apply find_some in Hfind as [Hin _].
  apply list_elem_of_In, in_map, Hin.
Qed.

Lemma resolver_answer (similarity : string → string → Q)
    (location_input : string) :
  correct_location_name similarity location_input = location_input
  ∨ correct_location_name similarity location_input ∈ canonical_locations.
Proof.
  unfold correct_location_name.
  destruct (String.eqb location_input ""); [left; reflexivity|].
  destruct (List.find _ LOCATION_ALIASES) as [[c aliases]|] eqn:Hdirect.
  - right. exact (find_entry_canonical _ _ Hdirect).
  - destruct (get_close_matches _ _ _ _) as [|matched_alias rest]; [left; reflexivity|].
    destruct (List.find (names_entry matched_alias) LOCATION_ALIASES)
      as [[c aliases]|] eqn:Hfuzzy; [|left; reflexivity].
    right. exact (find_entry_canonical _ _ Hfuzzy).
Qed.

Lemma canonical_location_fixed (similarity : string → string → Q) (c : string) :
  c ∈ canonical_locations → correct_location_name similarity c = c.
Proof.
  unfold canonical_locations, LOCATION_ALIASES. cbn [List.map fst]. intros Hin.
  repeat (apply elem_of_cons in Hin as [->|Hin]);
    [..|apply elem_of_nil in Hin; contradiction]; reflexivity.
Qed.

(** X16.  Correcting a corrected name changes nothing, whatever the
    similarity measure. *)
Theorem correct_location_name_idempotent (similarity : string → string → Q)
    (location_input : string) :
  correct_location_name similarity (correct_location_name similarity location_input)
  = correct_location_name similarity location_input.
Proof.
  destruct (resolver_answer similarity location_input) as [Hsame|Hcanon].
  - rewrite Hsame. exact Hsame.
  - apply canonical_location_fixed, Hcanon.
Qed.

(** X17.  An input that, lowercased and stripped, is a canonical name or
    one of its listed aliases resolves to that canonical name, without
    recourse to the similarity measure. *)
Theorem listed_names_resolve (similarity : string → string → Q)
    (location_input correct_name : string) (aliases : list string) :
  (correct_name, aliases) ∈ LOCATION_ALIASES →
  strip (lower location_input) ∈ correct_name :: aliases →
  correct_location_name similarity location_input = correct_name.
Proof.
  intros Hentry Hname.
  assert (Hfind : List.find (names_entry (strip (lower location_input))) LOCATION_ALIASES
                  = Some (correct_name, aliases)).
  { revert Hname. generalize (strip (lower location_input)). intros name Hname.
    unfold LOCATION_ALIASES in Hentry.
    repeat (apply elem_of_cons in Hentry as [Hentry|Hentry];
            [injection Hentry as -> ->;
             repeat (apply elem_of_cons in Hname as [->|Hname]);
             [..|apply elem_of_nil in Hname; contradiction]; reflexivity|]).
    apply elem_of_nil in Hentry. contradiction. }
  unfold correct_location_name.
  destruct (String.eqb_spec location_input "") as [->|_].
  - discriminate Hfind.
  - rewrite Hfind. reflexivity.
Qed.

Lemma listed_names_resolve_witness :
  correct_location_name ratio "  New York City " = "new york".
Proof.
  apply (listed_names_resolve ratio "  New York City " "new york"
           ["newyork"; "ny"; "new york city"; "nyc"]);
    apply (bool_decide_unpack _); vm_compute; exact I.
Defined.

(** ** Prevention measures *)

Lemma dict_set_lookup {V} (c k : string) (v : V) (d : list (string * V)) :
  table_get c (dict_set k v d)
  = if String.eqb c k then Some v else table_get c d.
Proof.
  induction d as [|[k' v'] d IH]; cbn.
  - destruct (String.eqb c k); reflexivity.
  - destruct (String.eqb_spec k' k) as [->|Hne]; cbn.
    + destruct (String.eqb c k); reflexivity.
    + rewrite IH. destruct (String.eqb_spec c k') as [->|Hck]; [|reflexivity].
      destruct (String.eqb_spec k' k); [contradiction | reflexivity].
Qed.

Lemma dict_set_keys {V} (k : string) (v : V) (d : list (string * V)) :
  table_get k d = None → (dict_set k v d).*1 = d.*1 ++ [k].
Proof.
  induction d as [|[k' v'] d IH]; cbn; [reflexivity|].
  destruct (String.eqb_spec k k') as [->|Hne]; [discriminate|].
  intros Hk. destruct (String.eqb_spec k' k) as [->|_]; [contradiction|].
  cbn. rewrite IH by exact Hk. reflexivity.
Qed.

Lemma find_category_listed label category :
  PreventionService.find_category label = Some category →
  category ∈ PreventionService.disaster_keywords.*1.
Proof.
  unfold PreventionService.find_category.
  destruct (List.find _ _) as [[c keywords]|] eqn:Hfind; [|discriminate].
  intros [= <-]. apply find_some in Hfind as [Hin _].
  apply list_elem_of_fmap. exists (c, keywords). split; [reflexivity|].
  apply list_elem_of_In, Hin.
Qed.

Lemma store_preventions_listed category severity d :
  category ∈ PreventionService.disaster_keywords.*1 →
  PreventionService.store_preventions category severity d
  = dict_set category
      (PreventionService.preventions_for category severity) d.
Proof.
  unfold PreventionService.disaster_keywords. cbn [fmap list_fmap fst]. intros Hin.
  repeat (apply elem_of_cons in Hin as [->|Hin]);
    [..|apply elem_of_nil in Hin; contradiction]; reflexivity.
Qed.

Lemma process_lookup state prediction category :
  PreventionService.in_step state →
  PreventionService.in_step (PreventionService.process state prediction)
  ∧ table_get category (PreventionService.process state prediction).1
    = match table_get category state.1 with
      | Some measures => Some measures
      | None =>
          if PreventionService.decides category prediction
          then Some (PreventionService.preventions_for category (severity prediction))
          else None
      end.
Proof.
  destruct state as [d processed]. intros Hstate.
  unfold PreventionService.process, PreventionService.decides.
  destruct (String.eqb (disaster_type prediction) "No Significant Hazards").
  { split; [exact Hstate|]. cbn. destruct (table_get category d); reflexivity. }
  destruct (PreventionService.find_category (disaster_type prediction)) as [matched|] eqn:Hcat.
  2:{ split; [exact Hstate|]. cbn.
      rewrite bool_decide_eq_false_2 by discriminate.
      destruct (table_get category d); reflexivity. }
  pose proof (find_category_listed _ _ Hcat) as Hlisted.
  destruct (bool_decide (matched ∈ processed)) eqn:Hseen.
  - apply bool_decide_eq_true in Hseen. split; [exact Hstate|]. cbn [fst negb andb].
    destruct (table_get category d) eqn:Hc; [reflexivity|].
    rewrite bool_decide_eq_false_2; [reflexivity|].
    intros [= ->]. apply Hstate in Hseen. cbn in Hseen. rewrite Hc in Hseen.
    destruct Hseen as [? Hseen]. discriminate Hseen.
  - apply bool_decide_eq_false in Hseen.
    rewrite store_preventions_listed by exact Hlisted.
    split.
    + intros c. cbn [fst snd]. rewrite dict_set_lookup, elem_of_union, elem_of_singleton.
      destruct (String.eqb_spec c matched) as [->|Hne].
      * split; [eauto | auto].
      * rewrite (Hstate c). cbn [fst snd]. split; [intros [?|?]; [contradiction|assumption] | auto].
    + cbn [fst negb andb]. rewrite dict_set_lookup.
      destruct (String.eqb_spec category matched) as [->|Hne].
      * rewrite bool_decide_eq_true_2 by reflexivity.
        destruct (table_get matched d) eqn:Hc; [|reflexivity].
        exfalso. apply Hseen, (Hstate matched). cbn. rewrite Hc. eauto.
      * rewrite bool_decide_eq_false_2 by congruence.
        destruct (table_get category d); reflexivity.
Qed.

Lemma foldl_process_lookup predictions category :
  ∀ state, PreventionService.in_step state →
    table_get category (foldl PreventionService.process state predictions).1
    = match table_get category state.1 with
      | Some measures => Some measures
      | None =>
          match List.find (PreventionService.decides category) predictions with
          | Some prediction =>
              Some (PreventionService.preventions_for category (severity prediction))
          | None => None
          end
      end.
Proof.
  induction predictions as [|prediction predictions IH]; intros state Hstate.
  - cbn. destruct (table_get category state.1); reflexivity.
  - cbn [foldl List.find].
    destruct (process_lookup state prediction category Hstate) as [Hnext Hlookup].
    rewrite IH by exact Hnext. rewrite Hlookup.
    destruct (table_get category state.1); [reflexivity|].
    destruct (PreventionService.decides category prediction); reflexivity.
Qed.

Lemma get_prevention_measures_lookup (predictions : list DisasterPrediction)
    (category : string) :
  table_get category (PreventionService.get_prevention_measures predictions)
  = match List.find (PreventionService.decides category) predictions with
    | Some prediction =>
        Some (PreventionService.preventions_for category (severity prediction))
    | None => None
    end.
Proof.
  unfold PreventionService.get_prevention_measures.
  destruct ((length predictions =? 1)%nat && _) eqn:Hearly.
  - apply andb_true_iff in Hearly as [Hlen Hfirst].
    destruct predictions as [|first [|? ?]]; try discriminate Hlen.
    cbn. unfold PreventionService.decides. rewrite Hfirst. reflexivity.
  - rewrite foldl_process_lookup; [reflexivity|].
    intros c. cbn. split; [intros H; apply elem_of_empty in H; contradiction|].
    intros [? H]. discriminate H.
Qed.

Lemma table_get_None_keys {V} (k : string) (t : list (string * V)) :
  table_get k t = None → k ∉ t.*1.
Proof.
  induction t as [|[k' v'] t IH]; cbn; [intros _ H; apply elem_of_nil in H; contradiction|].
  destruct (String.eqb_spec k k') as [->|Hne]; [discriminate|].
  intros Hk Hin. apply elem_of_cons in Hin as [?|Hin]; [contradiction | exact (IH Hk Hin)].
Qed.

Lemma process_keys state prediction :
  PreventionService.in_step state → NoDup state.1.*1 →
  NoDup (PreventionService.process state prediction).1.*1.
Proof.
  destruct state as [d processed]. intros Hstate Hnd.
  unfold PreventionService.process.
  destruct (String.eqb (disaster_type prediction) "No Significant Hazards"); [exact Hnd|].
  destruct (PreventionService.find_category (disaster_type prediction)) as [matched|] eqn:Hcat;
    [|exact Hnd].
  destruct (bool_decide (matched ∈ processed)) eqn:Hseen; [exact Hnd|].
  apply bool_decide_eq_false in Hseen.
  rewrite store_preventions_listed by exact (find_category_listed _ _ Hcat).
  assert (Hnone : table_get matched d = None).
  { destruct (table_get matched d) eqn:Hc; [|reflexivity].
    exfalso. apply Hseen, (Hstate matched). cbn. rewrite Hc. eauto. }
  cbn [fst]. rewrite dict_set_keys by exact Hnone.
  apply NoDup_app. split; [exact Hnd|]. split; [|apply NoDup_singleton].
  intros k Hk Hk'. apply list_elem_of_singleton in Hk' as ->.
  exact (table_get_None_keys matched d Hnone Hk).
Qed.

Lemma get_prevention_measures_NoDup predictions :
  NoDup (PreventionService.get_prevention_measures predictions).*1.
Proof.
  unfold PreventionService.get_prevention_measures.
  destruct ((length predictions =? 1)%nat && _); [apply NoDup_nil_2|].
  assert (Hgen : ∀ state, PreventionService.in_step state → NoDup state.1.*1 →
            NoDup (foldl PreventionService.process state predictions).1.*1).
  { induction predictions as [|prediction predictions IH]; intros state Hstate Hnd;
      [exact Hnd|].
    cbn [foldl]. apply IH.
    - exact (proj1 (process_lookup state prediction "" Hstate)).
    - exact (process_keys state prediction Hstate Hnd). }
  apply Hgen; [|apply NoDup_nil_2].
  intros c. cbn. split; [intros H; apply elem_of_empty in H; contradiction|].
  intros [? H]. discriminate H.
Qed.

Lemma elem_of_table_get {V} (t : list (string * V)) (k : string) (v : V) :
  NoDup t.*1 → (k, v) ∈ t → table_get k t = Some v.
Proof.
  induction t as [|[k' v'] t IH]; intros Hnd Hin; [apply elem_of_nil in Hin; contradiction|].
  cbn in Hnd. apply NoDup_cons in Hnd as [Hk' Hnd]. cbn.
  apply elem_of_cons in Hin as [[= <- <-]|Hin].
  - rewrite String.eqb_refl. reflexivity.
  - destruct (String.eqb_spec k k') as [->|_]; [|exact (IH Hnd Hin)].
    exfalso. apply Hk'. apply list_elem_of_fmap. exists (k', v). split; [reflexivity | exact Hin].
Qed.

Lemma preventions_for_well_formed category severity :
  category ∈ PreventionService.disaster_keywords.*1 →
  PreventionService.preventions_for category severity ≠ []
  ∧ Forall (λ m, Measure.urgency m ∈ PreventionService.urgencies)
           (PreventionService.preventions_for category severity).
Proof.
  unfold PreventionService.disaster_keywords. cbn [fmap list_fmap fst]. intros Hin.
  repeat (apply elem_of_cons in Hin as [->|Hin]);
    [..|apply elem_of_nil in Hin; contradiction];
    cbv [PreventionService.preventions_for PreventionService.store_preventions
         String.eqb Ascii.eqb Bool.eqb dict_set table_get default
         PreventionService._get_flood_preventions
         PreventionService._get_flash_flood_preventions
         PreventionService._get_heat_wave_preventions
         PreventionService._get_storm_preventions
         PreventionService._get_hurricane_preventions
         PreventionService._get_wildfire_preventions
         PreventionService._get_tornado_preventions
         PreventionService._get_winter_storm_preventions
         PreventionService._get_earthquake_preventions
         PreventionService._get_air_quality_preventions];
    repeat match goal with
           | |- context [if ?b then _ else _] => destruct b
           end;
    cbn [app];
    (split; [discriminate|]);
    repeat (constructor; [apply (bool_decide_unpack _); vm_compute; exact I|]);
    constructor.
Qed.

(** X19.  The catalogue the prevention service returns has no category
    twice; each of its categories is one of the ten of [disaster_keywords];
    each entry holds at least one measure, and every measure has the
    urgency "Critical", "High" or "Medium". *)
Theorem prevention_entries_well_formed (predictions : list DisasterPrediction) :
  NoDup (PreventionService.get_prevention_measures predictions).*1
  ∧ ∀ category measures,
      (category, measures) ∈ PreventionService.get_prevention_measures predictions →
      category ∈ PreventionService.disaster_keywords.*1
      ∧ measures ≠ []
      ∧ Forall (λ m, Measure.urgency m ∈ PreventionService.urgencies) measures.
Proof.
  split; [apply get_prevention_measures_NoDup|].
  intros category measures Hin.
  apply (elem_of_table_get _ _ _ (get_prevention_measures_NoDup predictions)) in Hin.
  rewrite get_prevention_measures_lookup in Hin.
  destruct (List.find _ predictions) as [prediction|] eqn:Hfind; [|discriminate Hin].
  injection Hin as <-.
  apply find_some in Hfind as [_ Hdec]. unfold PreventionService.decides in Hdec.
  apply andb_true_iff in Hdec as [_ Hcat]. apply bool_decide_eq_true in Hcat.
  pose proof (find_category_listed _ _ Hcat) as Hlisted.
  split; [exact Hlisted|]. apply preventions_for_well_formed, Hlisted.
Qed.

Lemma prefix_app_l (a b s : string) :
  String.prefix (a +:+ b) s = true → String.prefix a s = true.
Proof.
  revert s. induction a as [|c a IH]; intros s; [destruct s; reflexivity|].
  change (String c a +:+ b) with (String c (a +:+ b)).
  destruct s as [|c' s]; cbn [String.prefix]; [discriminate|].
  destruct (ascii_dec c c'); [apply IH | discriminate].
Qed.

Lemma contains_app_l (a b s : string) :
  contains (a +:+ b) s = true → contains a s = true.
Proof.
  induction s as [|c s IH]; cbn [contains]; rewrite !orb_true_iff.
  - intros [H|H]; [left; exact (prefix_app_l a b _ H) | discriminate H].
  - intros [H|H]; [left; exact (prefix_app_l a b _ H) | right; exact (IH H)].
Qed.

(** X20.  A label that holds "flood" falls in the "Flood" category, which
    is tried first: the "Flash Flood" category is reached only by a label
    that holds "flash" and not "flood", so a "Flash Flood" finding would
    get the general flood list. *)
Theorem flood_labels_take_flood_measures (label : string) :
  (contains "flood" (lower label) = true → PreventionService.find_category label = Some "Flood")
  ∧ (PreventionService.find_category label = Some "Flash Flood" →
     contains "flood" (lower label) = false ∧ contains "flash" (lower label) = true).
Proof.
  unfold PreventionService.find_category, PreventionService.disaster_keywords.
  cbn [List.find existsb]. split.
  - intros ->. reflexivity.
  - destruct (contains "flood" (lower label)) eqn:Hflood; [discriminate|].
    destruct (contains "flooding" (lower label)) eqn:Hflooding.
    { apply (contains_app_l "flood" "ing") in Hflooding. congruence. }
    cbn [orb].
    destruct (contains "flash" (lower label)) eqn:Hflash.
    + intros _. split; reflexivity.
    + destruct (contains "flash flood" (lower label)) eqn:Hff.
      { apply (contains_app_l "flash" " flood") in Hff. congruence. }
      cbn [orb].
      repeat match goal with
             | |- context [if ?b then _ else _] => destruct b
             end; discriminate.
Qed.

Lemma flood_labels_take_flood_measures_witness :
  PreventionService.find_category "Flash Flood" = Some "Flood".
Proof. apply (proj1 (flood_labels_take_flood_measures "Flash Flood")). reflexivity. Defined.

Lemma findings_categorised fmt self w p :
  p ∈ findings_of fmt self w →
  disaster_type p = "Tsunami"
  ∨ (disaster_type p ≠ "No Significant Hazards"
     ∧ is_Some (PreventionService.find_category (disaster_type p))).
Proof.
  unfold findings_of. rewrite !elem_of_app.
  intros [H|[H|[H|[H|[H|[H|[H|[H|H]]]]]]]]; revert H.
  - unfold flood_findings. by_block; right; (split; [discriminate | eexists; vm_compute; reflexivity]).
  - unfold urban_flood_findings. by_block; right;
      (split; [discriminate | eexists; vm_compute; reflexivity]).
  - unfold heat_findings. by_block; right; (split; [discriminate | eexists; vm_compute; reflexivity]).
  - unfold storm_findings. by_block; right; (split; [discriminate | eexists; vm_compute; reflexivity]).
  - unfold tornado_findings. by_block; right;
      (split; [discriminate | eexists; vm_compute; reflexivity]).
  - unfold winter_findings. by_block; right;
      (split; [discriminate | eexists; vm_compute; reflexivity]).
  - unfold earthquake_findings, tsunami_findings.
    change (getattr w "underwater_quake") with (@None PyVal).
    by_block;
      first [ left; reflexivity
            | right; (split; [discriminate | eexists; vm_compute; reflexivity]) ].
  - unfold wildfire_findings. by_block; right;
      (split; [discriminate | eexists; vm_compute; reflexivity]).
  - unfold air_quality_findings. by_block; right;
      (split; [discriminate | eexists; vm_compute; reflexivity]).
Qed.

Lemma categorised_finding_gives_entry predictions p category :
  p ∈ predictions →
  disaster_type p ≠ "No Significant Hazards" →
  PreventionService.find_category (disaster_type p) = Some category →
  PreventionService.get_prevention_measures predictions ≠ [].
Proof.
  intros Hin Hlabel Hcat Hempty.
  pose proof (get_prevention_measures_lookup predictions category) as Hlookup.
  rewrite Hempty in Hlookup. cbn in Hlookup.
  destruct (List.find _ predictions) eqn:Hfind; [discriminate Hlookup|].
  pose proof (find_none _ _ Hfind p (proj1 (list_elem_of_In _ _) Hin)) as Hdec.
  unfold PreventionService.decides in Hdec.
  rewrite bool_decide_eq_true_2 in Hdec by exact Hcat.
  destruct (String.eqb_spec (disaster_type p) "No Significant Hazards"); [contradiction|].
  discriminate Hdec.
Qed.

(** X21.  For a list [predict_disasters] returned, the prevention service
    gives the empty catalogue exactly when the list is the sentinel
    alone. *)
Theorem preventions_empty_iff_no_hazard (fmt : Q → string) (self : DisasterPredictor)
    (raw : RawWeather) (l : list DisasterPrediction) :
  predict_disasters fmt self raw = Ok l →
  (PreventionService.get_prevention_measures l = [] ↔ l = [no_significant_hazards]).
Proof.
  intros Hl. split; [|intros ->; reflexivity].
  destruct (predict_disasters_outcome fmt self raw) as (w & _ & Hout).
  rewrite Hout in Hl. clear Hout.
  destruct (precipitation w >? 30); [discriminate Hl|].
  destruct ((wind_speed w >? 75) && (pressure w <? 980)); [discriminate Hl|].
  destruct (findings_of fmt self w) as [|p0 ps] eqn:Hf; injection Hl as <-; [reflexivity|].
  intros Hempty. exfalso. rewrite <- Hf in Hempty.
  assert (Hp0 : p0 ∈ findings_of fmt self w) by (rewrite Hf; apply list_elem_of_here).
  destruct (findings_categorised fmt self w p0 Hp0) as [Htsunami|[Hlabel [c Hc]]].
  - destruct (earthquake_findings_head fmt w p0
                (tsunami_only_from_cascade fmt self w p0 Hp0 Htsunami)) as (q & Hq & Hend).
    apply (earthquake_findings_in fmt self) in Hq as Hq'.
    destruct (findings_categorised fmt self w q Hq') as [Hqt|[Hlabel [c Hc]]].
    + rewrite Hqt in Hend. discriminate Hend.
    + exact (categorised_finding_gives_entry _ q c Hq' Hlabel Hc Hempty).
  - exact (categorised_finding_gives_entry _ p0 c Hp0 Hlabel Hc Hempty).
Qed.

Lemma preventions_empty_iff_no_hazard_witness :
  PreventionService.get_prevention_measures [no_significant_hazards] = [].
Proof.
  apply (preventions_empty_iff_no_hazard (λ _, "") (init []) (RawDict [])
           [no_significant_hazards]); reflexivity.
Defined.


(** ** Weather fetched from the provider *)

Lemma extra_data_never_set setattr (answer : WeatherService.Answer) (w : WeatherData) :
  foldl (fun weather_data '(key, value) =>
           if hasattr weather_data key then setattr weather_data key value else weather_data)
        w (WeatherService.extra_data answer) = w.
Proof.
  unfold WeatherService.extra_data.
  destruct (WeatherService.uv answer), (WeatherService.vis_km answer),
    (WeatherService.country answer); reflexivity.
Qed.

Lemma fetched_weather_fields setattr (answer : WeatherService.Answer) (w : WeatherData) :
  WeatherService.get_weather_data setattr answer = Ok w →
  temperature w = WeatherService.temp_c answer
  ∧ precipitation w = WeatherService.precip_mm answer
  ∧ wind_speed w = WeatherService.wind_kph answer / 3.6
  ∧ snow_depth w = 0
  ∧ temperature_gradient w = 5
  ∧ soil_saturation w = 50
  ∧ seismic_activity w = 0
  ∧ urban_runoff_index w = 50.
Proof.
  unfold WeatherService.get_weather_data. intros Hw.
  destruct (WeatherData_init _) as [w0|] eqn:Hinit; [|discriminate Hw].
  unfold mbind, result_bind in Hw. rewrite extra_data_never_set in Hw.
  injection Hw as <-.
  unfold WeatherData_init, float_field, int_field, str_field in Hinit.
  rewrite !list_to_map_table_get in Hinit.
  unfold WeatherService.keyword_arguments in Hinit. cbn [table_get String.eqb Ascii.eqb Bool.eqb] in Hinit.
  unfold mbind, result_bind in Hinit.
  repeat match type of Hinit with
         | context [match ?x with _ => _ end] =>
             match x with
             | WeatherService.humidity _ => destruct x
             | WeatherService.pressure_mb _ => destruct x
             | default _ _ => destruct x
             | Qeq_bool _ _ => destruct x
             end
         end; try discriminate Hinit;
  injection Hinit as <-; repeat split.
Qed.

Lemma sanitize_model (w : WeatherData) : _sanitize_input (RawModel w) = Ok (clamped w).
Proof. apply _validate_weather_data_clamped. Qed.

(** X23.  Weather fetched from the provider with more than 30 mm of
    precipitation makes [predict_disasters] raise: the object built by
    [get_weather_data] cannot carry the [precipitation_intensity] passed
    to its constructor. *)
Theorem heavy_rain_always_raises setattr (fmt : Q → string) (self : DisasterPredictor)
    (answer : WeatherService.Answer) (w : WeatherData) :
  WeatherService.get_weather_data setattr answer = Ok w →
  30 < WeatherService.precip_mm answer →
  predict_disasters fmt self (RawModel w) = Raise (AttributeError "precipitation_intensity").
Proof.
  intros Hw Hrain.
  destruct (fetched_weather_fields setattr answer w Hw) as (_ & Hp & _).
  destruct (predict_disasters_outcome fmt self (RawModel w)) as (w' & Hw' & ->).
  rewrite sanitize_model in Hw'. injection Hw' as <-.
  assert (Hwet : (precipitation (clamped w) >? 30) = true).
  { apply Qgtb_gt. cbn [clamped precipitation]. rewrite Hp. unfold clamp_float.
    destruct (WeatherService.precip_mm answer <? inject_Z 0) eqn:Hneg.
    - apply Qltb_lt in Hneg. change (inject_Z 0) with 0 in Hneg. lra.
    - destruct (WeatherService.precip_mm answer >? inject_Z 2000); [reflexivity | exact Hrain]. }
  rewrite Hwet. reflexivity.
Qed.

Lemma base_flood_risk_of_fetched p t :
  p <= 30 →
  0 <= flood_base_risk p 50 0 0 t 0 ∧ flood_base_risk p 50 0 0 t 0 <= 0.15.
Proof.
  intros Hp. unfold flood_base_risk.
  change (50 >? 60) with false. change (0 >? 70) with false.
  change (0 >? 10) with false. change (0 >? 30) with false.
  cbn [andb].
  destruct (p >? 20) eqn:Hp20; [|split; lra].
  apply Qgtb_gt in Hp20.
  pose proof (Q.le_min_r 0.6 ((p - 20) * 0.015)) as Hmin.
  assert (Hpos : 0 <= Qmin 0.6 ((p - 20) * 0.015)) by (apply Q.min_glb; lra).
  split; lra.
Qed.

Lemma no_finding_below_bands (r : Q) :
  r <= 0.4 → flood_findings r = [].
Proof.
  intros Hr. unfold flood_findings.
  assert (H8 : (r >? 0.8) = false) by (apply Qgtb_le; lra).
  assert (H6 : (r >? 0.6) = false) by (apply Qgtb_le; lra).
  assert (H4 : (r >? 0.4) = false) by (apply Qgtb_le; lra).
  rewrite H8, H6, H4. reflexivity.
Qed.

(** X24.  On fetched weather, after any number of learning runs, a
    returned list holds only heat, storm, winter, fire and air-quality
    findings or the sentinel: the constants [get_weather_data] fills in
    keep the flood, urban-flood, tornado and earthquake blocks silent. *)
Theorem fetched_weather_findings setattr (fmt : Q → string) (db : PredictionStorage) (n : nat)
    (answer : WeatherService.Answer) (w : WeatherData)
    (l : list DisasterPrediction) (p : DisasterPrediction) :
  WeatherService.get_weather_data setattr answer = Ok w →
  predict_disasters fmt (Nat.iter n learn_from_history (init db)) (RawModel w) = Ok l →
  p ∈ l →
  disaster_type p ∈ fetched_labels.
Proof.
  intros Hw Hl Hp.
  destruct (fetched_weather_fields setattr answer w Hw)
    as (_ & _ & _ & Hsnow & Hgrad & Hsoil & Hseismic & Hrunoff).
  set (self := Nat.iter n learn_from_history (init db)) in *.
  destruct (predict_disasters_outcome fmt self (RawModel w)) as (w' & Hw' & Hout).
  rewrite sanitize_model in Hw'. injection Hw' as <-.
  rewrite Hout in Hl. clear Hout.
  destruct (precipitation (clamped w) >? 30) eqn:Hrain; [discriminate Hl|].
  apply Qgtb_le in Hrain.
  destruct ((wind_speed (clamped w) >? 75) && (pressure (clamped w) <? 980));
    [discriminate Hl|].
  assert (Hcoef : 0.5 <= default 1 (learning_coefficients self !! "flood")
                  ∧ default 1 (learning_coefficients self !! "flood") <= 1.5).
  { pose proof (iterated_learning_lookup db n "flood") as Hb. fold self in Hb.
    destruct (learning_coefficients self !! "flood"); cbn; [tauto | split; lra]. }
  assert (Hflood : flood_findings (flood_risk_of self (clamped w)) = []).
  { apply no_finding_below_bands. unfold flood_risk_of.
    cbn [clamped soil_saturation snow_depth]. rewrite Hsoil, Hsnow.
    destruct (base_flood_risk_of_fetched (precipitation (clamped w)) (temperature (clamped w))
                Hrain) as [Hb0 Hb1].
    set (base := flood_base_risk _ _ _ _ _ _) in *.
    set (c := default 1 _) in *. destruct Hcoef as [Hc0 Hc1].
    assert (Hprod : base * c <= 0.15 * c) by (apply Qmult_le_compat_r; lra).
    pose proof (Q.le_min_r 0.95 (base * c)). lra. }
  assert (Hurban : urban_flood_findings (clamped w) = []).
  { unfold urban_flood_findings. cbn [clamped urban_runoff_index]. rewrite Hrunoff.
    destruct (_ >? 20); reflexivity. }
  assert (Htornado : tornado_findings (tornado_risk_of (clamped w)) = []).
  { unfold tornado_risk_of. cbn [clamped temperature_gradient]. rewrite Hgrad.
    change (5 >? 10) with false. rewrite andb_false_r. reflexivity. }
  assert (Hquake : earthquake_findings fmt (clamped w) = []).
  { unfold earthquake_findings, earthquake_triggered.
    cbn [clamped seismic_activity]. rewrite Hseismic.
    change (clamp_float 0 10 0 >? 5) with false. rewrite andb_false_r. reflexivity. }
  assert (Hl' : l = [no_significant_hazards] ∨ l = findings_of fmt self (clamped w)).
  { destruct (findings_of fmt self (clamped w)); injection Hl as <-; auto. }
  clear Hl. destruct Hl' as [-> | ->].
  - apply list_elem_of_singleton in Hp as ->.
    apply (bool_decide_unpack _). vm_compute. exact I.
  - revert Hp. unfold findings_of.
    rewrite Hflood, Hurban, Htornado, Hquake. cbn [app]. rewrite !elem_of_app.
    intros [H|[H|[H|[H|H]]]]; revert H.
    + unfold heat_findings. by_block; apply (bool_decide_unpack _); vm_compute; exact I.
    + unfold storm_findings. by_block; apply (bool_decide_unpack _); vm_compute; exact I.
    + unfold winter_findings. by_block; apply (bool_decide_unpack _); vm_compute; exact I.
    + unfold wildfire_findings. by_block; apply (bool_decide_unpack _); vm_compute; exact I.
    + unfold air_quality_findings. by_block; apply (bool_decide_unpack _); vm_compute; exact I.
Qed.

(** ** The measures of the weather service *)

Lemma measures_never_empty (disaster_type severity : string) :
  WeatherService._get_measures_for_disaster disaster_type severity ≠ [].
Proof.
  unfold WeatherService._get_measures_for_disaster.
  repeat match goal with
         | |- context [if existsb ?f ?l then _ else _] => destruct (existsb f l)
         | |- context [if contains ?a ?b then _ else _] => destruct (contains a b)
         | |- context [if str_in ?a ?b then _ else _] => destruct (str_in a b)
         | |- context [if (contains ?a ?b) || ?c then _ else _] => destruct (contains a b || c)
         end;
    discriminate.
Qed.

Lemma add_measures_lookup d prediction k :
  table_get k (WeatherService.add_measures d prediction)
  = if String.eqb (disaster_type prediction) "None" then table_get k d
    else if String.eqb k (disaster_type prediction)
         then Some (WeatherService._get_measures_for_disaster k (severity prediction))
         else table_get k d.
Proof.
  unfold WeatherService.add_measures.
  destruct (String.eqb (disaster_type prediction) "None"); [reflexivity|].
  pose proof (measures_never_empty (disaster_type prediction) (severity prediction)) as Hne.
  destruct (WeatherService._get_measures_for_disaster _ _) as [|m ms] eqn:Hm;
    [contradiction Hne; reflexivity|].
  rewrite dict_set_lookup.
  destruct (String.eqb_spec k (disaster_type prediction)) as [->|_]; [|reflexivity].
  rewrite Hm. reflexivity.
Qed.

Lemma get_prevention_measures_nonempty (predictions : list DisasterPrediction) :
  ∀ d, Forall (λ entry : string * list Measure.PreventionMeasure, entry.2 ≠ []) d →
       Forall (λ entry, entry.2 ≠ []) (foldl WeatherService.add_measures d predictions).
Proof.
  induction predictions as [|prediction predictions IH]; intros d Hd; [exact Hd|].
  cbn [foldl]. apply IH. unfold WeatherService.add_measures.
  destruct (String.eqb (disaster_type prediction) "None"); [exact Hd|].
  destruct (WeatherService._get_measures_for_disaster _ _) as [|m ms]; [exact Hd|].
  generalize (disaster_type prediction). intros key. clear -Hd.
  induction Hd as [|[k' v'] d Hk Hd IHd]; cbn.
  - repeat constructor. discriminate.
  - destruct (String.eqb k' key); constructor; try assumption. discriminate.
Qed.

Lemma weather_measures_lookup (predictions : list DisasterPrediction) (k : string) :
  table_get k (WeatherService.get_prevention_measures predictions)
  = (if String.eqb k "None" then None
     else match List.find (fun p => String.eqb (disaster_type p) k) (rev predictions) with
          | Some p => Some (WeatherService._get_measures_for_disaster k (severity p))
          | None => None
          end).
Proof.
  unfold WeatherService.get_prevention_measures.
  induction predictions as [|prediction predictions IH] using rev_ind.
  - cbn. destruct (String.eqb k "None"); reflexivity.
  - rewrite foldl_app. cbn [foldl]. rewrite add_measures_lookup, IH, rev_app_distr.
    cbn [rev app List.find].
    destruct (String.eqb_spec (disaster_type prediction) "None") as [Hnone|Hsome].
    + destruct (String.eqb_spec k "None") as [Hk|Hk]; [reflexivity|].
      destruct (String.eqb_spec (disaster_type prediction) k) as [Heq|_];
        [congruence | reflexivity].
    + destruct (String.eqb_spec k (disaster_type prediction)) as [Hk|Hk].
      * rewrite <- Hk, String.eqb_refl.
        destruct (String.eqb_spec k "None"); [congruence | reflexivity].
      * destruct (String.eqb_spec (disaster_type prediction) k) as [Heq|_];
          [congruence | reflexivity].
Qed.

(** X25.  In the weather service's own catalogue the entry under a type
    is the list of measures computed for the last prediction of that type,
    there is no entry under "None", and no entry is empty. *)
Theorem last_prediction_of_a_type_decides (predictions : list DisasterPrediction)
    (k : string) :
  table_get k (WeatherService.get_prevention_measures predictions)
  = (if String.eqb k "None" then None
     else match List.find (fun p => String.eqb (disaster_type p) k) (rev predictions) with
          | Some p => Some (WeatherService._get_measures_for_disaster k (severity p))
          | None => None
          end)
  ∧ ∀ measures, (k, measures) ∈ WeatherService.get_prevention_measures predictions →
                measures ≠ [].
Proof.
  split; [apply weather_measures_lookup|].
  intros measures Hin.
  pose proof (get_prevention_measures_nonempty predictions [] (Forall_nil_2 _)) as Hall.
  rewrite Forall_forall in Hall. exact (Hall (k, measures) Hin).
Qed.

Lemma returned_labels_are_not_None fmt self raw l p :
  predict_disasters fmt self raw = Ok l → p ∈ l → disaster_type p ≠ "None".
Proof.
  intros Hl Hp.
  destruct (returned_findings fmt self raw l Hl) as (w & _ & [-> | ->]).
  - apply list_elem_of_singleton in Hp as ->. discriminate.
  - revert Hp. unfold findings_of. rewrite !elem_of_app.
    intros [H|[H|[H|[H|[H|[H|[H|[H|H]]]]]]]]; revert H.
    + unfold flood_findings. by_block; discriminate.
    + unfold urban_flood_findings. by_block; discriminate.
    + unfold heat_findings. by_block; discriminate.
    + unfold storm_findings. by_block; discriminate.
    + unfold tornado_findings. by_block; discriminate.
    + unfold winter_findings. by_block; discriminate.
    + unfold earthquake_findings, tsunami_findings.
      change (getattr w "underwater_quake") with (@None PyVal).
      by_block; discriminate.
    + unfold wildfire_findings. by_block; discriminate.
    + unfold air_quality_findings. by_block; discriminate.
Qed.

(** X26.  Every finding of a returned list, the sentinel included, has an
    entry of its own in the weather service's catalogue, and the entry is
    not empty. *)
Theorem every_finding_gets_weather_measures (fmt : Q → string) (self : DisasterPredictor)
    (raw : RawWeather) (l : list DisasterPrediction) (p : DisasterPrediction) :
  predict_disasters fmt self raw = Ok l → p ∈ l →
  ∃ measures,
    table_get (disaster_type p) (WeatherService.get_prevention_measures l) = Some measures
    ∧ measures ≠ [].
Proof.
  intros Hl Hp.
  pose proof (returned_labels_are_not_None fmt self raw l p Hl Hp) as Hnone.
  rewrite weather_measures_lookup.
  destruct (String.eqb_spec (disaster_type p) "None") as [Heq|_]; [contradiction|].
  destruct (List.find _ (rev l)) as [q|] eqn:Hfind.
  - eexists. split; [reflexivity | apply measures_never_empty].
  - exfalso.
    assert (Hin : In p (rev l)) by (apply in_rev; rewrite rev_involutive; apply list_elem_of_In, Hp).
    pose proof (find_none _ _ Hfind p Hin) as Hq. cbn in Hq.
    rewrite String.eqb_refl in Hq. discriminate Hq.
Qed.

Lemma every_finding_gets_weather_measures_witness :
  ∃ measures,
    table_get "No Significant Hazards"
      (WeatherService.get_prevention_measures [no_significant_hazards]) = Some measures
    ∧ measures ≠ [].
Proof.
  apply (every_finding_gets_weather_measures (λ _, "") (init []) (RawDict [])
           [no_significant_hazards] no_significant_hazards);
    [reflexivity | apply list_elem_of_here].
Defined.

(** ** Sanitising and the outcome of a prediction *)

(** X1.  [_sanitize_input] returns an observation for every input: a model
    object, or a dictionary the model accepts, comes back validated; any
    other dictionary is answered from the fallbacks, never by an error. *)
Theorem sanitising_never_raises (raw : RawWeather) :
  ∃ w, _sanitize_input raw = Ok w
       ∧ match raw with
         | RawModel w0 => w = clamped w0
         | RawDict items =>
             ∀ w0, WeatherData_init (normalize_keys items) = Ok w0 → w = clamped w0
         end.
Proof.
  destruct raw as [w0|items]; unfold _sanitize_input.
  - rewrite _validate_weather_data_clamped. eauto.
  - destruct (WeatherData_init (normalize_keys items)) as [w0|e]; unfold mbind, result_bind.
    + rewrite _validate_weather_data_clamped. eexists. split; [reflexivity|].
      intros w1 [= <-]. reflexivity.
    + destruct (WeatherData_init (salvage _)) as [w|e'].
      * exists w. split; [reflexivity | intros w0 H; discriminate H].
      * rewrite WeatherData_init_empty. eexists. split; [reflexivity|].
        intros w0 H. discriminate H.
Qed.

(** X7.  Which calls of [predict_disasters] return: on the sanitised
    observation, more than 30 mm of precipitation raises on the missing
    [precipitation_intensity]; otherwise a wind above 75 with a pressure
    below 980 raises on the missing [sea_surface_temp]; every other
    observation gets a list. *)
Theorem predict_disasters_returns_exactly_when (fmt : Q → string) (self : DisasterPredictor)
    (raw : RawWeather) (w : WeatherData) :
  _sanitize_input raw = Ok w →
  (30 < precipitation w →
   predict_disasters fmt self raw = Raise (AttributeError "precipitation_intensity"))
  ∧ (precipitation w <= 30 → 75 < wind_speed w → pressure w < 980 →
     predict_disasters fmt self raw = Raise (AttributeError "sea_surface_temp"))
  ∧ (precipitation w <= 30 → (wind_speed w <= 75 ∨ 980 <= pressure w) →
     ∃ l, predict_disasters fmt self raw = Ok l).
Proof.
  intros Hw.
  destruct (predict_disasters_outcome fmt self raw) as (w' & Hw' & ->).
  rewrite Hw in Hw'. injection Hw' as <-.
  split; [|split].
  - intros Hrain. apply Qgtb_gt in Hrain. rewrite Hrain. reflexivity.
  - intros Hrain Hwind Hpressure.
    apply Qgtb_le in Hrain. apply Qgtb_gt in Hwind. apply Qltb_lt in Hpressure.
    rewrite Hrain, Hwind, Hpressure. reflexivity.
  - intros Hrain Hcalm. apply Qgtb_le in Hrain. rewrite Hrain.
    assert (Hgate : (wind_speed w >? 75) && (pressure w <? 980) = false).
    { destruct Hcalm as [Hwind|Hpressure].
      - apply Qgtb_le in Hwind. rewrite Hwind. reflexivity.
      - apply Qltb_ge in Hpressure. rewrite Hpressure. apply andb_false_r. }
    rewrite Hgate. destruct (findings_of fmt self w); eauto.
Qed.

Lemma predict_disasters_returns_exactly_when_witness :
  predict_disasters (λ _, "") (init [])
    (RawDict [("precipitation", PyInt 10); ("wind_speed", PyInt 80); ("pressure", PyInt 970)])
  = Raise (AttributeError "sea_surface_temp").
Proof.
  eassert (Hw : _sanitize_input
                  (RawDict [("precipitation", PyInt 10); ("wind_speed", PyInt 80);
                            ("pressure", PyInt 970)]) = Ok _)
    by (vm_compute; reflexivity).
  destruct (predict_disasters_returns_exactly_when (λ _, "") (init []) _ _ Hw)
    as (_ & Hcyclone & _).
  apply Hcyclone; vm_compute; first [reflexivity | discriminate].
Defined.

Lemma flash_flood_and_hurricane_never_reported_witness :
  disaster_type no_significant_hazards ≠ "Flash Flood"
  ∧ contains "Hurricane/Cyclone" (disaster_type no_significant_hazards) = false.
Proof.
  apply (flash_flood_and_hurricane_never_reported (λ _, "") (init []) (RawDict [])
           [no_significant_hazards] no_significant_hazards);
    [reflexivity | apply list_elem_of_here].
Defined.

Lemma probabilities_within_ceiling_except_winter_witness :
  ∃ l, predict_disasters (λ _, "") (init []) (RawModel hot_day) = Ok l
       ∧ ∀ p, p ∈ l → 0 <= probability p ∧ probability p <= 1.
Proof.
  eexists. split; [vm_compute; reflexivity|].
  intros p Hp.
  destruct (probabilities_within_ceiling_except_winter (λ _, "") (init []) (RawModel hot_day)
              _ p ltac:(vm_compute; reflexivity) Hp) as (H0 & H1 & _).
  split; assumption.
Defined.

(** ** Learning, over any number of runs *)

(** X12.  Whatever the stored history and however often
    [learn_from_history] has run, the predictor holds a coefficient for
    exactly the seven families it started with, each within [0.5, 1.5]. *)
Theorem learning_keeps_coefficients_bounded (db : PredictionStorage) (n : nat)
    (family : string) :
  (family ∈ learned_families
   ↔ is_Some (learning_coefficients (Nat.iter n learn_from_history (init db)) !! family))
  ∧ ∀ c, learning_coefficients (Nat.iter n learn_from_history (init db)) !! family = Some c →
         0.5 <= c ∧ c <= 1.5.
Proof.
  pose proof (iterated_learning_lookup db n family) as Hlookup.
  destruct (learning_coefficients _ !! family) as [c|].
  - destruct Hlookup as (Hin & Hlo & Hhi). split.
    + split; [eauto | intros _; exact Hin].
    + intros c' [= <-]. split; assumption.
  - split.
    + split; [intros Hin; contradiction | intros [c Hc]; discriminate Hc].
    + intros c Hc. discriminate Hc.
Qed.

(** ** Location names *)

(** X15.  [correct_location_name] never invents a name: the answer is the
    input itself or one of the canonical names of the alias table. *)
Theorem correct_location_name_never_invents (similarity : string → string → Q)
    (location_input : string) :
  correct_location_name similarity location_input = location_input
  ∨ correct_location_name similarity location_input ∈ canonical_locations.
Proof.
  destruct (resolver_answer similarity location_input) as [Hsame|Hcanon];
    [left; exact Hsame | right; exact Hcanon].
Qed.

(** ** Prevention measures of a prediction *)

Lemma table_get_elem_of {V} (t : list (string * V)) (k : string) (v : V) :
  table_get k t = Some v → (k, v) ∈ t.
Proof.
  induction t as [|[k' v'] t IH]; cbn; [discriminate|].
  destruct (String.eqb_spec k k') as [->|_].
  - intros [= ->]. apply list_elem_of_here.
  - intros H. apply list_elem_of_further, IH, H.
Qed.

(** X18.  The catalogue of the prevention service has an entry for a
    category exactly when some finding other than the sentinel falls in
    it, and the entry is the list of that category for the severity of the
    first such finding: later findings of the category change nothing. *)
Theorem first_finding_of_a_category_decides (predictions : list DisasterPrediction)
    (category : string) (measures : list Measure.PreventionMeasure) :
  (category, measures) ∈ PreventionService.get_prevention_measures predictions
  ↔ ∃ prediction,
      List.find (PreventionService.decides category) predictions = Some prediction
      ∧ measures = PreventionService.preventions_for category (severity prediction).
Proof.
  split.
  - intros Hin.
    apply (elem_of_table_get _ _ _ (get_prevention_measures_NoDup predictions)) in Hin.
    rewrite get_prevention_measures_lookup in Hin.
    destruct (List.find _ predictions) as [prediction|]; [|discriminate Hin].
    injection Hin as <-. eauto.
  - intros (prediction & Hfind & ->). apply table_get_elem_of.
    rewrite get_prevention_measures_lookup, Hfind. reflexivity.
Qed.

(** X22.  Every hazard of a returned list is answered by the prevention
    service, under the category its label falls in, with a list that is
    not empty; the exceptions are the sentinel and the "Tsunami" finding,
    whose labels fall in no category. *)
Theorem hazards_get_measures_except_tsunami (fmt : Q → string) (self : DisasterPredictor)
    (raw : RawWeather) (l : list DisasterPrediction) (p : DisasterPrediction) :
  predict_disasters fmt self raw = Ok l → p ∈ l →
  ((disaster_type p = "Tsunami" ∨ disaster_type p = "No Significant Hazards")
   ∧ PreventionService.find_category (disaster_type p) = None)
  ∨ ∃ category measures,
      PreventionService.find_category (disaster_type p) = Some category
      ∧ table_get category (PreventionService.get_prevention_measures l) = Some measures
      ∧ measures ≠ [].
Proof.
  intros Hl Hp.
  destruct (returned_findings fmt self raw l Hl) as (w & _ & [-> | ->]).
  - apply list_elem_of_singleton in Hp as ->. left. split; [right|]; reflexivity.
  - destruct (findings_categorised fmt self w p Hp) as [Htsunami|[Hlabel [category Hcat]]].
    + left. rewrite Htsunami. split; [left|]; reflexivity.
    + right. exists category.
      rewrite get_prevention_measures_lookup.
      destruct (List.find _ (findings_of fmt self w)) as [q|] eqn:Hfind.
      * eexists. split; [exact Hcat|]. split; [reflexivity|].
        apply preventions_for_well_formed, (find_category_listed _ _ Hcat).
      * exfalso.
        pose proof (find_none _ _ Hfind p (proj1 (list_elem_of_In _ _) Hp)) as Hdec.
        unfold PreventionService.decides in Hdec.
        rewrite bool_decide_eq_true_2 in Hdec by exact Hcat.
        destruct (String.eqb_spec (disaster_type p) "No Significant Hazards");
          [contradiction | discriminate Hdec].
Qed.

Lemma hazards_get_measures_except_tsunami_witness :
  ∃ l p q, predict_disasters (λ _, "") (init [])
             (RawDict [("seismic_activity", PyFloat 7.2); ("coastal_proximity", PyInt 10)])
           = Ok l
         ∧ l = [p; q]
         ∧ PreventionService.find_category (disaster_type q) = None
         ∧ PreventionService.find_category (disaster_type p) = Some "Earthquake".
Proof.
  eexists. eexists. eexists. split; [vm_compute; reflexivity|]. split; [reflexivity|].
  split; [reflexivity|].
  destruct (hazards_get_measures_except_tsunami (λ _, "") (init [])
              (RawDict [("seismic_activity", PyFloat 7.2); ("coastal_proximity", PyInt 10)])
              _ (mkDisasterPrediction "Major Earthquake" 0.720 "Major"
                   "Seismic activity of magnitude  detected")
              ltac:(vm_compute; reflexivity) ltac:(apply list_elem_of_here))
    as [[_ Hnone]|(category & measures & Hcat & _)]; [discriminate Hnone|].
  reflexivity.
Defined.

(** ** Fetched weather: witnesses *)

Lemma heavy_rain_always_raises_witness :
  ∃ w, WeatherService.get_weather_data (λ w _ _, w)
         (WeatherService.mkAnswer 20 (PyInt 80) 45 10 (PyInt 1000) None None None None) = Ok w
       ∧ predict_disasters (λ _, "") (init []) (RawModel w)
         = Raise (AttributeError "precipitation_intensity").
Proof.
  eexists. split; [vm_compute; reflexivity|].
  eapply (heavy_rain_always_raises (λ w _ _, w) (λ _, "") (init [])
            (WeatherService.mkAnswer 20 (PyInt 80) 45 10 (PyInt 1000) None None None None));
    [vm_compute; reflexivity | reflexivity].
Defined.

Lemma fetched_weather_findings_witness :
  ∃ w l, WeatherService.get_weather_data (λ w _ _, w)
           (WeatherService.mkAnswer 45 (PyInt 20) 0 10 (PyInt 1010) None None None None) = Ok w
         ∧ predict_disasters (λ _, "") (Nat.iter 1 learn_from_history (init [])) (RawModel w)
           = Ok l
         ∧ l ≠ [no_significant_hazards]
         ∧ ∀ p, p ∈ l → disaster_type p ∈ fetched_labels.
Proof.
  eexists. eexists. split; [vm_compute; reflexivity|]. split; [vm_compute; reflexivity|].
  split; [discriminate|].
  intros p Hp.
  refine (fetched_weather_findings (λ w _ _, w) (λ _, "") [] 1
            (WeatherService.mkAnswer 45 (PyInt 20) 0 10 (PyInt 1010) None None None None)
            _ _ p _ _ Hp);
    [vm_compute; reflexivity | vm_compute; reflexivity].
Defined.

(** ** Which finding an entry answers *)

Lemma category_block fmt self w p :
  p ∈ findings_of fmt self w →
  (PreventionService.find_category (disaster_type p) = Some "Heat Wave" →
   p ∈ heat_findings (_calculate_heat_risk self w))
  ∧ (PreventionService.find_category (disaster_type p) = Some "Tornado" →
     p ∈ tornado_findings (tornado_risk_of w))
  ∧ (PreventionService.find_category (disaster_type p) = Some "Winter Storm" →
     p ∈ winter_findings w)
  ∧ (PreventionService.find_category (disaster_type p) = Some "Earthquake" →
     p ∈ earthquake_findings fmt w)
  ∧ (PreventionService.find_category (disaster_type p) = Some "Wildfire" →
     p ∈ wildfire_findings (_calculate_wildfire_risk self w))
  ∧ (PreventionService.find_category (disaster_type p) = Some "Air Quality" →
     p ∈ air_quality_findings w)
  ∧ PreventionService.find_category (disaster_type p) ≠ Some "Flash Flood"
  ∧ PreventionService.find_category (disaster_type p) ≠ Some "Hurricane/Cyclone".
Proof.
  unfold findings_of. rewrite !elem_of_app.
  intros [H|[H|[H|[H|[H|[H|[H|[H|H]]]]]]]]; repeat split; intros Hc; try exact H;
    exfalso; revert Hc; revert H;
    unfold flood_findings, urban_flood_findings, heat_findings, storm_findings,
      tornado_findings, winter_findings, earthquake_findings, tsunami_findings,
      wildfire_findings, air_quality_findings;
    try change (getattr w "underwater_quake") with (@None PyVal);
    by_block; vm_compute; discriminate.
Qed.

Lemma one_finding_per_category fmt self w p q category :
  p ∈ findings_of fmt self w → q ∈ findings_of fmt self w →
  PreventionService.find_category (disaster_type p) = Some category →
  PreventionService.find_category (disaster_type q) = Some category →
  category ≠ "Flood" → category ≠ "Storm" →
  p = q.
Proof.
  intros Hp Hq Hcp Hcq Hflood Hstorm.
  pose proof (find_category_listed _ _ Hcp) as Hlisted.
  destruct (category_block fmt self w p Hp) as (Hp1 & Hp2 & Hp3 & Hp4 & Hp5 & Hp6 & Hp7 & Hp8).
  destruct (category_block fmt self w q Hq) as (Hq1 & Hq2 & Hq3 & Hq4 & Hq5 & Hq6 & _ & _).
  unfold PreventionService.disaster_keywords in Hlisted. cbn [fmap list_fmap fst] in Hlisted.
  repeat (apply elem_of_cons in Hlisted as [->|Hlisted]);
    [..|apply elem_of_nil in Hlisted; contradiction];
    try contradiction;
    [ specialize (Hp1 Hcp); specialize (Hq1 Hcq); clear -Hp1 Hq1; revert Hp1 Hq1;
      unfold heat_findings
    | specialize (Hp5 Hcp); specialize (Hq5 Hcq); clear -Hp5 Hq5; revert Hp5 Hq5;
      unfold wildfire_findings
    | specialize (Hp2 Hcp); specialize (Hq2 Hcq); clear -Hp2 Hq2; revert Hp2 Hq2;
      unfold tornado_findings
    | specialize (Hp3 Hcp); specialize (Hq3 Hcq); clear -Hp3 Hq3; revert Hp3 Hq3;
      unfold winter_findings
    | specialize (Hp4 Hcp); specialize (Hq4 Hcq); clear -Hp4 Hq4 Hcp Hcq; revert Hp4 Hq4;
      unfold earthquake_findings, tsunami_findings;
      change (getattr w "underwater_quake") with (@None PyVal)
    | specialize (Hp6 Hcp); specialize (Hq6 Hcq); clear -Hp6 Hq6; revert Hp6 Hq6;
      unfold air_quality_findings ];
    by_block; intros Hin';
    repeat match goal with
           | H : _ ∈ [] |- _ => apply elem_of_nil in H; contradiction
           | H : _ ∈ _ :: _ |- _ => apply elem_of_cons in H as [->|H]
           end;
    first [ reflexivity
          | exfalso; vm_compute in Hcp; discriminate Hcp
          | exfalso; vm_compute in Hcq; discriminate Hcq ].
Qed.

(** X27.  Outside the "Flood" and "Storm" categories, which two blocks of
    [predict_disasters] can both feed, the entry the prevention service
    returns for a category is the list for the severity of the very
    finding that falls in it. *)
Theorem entry_answers_its_own_finding (fmt : Q → string) (self : DisasterPredictor)
    (raw : RawWeather) (l : list DisasterPrediction) (p : DisasterPrediction)
    (category : string) :
  predict_disasters fmt self raw = Ok l → p ∈ l →
  PreventionService.find_category (disaster_type p) = Some category →
  category ≠ "Flood" → category ≠ "Storm" →
  table_get category (PreventionService.get_prevention_measures l)
  = Some (PreventionService.preventions_for category (severity p)).
Proof.
  intros Hl Hp Hcat Hflood Hstorm.
  destruct (returned_findings fmt self raw l Hl) as (w & _ & [-> | ->]).
  { apply list_elem_of_singleton in Hp as ->. discriminate Hcat. }
  rewrite get_prevention_measures_lookup.
  destruct (List.find _ (findings_of fmt self w)) as [q|] eqn:Hfind.
  - apply find_some in Hfind as [Hq Hdec]. apply list_elem_of_In in Hq.
    unfold PreventionService.decides in Hdec.
    apply andb_true_iff in Hdec as [_ Hcq]. apply bool_decide_eq_true in Hcq.
    rewrite (one_finding_per_category fmt self w p q category Hp Hq Hcat Hcq Hflood Hstorm).
    reflexivity.
  - exfalso.
    pose proof (find_none _ _ Hfind p (proj1 (list_elem_of_In _ _) Hp)) as Hdec.
    unfold PreventionService.decides in Hdec.
    rewrite bool_decide_eq_true_2 in Hdec by exact Hcat.
    destruct (String.eqb_spec (disaster_type p) "No Significant Hazards") as [Heq|_];
      [|discriminate Hdec].
    rewrite Heq in Hcat. discriminate Hcat.
Qed.

Lemma entry_answers_its_own_finding_witness :
  ∃ l, predict_disasters (λ _, "") (init [])
         (RawDict [("temperature", PyInt 45); ("humidity", PyInt 5); ("wind_speed", PyInt 60);
                   ("consecutive_dry_days", PyInt 30)]) = Ok l
       ∧ table_get "Wildfire" (PreventionService.get_prevention_measures l)
         = Some (PreventionService.preventions_for "Wildfire" "Extreme").
Proof.
  eexists. split; [vm_compute; reflexivity|].
  refine (entry_answers_its_own_finding (λ _, "") (init [])
            (RawDict [("temperature", PyInt 45); ("humidity", PyInt 5); ("wind_speed", PyInt 60);
                      ("consecutive_dry_days", PyInt 30)])
            _ (mkDisasterPrediction "Extreme Fire Danger" _ "Extreme" _) "Wildfire" _ _ _ _ _);
    [ vm_compute; reflexivity
    | apply list_elem_of_further, list_elem_of_here
    | reflexivity | discriminate | discriminate ].
Defined.

(** X28.  Of the findings [predict_disasters] returns, those whose label
    holds "Storm", the "Winter Storm" one included, are answered with the
    thunderstorm list; the winter list is served for a "Blizzard" only. *)
Theorem winter_measures_only_for_blizzard (fmt : Q → string) (self : DisasterPredictor)
    (raw : RawWeather) (l : list DisasterPrediction) (p : DisasterPrediction) :
  predict_disasters fmt self raw = Ok l → p ∈ l →
  (contains "Storm" (disaster_type p) = true →
   PreventionService.find_category (disaster_type p) = Some "Storm")
  ∧ (PreventionService.find_category (disaster_type p) = Some "Winter Storm"
     ↔ disaster_type p = "Blizzard").
Proof.
  intros Hl Hp.
  destruct (returned_findings fmt self raw l Hl) as (w & _ & [-> | ->]).
  { apply list_elem_of_singleton in Hp as ->.
    split; [|split]; intros H; vm_compute in H; discriminate H. }
  revert Hp. unfold findings_of. rewrite !elem_of_app.
  intros [H|[H|[H|[H|[H|[H|[H|[H|H]]]]]]]]; revert H;
    unfold flood_findings, urban_flood_findings, heat_findings, storm_findings,
      tornado_findings, winter_findings, earthquake_findings, tsunami_findings,
      wildfire_findings, air_quality_findings;
    try change (getattr w "underwater_quake") with (@None PyVal);
    by_block;
    (split; [|split]); intros H;
    first [ reflexivity | vm_compute in H; discriminate H ].
Qed.

Lemma winter_measures_only_for_blizzard_witness :
  ∃ l p, predict_disasters (λ _, "") (init [])
           (RawDict [("temperature", PyInt (-3)); ("precipitation", PyInt 15)]) = Ok l
         ∧ p ∈ l
         ∧ disaster_type p = "Winter Storm"
         ∧ PreventionService.find_category (disaster_type p) = Some "Storm".
Proof.
  eexists. eexists. split; [vm_compute; reflexivity|].
  split; [apply list_elem_of_here|]. split; [reflexivity|].
  refine (proj1 (winter_measures_only_for_blizzard (λ _, "") (init [])
                   (RawDict [("temperature", PyInt (-3)); ("precipitation", PyInt 15)])
                   _ _ _ _) _);
    [ vm_compute; reflexivity | apply list_elem_of_here | reflexivity ].
Defined.
